(** * The Adventure Game: session engine

    A shallow embedding of the server-side session engine (command
    dispatcher, movement resolver, creation wizard steps, interaction
    handler and real-time combat loop) together with the properties the
    specification states about it.

    Conventions of the embedding.
    - JavaScript numbers that hold database INTEGER columns are [Z].
    - Strings are [string]; a character is a code unit below 256, so the
      whitespace and case tables below are the ones of JavaScript
      restricted to that range.
    - SQL tables are lists of rows in insertion order; the in-memory
      [Map]s of the server are [gmap]s.
    - [Math.random] and [uuidv4] are inputs of the functions that call
      them.
    - Handlers run in the monad [M]: a state monad over [World] whose
      result is either a value or a thrown exception; the state reached
      when an exception is thrown is kept, as the store has no
      transactions. *)

From Stdlib Require Import ZArith String Ascii List Bool Lia.
From stdpp Require Import base option list gmap strings pretty.
Import ListNotations.

Local Open Scope string_scope.
Local Open Scope list_scope.
Local Open Scope Z_scope.

(** ** JavaScript string primitives *)

Module JsString.

(** White space of [String.prototype.trim] and of the regexp class
    [\s], for code units below 256: TAB, LF, VT, FF, CR, SPACE and
    NO-BREAK SPACE. *)
Definition is_space (c : ascii) : bool :=
  match nat_of_ascii c with
  | 9%nat | 10%nat | 11%nat | 12%nat | 13%nat | 32%nat | 160%nat => true
  | _ => false
  end.

(** [toLowerCase] on one code unit below 256. *)
Definition lower_char (c : ascii) : ascii :=
  let n := nat_of_ascii c in
  if ((65 <=? n) && (n <=? 90))%nat then ascii_of_nat (n + 32)
  else if ((192 <=? n) && (n <=? 222) && negb (n =? 215))%nat
       then ascii_of_nat (n + 32)
       else c.

(** SQLite's [LOWER] folds the ASCII letters only. *)
Definition sql_lower_char (c : ascii) : ascii :=
  let n := nat_of_ascii c in
  if ((65 <=? n) && (n <=? 90))%nat then ascii_of_nat (n + 32) else c.

Fixpoint map_chars (f : ascii -> ascii) (s : string) : string :=
  match s with
  | EmptyString => EmptyString
  | String c s' => String (f c) (map_chars f s')
  end.

Definition toLowerCase : string -> string := map_chars lower_char.
Definition sql_lower : string -> string := map_chars sql_lower_char.

Fixpoint trimStart (s : string) : string :=
  match s with
  | String c s' => if is_space c then trimStart s' else s
  | EmptyString => EmptyString
  end.

(** [trimEnd] keeps a character when it is not white space or when
    something is kept after it. *)
Fixpoint trimEnd (s : string) : string :=
  match s with
  | EmptyString => EmptyString
  | String c s' =>
      match trimEnd s' with
      | EmptyString => if is_space c then EmptyString else String c EmptyString
      | t => String c t
      end
  end.

Definition trim (s : string) : string := trimEnd (trimStart s).

(** [s.split(/\s+/)]: every maximal run of white space is one
    separator; a separator at either end leaves an empty piece there,
    and the empty string splits into one empty piece. [cur] is the
    piece being read, reversed; [in_ws] tells that the previous
    character belonged to a separator. *)
Fixpoint split_ws_aux (cur : list ascii) (in_ws : bool) (s : string)
  : list string :=
  match s with
  | EmptyString => [string_of_list_ascii (rev cur)]
  | String c s' =>
      if is_space c then
        if in_ws then split_ws_aux cur true s'
        else string_of_list_ascii (rev cur) :: split_ws_aux [] true s'
      else split_ws_aux (c :: cur) false s'
  end.

Definition split_ws (s : string) : list string := split_ws_aux [] false s.

(** [arr.join(' ')]. *)
Fixpoint join_sp (l : list string) : string :=
  match l with
  | [] => ""
  | [x] => x
  | x :: l' => (x ++ " " ++ join_sp l')%string
  end.

Definition startsWith (s p : string) : bool := String.prefix p s.

(** [s.substring(n)]. *)
Fixpoint substring_from (n : nat) (s : string) : string :=
  match n, s with
  | O, _ => s
  | S n', String _ s' => substring_from n' s'
  | S _, EmptyString => EmptyString
  end.

(** A string is truthy when it is not empty. *)
Definition truthy (s : string) : bool :=
  match s with EmptyString => false | _ => true end.

(** Truthiness of a [string | null] value. *)
Definition truthy_opt (o : option string) : bool :=
  match o with Some s => truthy s | None => false end.

Definition digit_val (c : ascii) : option Z :=
  let n := nat_of_ascii c in
  if ((48 <=? n) && (n <=? 57))%nat then Some (Z.of_nat n - 48) else None.

(** The longest run of decimal digits at the head of [s], read as a
    number in base ten; [None] when there is no digit. *)
Fixpoint digits_aux (acc : option Z) (s : string) : option Z :=
  match s with
  | EmptyString => acc
  | String c s' =>
      match digit_val c with
      | Some d => digits_aux (Some (10 * default 0 acc + d)) s'
      | None => acc
      end
  end.

(** [parseInt(s, 10)]; [None] is [NaN]. The value is the integer the
    digits denote. JavaScript holds it in a double, which is that
    integer up to [MAX_SAFE_INTEGER] and a rounded one beyond: whether
    there is a number, and on which side of a small bound it lies, is
    as here for every text; where a property stores the value itself,
    it asks for a value up to [MAX_SAFE_INTEGER]. *)
Definition parseInt (s : string) : option Z :=
  match trimStart s with
  | String "-" s' => Z.opp <$> digits_aux None s'
  | String "+" s' => digits_aux None s'
  | t => digits_aux None t
  end.

(** [Number.MAX_SAFE_INTEGER], 2^53 - 1. *)
Definition MAX_SAFE_INTEGER : Z := 2 ^ 53 - 1.

End JsString.

Import JsString.

(** ** Movement: directions on the axial hex grid *)

Inductive Direction := dir_n | dir_s | dir_ne | dir_se | dir_nw | dir_sw.

Definition direction_of_string (s : string) : option Direction :=
  if String.eqb s "n" then Some dir_n
  else if String.eqb s "s" then Some dir_s
  else if String.eqb s "ne" then Some dir_ne
  else if String.eqb s "se" then Some dir_se
  else if String.eqb s "nw" then Some dir_nw
  else if String.eqb s "sw" then Some dir_sw
  else None.

Definition parseDirection (raw : string) : option Direction :=
  let trimmed := toLowerCase (trim raw) in
  if negb (truthy trimmed) then None
  else
    let parts := split_ws trimmed in
    let dir := List.nth 0 parts "" in
    let dir :=
      if String.eqb dir "go" && truthy_opt (List.nth_error parts 1)
      then List.nth 1 parts "" else dir in
    direction_of_string dir.

Record Coord := mkCoord { cq : Z; cr : Z }.

Definition moveAxial (q r : Z) (dir : Direction) : Coord :=
  match dir with
  | dir_n => mkCoord q (r - 1)
  | dir_s => mkCoord q (r + 1)
  | dir_ne => mkCoord (q + 1) (r - 1)
  | dir_sw => mkCoord (q - 1) (r + 1)
  | dir_nw => mkCoord (q - 1) r
  | dir_se => mkCoord (q + 1) r
  end.

(** The offset table of the specification, written as a table. *)
Definition offset (dir : Direction) : Z * Z :=
  match dir with
  | dir_n => (0, -1)
  | dir_s => (0, 1)
  | dir_ne => (1, -1)
  | dir_sw => (-1, 1)
  | dir_nw => (-1, 0)
  | dir_se => (1, 0)
  end.

Definition opposite (dir : Direction) : Direction :=
  match dir with
  | dir_n => dir_s
  | dir_s => dir_n
  | dir_ne => dir_sw
  | dir_sw => dir_ne
  | dir_nw => dir_se
  | dir_se => dir_nw
  end.

(** ** Persisted entities *)

(** [User.state]: the closed enumeration of modes. The two wizard
    steps [CREATING_OBJ_SUPPLY_TYPE] and [CREATING_OBJ_VERB_CONFIRM] are
    used by the creation wizard although the type declaration omits
    them. *)
Inductive Mode :=
| IDLE
| CREATING_ROOM_TITLE | CREATING_ROOM_DESC | CREATING_ROOM_MOOD
| CREATING_ROOM_SHROUD
| CREATING_OBJ_CONFIRM | CREATING_OBJ_NAME | CREATING_OBJ_DESC
| CREATING_OBJ_VERB | CREATING_OBJ_SUCCESS_MSG | CREATING_OBJ_TYPE
| CREATING_OBJ_VALUE | CREATING_OBJ_CONTENTS | CREATING_OBJ_ENEMY_STATS
| CREATING_OBJ_REQUIREMENT | CREATING_OBJ_SUPPLY_TYPE
| CREATING_OBJ_VERB_CONFIRM
| GENERATING_ANIMATIONS
| COMBAT.

#[global] Instance Mode_eq_dec : EqDecision Mode.
Proof. solve_decision. Defined.

(** The text stored in the [state] column. *)
Definition mode_name (m : Mode) : string :=
  match m with
  | IDLE => "IDLE"
  | CREATING_ROOM_TITLE => "CREATING_ROOM_TITLE"
  | CREATING_ROOM_DESC => "CREATING_ROOM_DESC"
  | CREATING_ROOM_MOOD => "CREATING_ROOM_MOOD"
  | CREATING_ROOM_SHROUD => "CREATING_ROOM_SHROUD"
  | CREATING_OBJ_CONFIRM => "CREATING_OBJ_CONFIRM"
  | CREATING_OBJ_NAME => "CREATING_OBJ_NAME"
  | CREATING_OBJ_DESC => "CREATING_OBJ_DESC"
  | CREATING_OBJ_VERB => "CREATING_OBJ_VERB"
  | CREATING_OBJ_SUCCESS_MSG => "CREATING_OBJ_SUCCESS_MSG"
  | CREATING_OBJ_TYPE => "CREATING_OBJ_TYPE"
  | CREATING_OBJ_VALUE => "CREATING_OBJ_VALUE"
  | CREATING_OBJ_CONTENTS => "CREATING_OBJ_CONTENTS"
  | CREATING_OBJ_ENEMY_STATS => "CREATING_OBJ_ENEMY_STATS"
  | CREATING_OBJ_REQUIREMENT => "CREATING_OBJ_REQUIREMENT"
  | CREATING_OBJ_SUPPLY_TYPE => "CREATING_OBJ_SUPPLY_TYPE"
  | CREATING_OBJ_VERB_CONFIRM => "CREATING_OBJ_VERB_CONFIRM"
  | GENERATING_ANIMATIONS => "GENERATING_ANIMATIONS"
  | COMBAT => "COMBAT"
  end.

Definition mode_eqb (a b : Mode) : bool := bool_decide (a = b).

Module User.
Record t := mk {
  id : string;
  handle : string;
  server_code : string;
  strength : Z;
  hp : Z;
  max_hp : Z;
  gold : Z;
  current_q : Z;
  current_r : Z;
  state : Mode;
}.

Definition set_hp (v : Z) (u : t) : t :=
  mk (id u) (handle u) (server_code u) (strength u) v (max_hp u) (gold u)
     (current_q u) (current_r u) (state u).
Definition set_max_hp (v : Z) (u : t) : t :=
  mk (id u) (handle u) (server_code u) (strength u) (hp u) v (gold u)
     (current_q u) (current_r u) (state u).
Definition set_gold (v : Z) (u : t) : t :=
  mk (id u) (handle u) (server_code u) (strength u) (hp u) (max_hp u) v
     (current_q u) (current_r u) (state u).
Definition set_strength (v : Z) (u : t) : t :=
  mk (id u) (handle u) (server_code u) v (hp u) (max_hp u) (gold u)
     (current_q u) (current_r u) (state u).
Definition set_position (q r : Z) (u : t) : t :=
  mk (id u) (handle u) (server_code u) (strength u) (hp u) (max_hp u)
     (gold u) q r (state u).
Definition set_state (m : Mode) (u : t) : t :=
  mk (id u) (handle u) (server_code u) (strength u) (hp u) (max_hp u)
     (gold u) (current_q u) (current_r u) m.
End User.

Module Room.
Record t := mk {
  id : string;
  q : Z;
  r : Z;
  server_code : string;
  title : string;
  description : string;
  shroud_level : Z;
  created_by : string;
  symbol : option string;
}.
End Room.

Inductive EffectType := GOLD | HEAL | DAMAGE | NONE | ITEM.

Module Item.
(** [is_infinite] is read by the interaction handler and passed to
    [createItem] by the wizard; the type declaration and the schema do
    not list it. The record is the object the handlers pass around: an
    argument of [createItem] may carry the mark, a row of the items
    table never does, since [createItem] does not store it, and reads
    as [0]. *)
Record t := mk {
  id : string;
  room_id : option string;
  owner_id : option string;
  server_code : string;
  name : string;
  description : string;
  success_message : string;
  interact_verb : string;
  effect_type : EffectType;
  effect_value : Z;
  is_hidden : Z;
  required_item_id : option string;
  enemy_hp : Z;
  enemy_max_hp : Z;
  enemy_attack : Z;
  xp_value : Z;
  is_infinite : Z;
}.

Definition set_id (v : string) (i : t) : t :=
  mk v (room_id i) (owner_id i) (server_code i) (name i) (description i)
     (success_message i) (interact_verb i) (effect_type i) (effect_value i)
     (is_hidden i) (required_item_id i) (enemy_hp i) (enemy_max_hp i)
     (enemy_attack i) (xp_value i) (is_infinite i).
Definition set_placement (owner room : option string) (i : t) : t :=
  mk (id i) room owner (server_code i) (name i) (description i)
     (success_message i) (interact_verb i) (effect_type i) (effect_value i)
     (is_hidden i) (required_item_id i) (enemy_hp i) (enemy_max_hp i)
     (enemy_attack i) (xp_value i) (is_infinite i).
Definition set_required_item_id (v : option string) (i : t) : t :=
  mk (id i) (room_id i) (owner_id i) (server_code i) (name i) (description i)
     (success_message i) (interact_verb i) (effect_type i) (effect_value i)
     (is_hidden i) v (enemy_hp i) (enemy_max_hp i)
     (enemy_attack i) (xp_value i) (is_infinite i).
Definition set_enemy_hp (v : Z) (i : t) : t :=
  mk (id i) (room_id i) (owner_id i) (server_code i) (name i) (description i)
     (success_message i) (interact_verb i) (effect_type i) (effect_value i)
     (is_hidden i) (required_item_id i) v (enemy_max_hp i)
     (enemy_attack i) (xp_value i) (is_infinite i).
Definition set_is_infinite (v : Z) (i : t) : t :=
  mk (id i) (room_id i) (owner_id i) (server_code i) (name i) (description i)
     (success_message i) (interact_verb i) (effect_type i) (effect_value i)
     (is_hidden i) (required_item_id i) (enemy_hp i) (enemy_max_hp i)
     (enemy_attack i) (xp_value i) v.
End Item.

Inductive AnimationType :=
| TAPESTRY | INTERACTION | COMBAT_DURING | COMBAT_VICTORY | COMBAT_RETREAT.

#[global] Instance AnimationType_eq_dec : EqDecision AnimationType.
Proof. solve_decision. Defined.

Module Animation.
Record t := mk {
  id : string;
  room_id : option string;
  object_id : option string;
  type : AnimationType;
  frames : list string;
  fps : Z;
}.
End Animation.

(** [a === b] where [b] may be [null]. *)
Definition eqb_opt (a : string) (b : option string) : bool :=
  match b with Some s => String.eqb a s | None => false end.

(** [x || d] on numbers. *)
Definition or_num (x d : Z) : Z := if (x =? 0)%Z then d else x.

(** The database: one list of rows per table, in insertion order. *)
Record Db := mkDb {
  users : list User.t;
  rooms : list Room.t;
  items : list Item.t;
  animations : list Animation.t;
}.

(** ** Transient records *)

Module TempRoomData.
Record t := mk {
  title : option string;
  description : option string;
  mood : option string;
  q : Z;
  r : Z;
}.
End TempRoomData.

Inductive InteractionType :=
| FLAVOR | TREASURE | BUFF_TRAP | PICKUP | ENEMY | GATE.

Module TempItemData.
(** [requiredItemId] is [string | null | undefined]: the outer option
    is "set or not", the inner one the value. [effectType] only ever
    receives ['COMBAT'] and is not read back; it is kept as a flag. *)
Record t := mk {
  name : option string;
  description : option string;
  verb : option string;
  successMessage : option string;
  effectTypeCombat : bool;
  effectValue : option Z;
  interactionType : option InteractionType;
  enemyHp : option Z;
  enemyMaxHp : option Z;
  enemyAttack : option Z;
  isInfinite : option bool;
  xpValue : option Z;
  requiredItemId : option (option string);
  requiredItemName : option string;
  roomId : string;
}.

(** The object literal [{ roomId }]. *)
Definition fresh (room : string) : t :=
  mk None None None None false None None None None None None None None None
     room.

Definition set_verb (v : string) (d : t) : t :=
  mk (name d) (description d) (Some v) (successMessage d)
     (effectTypeCombat d) (effectValue d) (interactionType d) (enemyHp d)
     (enemyMaxHp d) (enemyAttack d) (isInfinite d) (xpValue d)
     (requiredItemId d) (requiredItemName d) (roomId d).
Definition set_successMessage (v : string) (d : t) : t :=
  mk (name d) (description d) (verb d) (Some v)
     (effectTypeCombat d) (effectValue d) (interactionType d) (enemyHp d)
     (enemyMaxHp d) (enemyAttack d) (isInfinite d) (xpValue d)
     (requiredItemId d) (requiredItemName d) (roomId d).
Definition set_required (rid : option string) (rname : string) (d : t) : t :=
  mk (name d) (description d) (verb d) (successMessage d)
     (effectTypeCombat d) (effectValue d) (interactionType d) (enemyHp d)
     (enemyMaxHp d) (enemyAttack d) (isInfinite d) (xpValue d)
     (Some rid) (Some rname) (roomId d).
End TempItemData.

(** [state/store.ts]: the three process-wide maps. *)
Record Store := mkStore {
  socketUserMap : gmap string string;
  tempRoomDataMap : gmap string TempRoomData.t;
  tempItemDataMap : gmap string TempItemData.t;
}.

Module ActiveBattle.
Record t := mk {
  userId : string;
  socketId : string;
  enemyId : string;
  interval : nat;
}.
End ActiveBattle.

(** [game/combatState.ts]: the battle registry. *)
Record CombatState := mkCombatState {
  activeBattles : gmap string nat;
  battleData : gmap string ActiveBattle.t;
}.

(** What the callback given to [setInterval] in [handleFight] closes
    over. *)
Record TickClosure := mkTickClosure {
  tc_socket : string;
  tc_user : User.t;
  tc_target : Item.t;
}.

(** The timers of the event loop: the live interval handles with their
    callbacks. [clearInterval] removes a handle, and a removed handle
    never fires again. *)
Record Timers := mkTimers {
  live : gmap nat TickClosure;
  next_handle : nat;
}.

(** ** Outbound events *)

Inductive LogType :=
| log_info | log_error | log_chat | log_room_title | log_room_desc
| log_room_items | log_prompt.

(** The texts of the [game:log] events. A text built from a template is
    a constructor that carries the values put into the template. *)
Inductive Msg :=
| msg_fallen                                  (* You have fallen. The world fades... *)
| msg_awaken (gold : Z)                       (* You awaken at The Crash Site. You have _ gold remaining. *)
| msg_already_in_combat                       (* You are already in combat! Use "retreat" to escape. *)
| msg_cannot_fight (st : Mode)                (* Cannot fight while in _ state. *)
| msg_nothing_to_fight                        (* You are in undefined space. There is nothing to fight here. *)
| msg_dont_see (target : string)              (* You don't see "_" here. *)
| msg_peaceful                                (* That is peaceful. *)
| msg_combat_begins (name : string)           (* Combat begins with _! *)
| msg_defeated_enemy (name : string) (xp : Z) (* You defeated the _! Gained _ gold. *)
| msg_not_in_combat                           (* You are not in combat. *)
| msg_escaped                                 (* You escaped with your life. *)
| msg_not_valid_room                          (* You are not in a valid room. *)
| msg_cant_verb (verb name : string)          (* You can't _ the _. *)
| msg_need_item (hint : option string)        (* You need a specific item to do that. [(You need a _)] *)
| msg_been_defeated                           (* You have been defeated! *)
| msg_already_have (name : string)            (* You already have the _. *)
| msg_gained_gold (v : Z)                     (* You gained _ gold! *)
| msg_recovered (v : Z)                       (* You recovered _ HP! *)
| msg_took_damage (v : Z)                     (* You took _ damage! *)
| msg_picked_up (name : string)               (* You picked up the _. *)
| msg_you_verb (verb name : string)           (* You _ the _. *)
| msg_item_text (s : string)                  (* the item's own success message *)
| msg_cannot_move (st : Mode)                 (* Cannot move while in _ state. *)
| msg_what_called                             (* What is this place called? *)
| msg_session_expired                         (* Creation session expired. Please try again. *)
| msg_name_empty                              (* Item name cannot be empty. *)
| msg_found_item (name : string)              (* Found item: "_". Gate will require this item. *)
| msg_gate_warning (name : string)            (* Warning: Item "_" not found in this room. Gate will be created but may not work until the item exists. *)
| msg_default_verb (verb : string)            (* Default verb is '_'. Press 'Y' to confirm or type a custom verb. *)
| msg_describe_happens (verb name : option string)  (* Describe what happens when someone _ _. *)
| msg_object_created (name : option string)   (* Object "_" created! *)
| msg_add_object                              (* Add an object? (y/n) *)
| msg_user_not_found                          (* User not found for this session. *)
| msg_user_missing                            (* User record missing. *)
| msg_no_enemy_at (n : Z)                     (* No enemy at position _. *)
| msg_no_object_at (n : Z)                    (* No object at position _. *)
| msg_unknown_command (raw : string).         (* Unknown command: _ *)

(** [player] is filled from [repo.getUser(...)!]; where the handler does
    not read a property of that value a missing row is sent as
    [undefined], here [None]. *)
Record StateUpdatePayload := mkStateUpdate {
  player : option User.t;
  room : Room.t;
  visibleRooms : list Room.t;
  roomItems : list Item.t;
  inventory : option (list Item.t);
}.

Inductive Source := src_player | src_enemy | src_tie.

Record CombatUpdatePayload := mkCombatUpdate {
  playerHp : Z;
  playerMaxHp : Z;
  enemyHp : Z;
  enemyMaxHp : Z;
  playerRoll : Z;
  enemyRoll : Z;
  damage : Z;
  source : Source;
}.

Inductive CombatEndResult := win | loss | retreat.

Inductive Event :=
| game_log (text : Msg) (type : LogType) (label : option string)
| state_update (p : StateUpdatePayload)
| combat_update (p : CombatUpdatePayload)
| combat_end (result : CombatEndResult) (loot : option Z)
| animation_play (a : Animation.t).

(** ** The world and the handler monad *)

(** [outbox] records every [socket.emit], oldest first, with the id of
    the socket it was emitted on. *)
Record World := mkWorld {
  db : Db;
  store : Store;
  combat : CombatState;
  timers : Timers;
  outbox : list (string * Event);
}.

Definition with_db (f : Db -> Db) (w : World) : World :=
  mkWorld (f (db w)) (store w) (combat w) (timers w) (outbox w).
Definition with_store (f : Store -> Store) (w : World) : World :=
  mkWorld (db w) (f (store w)) (combat w) (timers w) (outbox w).
Definition with_combat (f : CombatState -> CombatState) (w : World) : World :=
  mkWorld (db w) (store w) (f (combat w)) (timers w) (outbox w).
Definition with_timers (f : Timers -> Timers) (w : World) : World :=
  mkWorld (db w) (store w) (combat w) (f (timers w)) (outbox w).
Definition with_outbox (f : list (string * Event) -> list (string * Event))
    (w : World) : World :=
  mkWorld (db w) (store w) (combat w) (timers w) (f (outbox w)).

Inductive Exn :=
| Error (message : string)
| TypeError          (* a property read on [undefined] *)
| SqliteError.       (* a constraint of the schema refused the statement *)

Inductive Res (A : Type) :=
| Ok (a : A)
| Throw (e : Exn).
Arguments Ok {A} a.
Arguments Throw {A} e.

Definition M (A : Type) : Type := World -> Res A * World.

Definition ret {A} (a : A) : M A := fun w => (Ok a, w).
Definition bind {A B} (m : M A) (k : A -> M B) : M B :=
  fun w => match m w with
           | (Ok a, w') => k a w'
           | (Throw e, w') => (Throw e, w')
           end.
Definition throw {A} (e : Exn) : M A := fun w => (Throw e, w).
Definition gets {A} (f : World -> A) : M A := fun w => (Ok (f w), w).
Definition modify (f : World -> World) : M unit := fun w => (Ok tt, f w).

Declare Scope m_scope.
Delimit Scope m_scope with M.
Notation "'let*' x := m 'in' k" := (bind m (fun x => k))
  (at level 10, x name, m at level 100, k at level 200) : m_scope.
Notation "m >>> k" := (bind m (fun _ => k))
  (at level 100, k at level 200, right associativity) : m_scope.
Local Open Scope m_scope.

(** The final state of a handler run. *)
Definition exec {A} (m : M A) (w : World) : World := snd (m w).
(** Its result. *)
Definition eval {A} (m : M A) (w : World) : Res A := fst (m w).

(** [x!.field]: reading through a non-null assertion. *)
Definition unwrap {A} (o : option A) : M A :=
  match o with Some a => ret a | None => throw TypeError end.

Definition when (b : bool) (m : M unit) : M unit := if b then m else ret tt.

(** [socket.emit]. *)
Definition emit (socket : string) (e : Event) : M unit :=
  modify (with_outbox (fun o => o ++ [(socket, e)])).

(** ** [db/repo.ts]: the accessors of the world repository *)

Module repo.

Definition on_users (f : list User.t -> list User.t) (d : Db) : Db :=
  mkDb (f (users d)) (rooms d) (items d) (animations d).
Definition on_items (f : list Item.t -> list Item.t) (d : Db) : Db :=
  mkDb (users d) (rooms d) (f (items d)) (animations d).
Definition on_animations (f : list Animation.t -> list Animation.t)
    (d : Db) : Db :=
  mkDb (users d) (rooms d) (items d) (f (animations d)).

(** [UPDATE users SET ... WHERE id = ?]. *)
Definition update_user (uid : string) (f : User.t -> User.t)
    (l : list User.t) : list User.t :=
  map (fun u => if String.eqb (User.id u) uid then f u else u) l.

(** [UPDATE items SET ... WHERE id = ?]. *)
Definition update_item (iid : string) (f : Item.t -> Item.t)
    (l : list Item.t) : list Item.t :=
  map (fun i => if String.eqb (Item.id i) iid then f i else i) l.

Definition user_exists (uid : string) (d : Db) : bool :=
  existsb (fun u => String.eqb (User.id u) uid) (users d).
Definition room_exists (rid : string) (d : Db) : bool :=
  existsb (fun r => String.eqb (Room.id r) rid) (rooms d).
Definition item_exists (iid : string) (d : Db) : bool :=
  existsb (fun i => String.eqb (Item.id i) iid) (items d).

(** A nullable foreign key holds when it is [NULL] or names a row. *)
Definition fk_ok (exists_in : string -> Db -> bool) (k : option string)
    (d : Db) : bool :=
  match k with Some s => exists_in s d | None => true end.

Definition getUser (uid : string) : M (option User.t) :=
  gets (fun w => find (fun u => String.eqb (User.id u) uid) (users (db w))).

Definition updateUserPosition (uid : string) (q r : Z) : M unit :=
  modify (with_db (on_users (update_user uid (User.set_position q r)))).

Definition updateUserState (uid : string) (m : Mode) : M unit :=
  modify (with_db (on_users (update_user uid (User.set_state m)))).

Definition getRoom (q r : Z) (serverCode : string) : M (option Room.t) :=
  if negb (truthy serverCode)
  then throw (Error "serverCode is required for getRoom")
  else gets (fun w =>
    find (fun rm => (Room.q rm =? q) && (Room.r rm =? r)
                    && String.eqb (Room.server_code rm) serverCode)
         (rooms (db w))).

(** The default radius of the bounding box is 5. *)
Definition getVisibleRooms (q r : Z) (serverCode : string)
  : M (list Room.t) :=
  if negb (truthy serverCode)
  then throw (Error "serverCode is required for getVisibleRooms")
  else
    let radius := 5 in
    gets (fun w =>
      filter (fun rm => Is_true (
                (q - radius <=? Room.q rm) && (Room.q rm <=? q + radius)
                && (r - radius <=? Room.r rm) && (Room.r rm <=? r + radius)
                && String.eqb (Room.server_code rm) serverCode))
             (rooms (db w))).

Definition in_room (roomId serverCode : string) (i : Item.t) : bool :=
  eqb_opt roomId (Item.room_id i)
  && negb (bool_decide (is_Some (Item.owner_id i)))
  && String.eqb (Item.server_code i) serverCode.

Definition getRoomItems (roomId serverCode : string) : M (list Item.t) :=
  if negb (truthy serverCode)
  then throw (Error "serverCode is required for getRoomItems")
  else gets (fun w =>
    filter (fun i => Is_true (in_room roomId serverCode i)) (items (db w))).

Definition getItem (itemId : string) : M (option Item.t) :=
  gets (fun w =>
    find (fun i => String.eqb (Item.id i) itemId) (items (db w))).

Definition getItemByName (roomId name serverCode : string)
  : M (option Item.t) :=
  if negb (truthy serverCode)
  then throw (Error "serverCode is required for getItemByName")
  else gets (fun w =>
    find (fun i => eqb_opt roomId (Item.room_id i)
                   && String.eqb (sql_lower (Item.name i)) (sql_lower name)
                   && negb (bool_decide (is_Some (Item.owner_id i)))
                   && String.eqb (Item.server_code i) serverCode)
         (items (db w))).

Definition owned_by (userId serverCode : string) (i : Item.t) : bool :=
  eqb_opt userId (Item.owner_id i)
  && String.eqb (Item.server_code i) serverCode.

Definition getUserInventory (userId serverCode : string)
  : M (list Item.t) :=
  if negb (truthy serverCode)
  then throw (Error "serverCode is required for getUserInventory")
  else gets (fun w =>
    filter (fun i => Is_true (owned_by userId serverCode i)) (items (db w))).

(** [Partial<Pick<User, 'hp' | 'max_hp' | 'gold' | 'strength'>>]. *)
Record Stats := mkStats {
  s_hp : option Z;
  s_max_hp : option Z;
  s_gold : option Z;
  s_strength : option Z;
}.
Definition stats_hp (v : Z) : Stats := mkStats (Some v) None None None.
Definition stats_gold (v : Z) : Stats := mkStats None None (Some v) None.

Definition apply_opt {A} (set : Z -> A -> A) (o : option Z) (a : A) : A :=
  match o with Some v => set v a | None => a end.

Definition apply_stats (s : Stats) (u : User.t) : User.t :=
  apply_opt User.set_strength (s_strength s)
    (apply_opt User.set_gold (s_gold s)
      (apply_opt User.set_max_hp (s_max_hp s)
        (apply_opt User.set_hp (s_hp s) u))).

Definition updateUserStats (userId : string) (s : Stats) : M unit :=
  match s with
  | mkStats None None None None => ret tt
  | _ => modify (with_db (on_users (update_user userId (apply_stats s))))
  end.

(** The statement is refused when the new owner or the new room does
    not name a row ([PRAGMA foreign_keys = ON]). A statement that
    matches no row checks nothing. *)
Definition setItemOwner (itemId : string) (ownerId roomId : option string)
  : M unit :=
  let* d := gets db in
  if item_exists itemId d
     && negb (fk_ok user_exists ownerId d && fk_ok room_exists roomId d)
  then throw SqliteError
  else modify (with_db (on_items
         (update_item itemId (Item.set_placement ownerId roomId)))).

Definition updateItemEnemyHp (itemId : string) (hp : Z) : M unit :=
  modify (with_db (on_items (update_item itemId (Item.set_enemy_hp hp)))).

(** Three statements: the animations of the item go, the references
    to it from other items are cleared, the row goes. *)
Definition deleteItem (itemId : string) : M unit :=
  modify (with_db (on_animations
    (filter (fun a => ~ Is_true (eqb_opt itemId (Animation.object_id a))))))
  >>>
  modify (with_db (on_items
    (map (fun i => if eqb_opt itemId (Item.required_item_id i)
                   then Item.set_required_item_id None i else i))))
  >>>
  modify (with_db (on_items
    (filter (fun i => ~ Is_true (String.eqb (Item.id i) itemId))))).

(** [createItem]; [newId] is the value of [uuidv4()], the id of [item]
    is ignored. The INSERT lists sixteen columns and [is_infinite] is
    not one of them, so the row read back does not carry it. The
    INSERT is refused when the id is taken or a foreign key names no
    row. *)
Definition createItem (newId : string) (item : Item.t) : M Item.t :=
  if negb (truthy (Item.server_code item))
  then throw (Error "server_code is required for createItem")
  else
    let* d := gets db in
    if item_exists newId d
       || negb (fk_ok room_exists (Item.room_id item) d
                && fk_ok user_exists (Item.owner_id item) d
                && fk_ok item_exists (Item.required_item_id item) d)
    then throw SqliteError
    else
      modify (with_db (on_items (fun l =>
        l ++ [Item.set_is_infinite 0 (Item.set_id newId item)])))
      >>>
      let* created := getItem newId in
      unwrap created.

Definition getItemAnimation (itemId : string) (type : AnimationType)
  : M (option Animation.t) :=
  gets (fun w =>
    find (fun a => eqb_opt itemId (Animation.object_id a)
                   && bool_decide (Animation.type a = type))
         (animations (db w))).

Definition getRoomAnimationByType (roomId : string) (type : AnimationType)
  : M (option Animation.t) :=
  gets (fun w =>
    find (fun a => eqb_opt roomId (Animation.room_id a)
                   && bool_decide (Animation.type a = type))
         (animations (db w))).

(** Modelled from the spec: [cloneItemForUser] is called by the
    interaction handler but is absent from the repository module. The
    specification says that an infinite item is a template pickup
    "cloned per acquiring user rather than moved" and that two
    pickups yield "two independent inventory rows": the clone is a
    new row with a fresh id ([newId], the value of [uuidv4()]), owned
    by the user, placed in no room, and otherwise equal to the
    template, which is left as it is. The handler calls it for a row
    that carries [is_infinite]; no row of the items table does. *)
Definition cloneItemForUser (newId : string) (item : Item.t)
    (userId : string) : M Item.t :=
  createItem newId (Item.set_placement (Some userId) None item).

End repo.

(** ** [state/store.ts] *)

Module store.

Definition on_sessions (f : gmap string string -> gmap string string)
    (s : Store) : Store :=
  mkStore (f (socketUserMap s)) (tempRoomDataMap s) (tempItemDataMap s).
Definition on_tempRoom
    (f : gmap string TempRoomData.t -> gmap string TempRoomData.t)
    (s : Store) : Store :=
  mkStore (socketUserMap s) (f (tempRoomDataMap s)) (tempItemDataMap s).
Definition on_tempItem
    (f : gmap string TempItemData.t -> gmap string TempItemData.t)
    (s : Store) : Store :=
  mkStore (socketUserMap s) (tempRoomDataMap s) (f (tempItemDataMap s)).

Definition getSession (socketId : string) : M (option string) :=
  gets (fun w => socketUserMap (store w) !! socketId).

Definition setSession (socketId userId : string) : M unit :=
  modify (with_store (on_sessions (insert socketId userId))).

Definition deleteSession (socketId : string) : M unit :=
  let* userId := gets (fun w => socketUserMap (store w) !! socketId) in
  when (truthy_opt userId)
    (modify (with_store (on_tempRoom (delete (default "" userId)))) >>>
     modify (with_store (on_tempItem (delete (default "" userId)))))
  >>>
  modify (with_store (on_sessions (delete socketId))).

Definition getTempRoomData (userId : string) : M (option TempRoomData.t) :=
  gets (fun w => tempRoomDataMap (store w) !! userId).
Definition setTempRoomData (userId : string) (d : TempRoomData.t) : M unit :=
  modify (with_store (on_tempRoom (insert userId d))).
Definition deleteTempRoomData (userId : string) : M unit :=
  modify (with_store (on_tempRoom (delete userId))).

Definition getTempItemData (userId : string) : M (option TempItemData.t) :=
  gets (fun w => tempItemDataMap (store w) !! userId).
Definition setTempItemData (userId : string) (d : TempItemData.t) : M unit :=
  modify (with_store (on_tempItem (insert userId d))).
Definition deleteTempItemData (userId : string) : M unit :=
  modify (with_store (on_tempItem (delete userId))).

End store.

(** ** Timers and [game/combatState.ts] *)

Definition setInterval (cb : TickClosure) : M nat :=
  let* h := gets (fun w => next_handle (timers w)) in
  modify (with_timers (fun t => mkTimers (<[h := cb]> (live t)) (S h))) >>>
  ret h.

Definition clearInterval (h : nat) : M unit :=
  modify (with_timers (fun t => mkTimers (delete h (live t)) (next_handle t))).

Module combatState.

Definition isInCombat (userId : string) : M bool :=
  gets (fun w => bool_decide (is_Some (activeBattles (combat w) !! userId))).

Definition startBattle (userId socketId enemyId : string) (interval : nat)
  : M unit :=
  modify (with_combat (fun c =>
    mkCombatState (<[userId := interval]> (activeBattles c)) (battleData c)))
  >>>
  modify (with_combat (fun c =>
    mkCombatState (activeBattles c)
      (<[userId := ActiveBattle.mk userId socketId enemyId interval]>
         (battleData c)))).

Definition endBattle (userId : string) : M unit :=
  let* battle := gets (fun w => battleData (combat w) !! userId) in
  match battle with
  | Some b =>
      clearInterval (ActiveBattle.interval b) >>>
      modify (with_combat (fun c =>
        mkCombatState (activeBattles c) (delete userId (battleData c))))
  | None => ret tt
  end >>>
  modify (with_combat (fun c =>
    mkCombatState (delete userId (activeBattles c)) (battleData c))).

Definition getBattle (userId : string) : M (option ActiveBattle.t) :=
  gets (fun w => battleData (combat w) !! userId).

End combatState.

(** ** [handlers/combat.ts] *)

Record HandlerResult := mkResult {
  handled : bool;
  shouldEmitState : option StateUpdatePayload;
}.

Definition handled_only : HandlerResult := mkResult true None.
Definition not_handled : HandlerResult := mkResult false None.

(** [Math.ceil(delta / 2)] on an integer [delta]. *)
Definition Math_ceil_half (delta : Z) : Z := - ((- delta) / 2).

Definition handlePlayerDeath (user : User.t) (socket : string) : M unit :=
  emit socket (game_log msg_fallen log_error None) >>>
  repo.updateUserStats (User.id user) (repo.stats_hp (User.max_hp user)) >>>
  repo.updateUserPosition (User.id user) 0 0 >>>
  repo.updateUserState (User.id user) IDLE >>>
  let* updatedUser := repo.getUser (User.id user) in
  let serverCode := User.server_code user in
  let* genesisRoom := repo.getRoom 0 0 serverCode in
  let* visibleRooms := repo.getVisibleRooms 0 0 serverCode in
  let* genesisRoom := unwrap genesisRoom in
  let* roomItems := repo.getRoomItems (Room.id genesisRoom) serverCode in
  let* inventory := repo.getUserInventory (User.id user) serverCode in
  emit socket (state_update
    (mkStateUpdate updatedUser genesisRoom visibleRooms roomItems
       (Some inventory))) >>>
  emit socket (game_log (msg_awaken (User.gold user)) log_info None).

(** The roll and resolve phases of one tick. [rnd1] and [rnd2] are the
    two values of [Math.floor(Math.random() * 6)]. The result is
    [(playerRoll, enemyRoll, damage, source)]. *)
Definition resolve_phase (currentUser : User.t) (currentEnemy : Item.t)
    (rnd1 rnd2 : Z) : M (Z * Z * Z * Source) :=
  let playerRoll := rnd1 + 1 + or_num (User.strength currentUser) 0 in
  let enemyRoll := rnd2 + 1 + Item.enemy_attack currentEnemy in
  let delta := Z.abs (playerRoll - enemyRoll) in
  if playerRoll >? enemyRoll then
    let damage := Math_ceil_half delta + 1 in
    let newEnemyHp := Z.max 0 (Item.enemy_hp currentEnemy - damage) in
    repo.updateItemEnemyHp (Item.id currentEnemy) newEnemyHp >>>
    ret (playerRoll, enemyRoll, damage, src_player)
  else if enemyRoll >? playerRoll then
    let damage := Math_ceil_half delta in
    let newPlayerHp := Z.max 0 (User.hp currentUser - damage) in
    repo.updateUserStats (User.id currentUser) (repo.stats_hp newPlayerHp) >>>
    ret (playerRoll, enemyRoll, damage, src_enemy)
  else
    ret (playerRoll, enemyRoll, 0, src_tie).

(** The outcome check that ends a tick. *)
Definition check_outcomes (interval : nat) (socket : string) (user : User.t)
    (currentEnemy : Item.t) (updatedEnemy : option Item.t)
    (updatedUser : User.t) : M unit :=
  if match updatedEnemy with
     | Some e => Item.enemy_hp e <=? 0
     | None => false
     end
  then
    clearInterval interval >>>
    combatState.endBattle (User.id user) >>>
    let xpReward := or_num (Item.xp_value currentEnemy) 10 in
    emit socket (game_log
      (msg_defeated_enemy (Item.name currentEnemy) xpReward) log_info None) >>>
    let newGold := User.gold updatedUser + xpReward in
    repo.updateUserStats (User.id user) (repo.stats_gold newGold) >>>
    repo.deleteItem (Item.id currentEnemy) >>>
    repo.updateUserState (User.id user) IDLE >>>
    emit socket (combat_end win (Some xpReward)) >>>
    let* finalUser := repo.getUser (User.id user) in
    let* finalUser := unwrap finalUser in
    let* finalRoom := repo.getRoom (User.current_q finalUser)
                        (User.current_r finalUser)
                        (User.server_code finalUser) in
    let* finalVisibleRooms := repo.getVisibleRooms (User.current_q finalUser)
                        (User.current_r finalUser)
                        (User.server_code finalUser) in
    let* finalRoom := unwrap finalRoom in
    let* finalRoomItems := repo.getRoomItems (Room.id finalRoom)
                        (User.server_code finalUser) in
    let* inventory := repo.getUserInventory (User.id user)
                        (User.server_code finalUser) in
    emit socket (state_update
      (mkStateUpdate (Some finalUser) finalRoom finalVisibleRooms
         finalRoomItems (Some inventory)))
  else if User.hp updatedUser <=? 0 then
    clearInterval interval >>>
    combatState.endBattle (User.id user) >>>
    emit socket (combat_end loss None) >>>
    handlePlayerDeath updatedUser socket
  else ret tt.

(** The callback of the combat timer: one tick. [interval] is the
    handle of the timer that runs it. *)
Definition tick (interval : nat) (cl : TickClosure) (rnd1 rnd2 : Z) : M unit :=
  let socket := tc_socket cl in
  let user := tc_user cl in
  let target := tc_target cl in
  let* currentUser := repo.getUser (User.id user) in
  match currentUser with
  | None => clearInterval interval >>> combatState.endBattle (User.id user)
  | Some currentUser =>
    let* currentRoom := repo.getRoom (User.current_q currentUser)
                          (User.current_r currentUser)
                          (User.server_code currentUser) in
    match currentRoom with
    | None => clearInterval interval >>> combatState.endBattle (User.id user)
    | Some currentRoom =>
      let* currentRoomItems := repo.getRoomItems (Room.id currentRoom)
                                 (User.server_code currentUser) in
      let currentEnemy :=
        find (fun item => String.eqb (Item.id item) (Item.id target))
             currentRoomItems in
      match currentEnemy with
      | Some currentEnemy =>
        if (Item.enemy_hp currentEnemy =? 0) || (Item.enemy_hp currentEnemy <=? 0)
        then
          clearInterval interval >>>
          combatState.endBattle (User.id user) >>>
          repo.updateUserState (User.id user) IDLE
        else
          let* rolls := resolve_phase currentUser currentEnemy rnd1 rnd2 in
          let '(playerRoll, enemyRoll, damage, source) := rolls in
          let* updatedEnemy := repo.getItem (Item.id currentEnemy) in
          let* updatedUser := repo.getUser (User.id user) in
          let* updatedUser := unwrap updatedUser in
          emit socket (combat_update
            (mkCombatUpdate (User.hp updatedUser) (User.max_hp updatedUser)
               (or_num (from_option Item.enemy_hp 0 updatedEnemy) 0)
               (or_num (from_option Item.enemy_max_hp 0 updatedEnemy) 0)
               playerRoll enemyRoll damage source)) >>>
          check_outcomes interval socket user currentEnemy updatedEnemy
            updatedUser
      | None =>
          clearInterval interval >>>
          combatState.endBattle (User.id user) >>>
          repo.updateUserState (User.id user) IDLE
      end
    end
  end.

(** The event loop runs the callback of a timer only while its handle
    is live. *)
Definition fire (interval : nat) (rnd1 rnd2 : Z) : M unit :=
  let* cb := gets (fun w => live (timers w) !! interval) in
  match cb with
  | Some cl => tick interval cl rnd1 rnd2
  | None => ret tt
  end.

Definition handleFight (socket : string) (user : User.t) (targetName : string)
  : M HandlerResult :=
  let* inCombat := combatState.isInCombat (User.id user) in
  if inCombat : bool then
    emit socket (game_log msg_already_in_combat log_error None) >>>
    ret handled_only
  else if negb (mode_eqb (User.state user) IDLE)
          && negb (mode_eqb (User.state user) COMBAT) then
    emit socket (game_log (msg_cannot_fight (User.state user)) log_error None)
    >>> ret handled_only
  else
    let serverCode := User.server_code user in
    let* currentRoom := repo.getRoom (User.current_q user)
                          (User.current_r user) serverCode in
    match currentRoom with
    | Some currentRoom =>
      if startsWith (Room.id currentRoom) "void-" then
        emit socket (game_log msg_nothing_to_fight log_error None) >>>
        ret handled_only
      else
        let* roomItems := repo.getRoomItems (Room.id currentRoom) serverCode in
        let target :=
          find (fun item => String.eqb (toLowerCase (Item.name item))
                                       (toLowerCase targetName)) roomItems in
        match target with
        | None =>
            emit socket (game_log (msg_dont_see targetName) log_error None) >>>
            ret handled_only
        | Some target =>
          if (Item.enemy_hp target =? 0) || (Item.enemy_hp target <=? 0) then
            emit socket (game_log msg_peaceful log_info None) >>>
            ret handled_only
          else
            repo.updateUserState (User.id user) COMBAT >>>
            emit socket (game_log (msg_combat_begins (Item.name target))
                           log_info None) >>>
            let* interval := setInterval (mkTickClosure socket user target) in
            combatState.startBattle (User.id user) socket (Item.id target)
              interval >>>
            ret handled_only
        end
    | None =>
        emit socket (game_log msg_nothing_to_fight log_error None) >>>
        ret handled_only
    end.

Definition handleRetreat (socket : string) (user : User.t) : M HandlerResult :=
  let* inCombat := combatState.isInCombat (User.id user) in
  if negb inCombat then
    emit socket (game_log msg_not_in_combat log_error None) >>>
    ret handled_only
  else
    combatState.endBattle (User.id user) >>>
    repo.updateUserState (User.id user) IDLE >>>
    emit socket (combat_end retreat None) >>>
    emit socket (game_log msg_escaped log_info None) >>>
    let* updatedUser := repo.getUser (User.id user) in
    let serverCode := User.server_code user in
    let* updatedRoom := repo.getRoom (User.current_q user)
                          (User.current_r user) serverCode in
    let* updatedVisibleRooms := repo.getVisibleRooms (User.current_q user)
                          (User.current_r user) serverCode in
    let* updatedRoom := unwrap updatedRoom in
    let* updatedRoomItems := repo.getRoomItems (Room.id updatedRoom)
                          serverCode in
    let* inventory := repo.getUserInventory (User.id user) serverCode in
    ret (mkResult true
           (Some (mkStateUpdate updatedUser updatedRoom updatedVisibleRooms
                    updatedRoomItems (Some inventory)))).

(** ** [handlers/interaction.ts] *)

(** The handler is written block by block; each definition below is one
    block of the body of [handleInteraction], in the order of the
    source. *)

(** "Parse command": the verb, lower-cased, and the object name; [None]
    when the command is left unhandled (fewer than two words, or a
    reserved verb). *)
Definition parse_command (command : string) : option (string * string) :=
  let parts := split_ws (trim command) in
  if (length parts <? 2)%nat || negb (truthy (List.nth 0 parts "")) then None
  else
    let verb := toLowerCase (List.nth 0 parts "") in
    if existsb (String.eqb verb) ["go"; "help"] then None
    else Some (verb, join_sp (List.skipn 1 parts)).

(** "Find item in room first", then "check inventory". *)
Definition find_target (user : User.t) (currentRoom : Room.t)
    (objectName : string) : M (option Item.t) :=
  let serverCode := User.server_code user in
  let* item := repo.getItemByName (Room.id currentRoom) objectName
                 serverCode in
  match item with
  | Some _ => ret item
  | None =>
      let* inventory := repo.getUserInventory (User.id user) serverCode in
      ret (find (fun invItem =>
             String.eqb (toLowerCase (Item.name invItem))
                        (toLowerCase objectName)) inventory)
  end.

(** "Check required item if specified"; [true] when the interaction is
    refused, after the refusal has been sent. *)
Definition check_required (socket : string) (user : User.t)
    (currentRoom : Room.t) (item : Item.t) : M bool :=
  let serverCode := User.server_code user in
  if truthy_opt (Item.required_item_id item) then
    let* inventory := repo.getUserInventory (User.id user) serverCode in
    let hasRequired :=
      existsb (fun invItem =>
        eqb_opt (Item.id invItem) (Item.required_item_id item)) inventory in
    if negb hasRequired then
      let* roomItems := repo.getRoomItems (Room.id currentRoom) serverCode in
      let allItems := roomItems ++ inventory in
      let requiredItem :=
        find (fun i => eqb_opt (Item.id i) (Item.required_item_id item))
             allItems in
      emit socket (game_log (msg_need_item (Item.name <$> requiredItem))
                     log_error None) >>>
      ret true
    else ret false
  else ret false.

(** "Apply effect": the switch on the effect kind. The result is the
    default success message, or [None] for the early return of the
    [ITEM] case. [uuid] is the value [uuidv4()] would return if a row
    is created. *)
Definition apply_effect (uuid : string) (socket : string) (user : User.t)
    (verb : string) (item : Item.t) : M (option Msg) :=
  let* updatedUser := repo.getUser (User.id user) in
  match Item.effect_type item with
  | GOLD =>
      let* updatedUser := unwrap updatedUser in
      let newGold := User.gold updatedUser + Item.effect_value item in
      repo.updateUserStats (User.id user) (repo.stats_gold newGold) >>>
      ret (Some (msg_gained_gold (Item.effect_value item)))
  | HEAL =>
      let* updatedUser := unwrap updatedUser in
      let newHp :=
        Z.min (User.max_hp updatedUser)
              (User.hp updatedUser + Item.effect_value item) in
      repo.updateUserStats (User.id user) (repo.stats_hp newHp) >>>
      ret (Some (msg_recovered (newHp - User.hp updatedUser)))
  | DAMAGE =>
      let* updatedUser := unwrap updatedUser in
      let damagedHp :=
        Z.max 0 (User.hp updatedUser - Item.effect_value item) in
      repo.updateUserStats (User.id user) (repo.stats_hp damagedHp) >>>
      when (damagedHp =? 0)
        (emit socket (game_log msg_been_defeated log_error None)) >>>
      ret (Some (msg_took_damage (Item.effect_value item)))
  | ITEM =>
      if truthy_opt (Item.room_id item) then
        if negb (Item.is_infinite item =? 0) then
          repo.cloneItemForUser uuid item (User.id user) >>>
          ret (Some (msg_picked_up (Item.name item)))
        else
          repo.setItemOwner (Item.id item) (Some (User.id user)) None >>>
          ret (Some (msg_picked_up (Item.name item)))
      else
        emit socket (game_log (msg_already_have (Item.name item))
                       log_error None) >>>
        ret None
  | NONE => ret (Some (msg_you_verb verb (Item.name item)))
  end.

(** The tail of the handler: the animation, the success message and
    the snapshot. *)
Definition finish_interaction (socket : string) (user : User.t)
    (currentRoom : Room.t) (item : Item.t) (successMessage : Msg)
  : M HandlerResult :=
  let serverCode := User.server_code user in
  let* interactionAnimation :=
    repo.getItemAnimation (Item.id item) INTERACTION in
  match interactionAnimation with
  | Some a => emit socket (animation_play a)
  | None => ret tt
  end >>>
  emit socket (game_log
    (if truthy (Item.success_message item)
     then msg_item_text (Item.success_message item)
     else successMessage) log_info None) >>>
  let* updatedUser := repo.getUser (User.id user) in
  let* updatedUser := unwrap updatedUser in
  let* visibleRooms :=
    repo.getVisibleRooms (User.current_q updatedUser)
      (User.current_r updatedUser) serverCode in
  let* roomItems := repo.getRoomItems (Room.id currentRoom) serverCode in
  let* inventory := repo.getUserInventory (User.id user) serverCode in
  ret (mkResult true
         (Some (mkStateUpdate (Some updatedUser) currentRoom
                  visibleRooms roomItems (Some inventory)))).

Definition handleInteraction (uuid : string) (socket : string) (user : User.t)
    (command : string) : M HandlerResult :=
  match parse_command command with
  | None => ret not_handled
  | Some (verb, objectName) =>
    let* currentRoom := repo.getRoom (User.current_q user)
                          (User.current_r user) (User.server_code user) in
    match currentRoom with
    | None =>
        emit socket (game_log msg_not_valid_room log_error None) >>>
        ret handled_only
    | Some currentRoom =>
      if startsWith (Room.id currentRoom) "void-" then
        emit socket (game_log msg_not_valid_room log_error None) >>>
        ret handled_only
      else
        let* item := find_target user currentRoom objectName in
        match item with
        | None =>
            emit socket (game_log (msg_dont_see objectName) log_error None)
            >>> ret handled_only
        | Some item =>
          if negb (String.eqb (toLowerCase (Item.interact_verb item)) verb)
          then
            emit socket (game_log (msg_cant_verb verb (Item.name item))
                           log_error None) >>>
            ret handled_only
          else
            let* refused := check_required socket user currentRoom item in
            if refused : bool then ret handled_only
            else
              let* successMessage :=
                apply_effect uuid socket user verb item in
              match successMessage with
              | None => ret handled_only
              | Some successMessage =>
                  finish_interaction socket user currentRoom item
                    successMessage
              end
        end
    end
  end.

(** ** [handlers/movement.ts] *)

Definition sendRoomTapestry (socket roomId : string) : M unit :=
  let* tapestry := repo.getRoomAnimationByType roomId TAPESTRY in
  match tapestry with
  | Some a => emit socket (animation_play a)
  | None => ret tt
  end.

(** The transient room of an unexplored coordinate; its id is
    [`void-${q},${r}`]. *)
Definition void_room (q r : Z) (serverCode userId : string) : Room.t :=
  Room.mk ("void-" ++ pretty q ++ "," ++ pretty r)%string q r serverCode
    "Unknown Wilds" "You are the first to wander here." 0 userId None.

Definition handleMove (socket : string) (user : User.t) (input : string)
  : M HandlerResult :=
  if negb (mode_eqb (User.state user) IDLE) then
    emit socket (game_log (msg_cannot_move (User.state user)) log_error None)
    >>> ret handled_only
  else
    match parseDirection input with
    | None => ret not_handled
    | Some direction =>
      let c := moveAxial (User.current_q user) (User.current_r user)
                 direction in
      let newQ := cq c in
      let newR := cr c in
      repo.updateUserPosition (User.id user) newQ newR >>>
      let serverCode := User.server_code user in
      let* existingRoom := repo.getRoom newQ newR serverCode in
      match existingRoom with
      | None =>
          repo.updateUserState (User.id user) CREATING_ROOM_TITLE >>>
          store.setTempRoomData (User.id user)
            (TempRoomData.mk None None None newQ newR) >>>
          emit socket (game_log msg_what_called log_prompt (Some "QUESTION"))
          >>>
          let* updatedUser := repo.getUser (User.id user) in
          let* updatedUser := unwrap updatedUser in
          let voidRoom := void_room newQ newR serverCode (User.id user) in
          let* visibleRooms :=
            repo.getVisibleRooms (User.current_q updatedUser)
              (User.current_r updatedUser) serverCode in
          ret (mkResult true
                 (Some (mkStateUpdate (Some updatedUser) voidRoom visibleRooms
                          [] None)))
      | Some existingRoom =>
          let* updatedUser := repo.getUser (User.id user) in
          let* updatedUser := unwrap updatedUser in
          let* visibleRooms :=
            repo.getVisibleRooms (User.current_q updatedUser)
              (User.current_r updatedUser) serverCode in
          let* roomItems := repo.getRoomItems (Room.id existingRoom)
                              serverCode in
          let* inventory := repo.getUserInventory (User.id user) serverCode in
          sendRoomTapestry socket (Room.id existingRoom) >>>
          ret (mkResult true
                 (Some (mkStateUpdate (Some updatedUser) existingRoom
                          visibleRooms roomItems (Some inventory))))
      end
    end.

(** ** [handlers/creation.ts]: the wizard steps that author a gate *)

Module creation.

(** The steps of the wizard that no property below looks into. *)
Class WizardSteps := {
  handleRoomTitle : string -> User.t -> string -> M HandlerResult;
  handleRoomDesc : string -> User.t -> string -> M HandlerResult;
  handleRoomMood : string -> User.t -> string -> M HandlerResult;
  handleRoomShroud : string -> User.t -> string -> M HandlerResult;
  handleObjConfirm : string -> User.t -> string -> M HandlerResult;
  handleObjName : string -> User.t -> string -> M HandlerResult;
  handleObjDesc : string -> User.t -> string -> M HandlerResult;
  handleObjVerb : string -> User.t -> string -> M HandlerResult;
  handleObjType : string -> User.t -> string -> M HandlerResult;
  handleObjValue : string -> User.t -> string -> M HandlerResult;
  handleObjEnemyStats : string -> User.t -> string -> M HandlerResult;
  handleObjSupplyType : string -> User.t -> string -> M HandlerResult;
}.

(** The common tail of the steps: the snapshot sent back. *)
Definition snapshot (user : User.t) : M HandlerResult :=
  let* updatedUser := repo.getUser (User.id user) in
  let* currentRoom := repo.getRoom (User.current_q user)
                        (User.current_r user) (User.server_code user) in
  let* updatedUser := unwrap updatedUser in
  let* visibleRooms := repo.getVisibleRooms (User.current_q updatedUser)
                         (User.current_r updatedUser)
                         (User.server_code user) in
  let* currentRoom := unwrap currentRoom in
  let* roomItems := repo.getRoomItems (Room.id currentRoom)
                      (User.server_code user) in
  let* inventory := repo.getUserInventory (User.id user)
                      (User.server_code user) in
  ret (mkResult true
         (Some (mkStateUpdate (Some updatedUser) currentRoom visibleRooms
                  roomItems (Some inventory)))).

Definition session_expired (socket : string) (user : User.t)
  : M HandlerResult :=
  emit socket (game_log msg_session_expired log_error None) >>>
  repo.updateUserState (User.id user) IDLE >>>
  store.deleteTempItemData (User.id user) >>>
  ret handled_only.

(** [!tempItemData.name || !tempItemData.interactionType]. *)
Definition lacks_name_or_type (d : TempItemData.t) : bool :=
  negb (truthy_opt (TempItemData.name d))
  || negb (bool_decide (is_Some (TempItemData.interactionType d))).

(** [uuid] is the value of [uuidv4()] in [createItem]. *)
Definition finishObjectCreation (uuid : string) (socket : string)
    (user : User.t) (tempItemData : TempItemData.t) : M HandlerResult :=
  let ty := TempItemData.interactionType tempItemData in
  let value := or_num (default 0 (TempItemData.effectValue tempItemData)) 0 in
  let effectType :=
    match ty with
    | Some TREASURE => GOLD
    | Some BUFF_TRAP => if value >? 0 then HEAL else DAMAGE
    | Some PICKUP => ITEM
    | _ => NONE
    end in
  let effectValue :=
    match ty with
    | Some TREASURE => value
    | Some BUFF_TRAP => Z.abs value
    | _ => 0
    end in
  let enemy (f : TempItemData.t -> option Z) :=
    match ty with
    | Some ENEMY => or_num (default 0 (f tempItemData)) 0
    | _ => 0
    end in
  let requiredItemId :=
    match ty with
    | Some GATE =>
        match TempItemData.requiredItemId tempItemData with
        | Some (Some s) => if truthy s then Some s else None
        | _ => None
        end
    | _ => None
    end in
  let xp :=
    match ty with
    | Some ENEMY => or_num (default 0 (TempItemData.xpValue tempItemData)) 10
    | _ => 10
    end in
  (* createItem checks server_code before the statement binds the
     name and the verb, which must not be undefined *)
  (if negb (truthy (User.server_code user))
   then throw (Error "server_code is required for createItem")
   else
     let* name := unwrap (TempItemData.name tempItemData) in
     let* verb := unwrap (TempItemData.verb tempItemData) in
     repo.createItem uuid
       (Item.mk "" (Some (TempItemData.roomId tempItemData)) None
          (User.server_code user) name
          (default "" (TempItemData.description tempItemData))
          (default "" (TempItemData.successMessage tempItemData))
          verb effectType effectValue 0 requiredItemId
          (enemy TempItemData.enemyHp) (enemy TempItemData.enemyMaxHp)
          (enemy TempItemData.enemyAttack) xp
          (if default false (TempItemData.isInfinite tempItemData)
           then 1 else 0))) >>>
  emit socket (game_log (msg_object_created (TempItemData.name tempItemData))
                 log_info None) >>>
  repo.updateUserState (User.id user) CREATING_OBJ_CONFIRM >>>
  store.setTempItemData (User.id user)
    (TempItemData.fresh (TempItemData.roomId tempItemData)) >>>
  emit socket (game_log msg_add_object log_prompt (Some "QUESTION")) >>>
  snapshot user.

Definition handleObjSuccessMsg (uuid : string) (socket : string)
    (user : User.t) (input : string) : M HandlerResult :=
  let* tempItemData := store.getTempItemData (User.id user) in
  match tempItemData with
  | None => session_expired socket user
  | Some tempItemData =>
    if negb (truthy_opt (TempItemData.name tempItemData))
    then session_expired socket user
    else
      let tempItemData :=
        TempItemData.set_successMessage (trim input) tempItemData in
      store.setTempItemData (User.id user) tempItemData >>>
      finishObjectCreation uuid socket user tempItemData
  end.

Definition handleObjRequirement (socket : string) (user : User.t)
    (input : string) : M HandlerResult :=
  let* tempItemData := store.getTempItemData (User.id user) in
  match tempItemData with
  | None => session_expired socket user
  | Some tempItemData =>
    if lacks_name_or_type tempItemData then session_expired socket user
    else
      let requiredItemName := trim input in
      if negb (truthy requiredItemName) then
        emit socket (game_log msg_name_empty log_error None) >>>
        ret handled_only
      else
        let* allItems := repo.getRoomItems (TempItemData.roomId tempItemData)
                           (User.server_code user) in
        let matchingItem :=
          find (fun item => String.eqb (toLowerCase (Item.name item))
                              (toLowerCase requiredItemName)) allItems in
        let* tempItemData :=
          match matchingItem with
          | Some matchingItem =>
              emit socket (game_log (msg_found_item (Item.name matchingItem))
                             log_info None) >>>
              ret (TempItemData.set_required (Some (Item.id matchingItem))
                     (Item.name matchingItem) tempItemData)
          | None =>
              emit socket (game_log (msg_gate_warning requiredItemName)
                             log_error None) >>>
              ret (TempItemData.set_required None requiredItemName
                     tempItemData)
          end in
        store.setTempItemData (User.id user) tempItemData >>>
        let defaultVerb :=
          match TempItemData.verb tempItemData with
          | Some v => if truthy v then v else "open"
          | None => "open"
          end in
        repo.updateUserState (User.id user) CREATING_OBJ_VERB_CONFIRM >>>
        emit socket (game_log (msg_default_verb defaultVerb) log_prompt
                       (Some "QUESTION")) >>>
        snapshot user
  end.

Definition handleObjVerbConfirm (socket : string) (user : User.t)
    (input : string) : M HandlerResult :=
  let* tempItemData := store.getTempItemData (User.id user) in
  match tempItemData with
  | None => session_expired socket user
  | Some tempItemData =>
    if lacks_name_or_type tempItemData then session_expired socket user
    else
      let trimmedInput := toLowerCase (trim input) in
      let tempItemData :=
        if String.eqb trimmedInput "y" || String.eqb trimmedInput "yes"
        then tempItemData
        else TempItemData.set_verb trimmedInput tempItemData in
      store.setTempItemData (User.id user) tempItemData >>>
      repo.updateUserState (User.id user) CREATING_OBJ_SUCCESS_MSG >>>
      emit socket (game_log
        (msg_describe_happens (TempItemData.verb tempItemData)
           (TempItemData.name tempItemData)) log_prompt (Some "QUESTION"))
      >>>
      snapshot user
  end.

Definition handleObjContents (uuid : string) (socket : string)
    (user : User.t) (input : string) : M HandlerResult :=
  let* tempItemData := store.getTempItemData (User.id user) in
  match tempItemData with
  | None => session_expired socket user
  | Some tempItemData => finishObjectCreation uuid socket user tempItemData
  end.

Definition handleInput `{WizardSteps} (uuid : string) (socket : string)
    (user : User.t) (input : string) : M HandlerResult :=
  match User.state user with
  | CREATING_ROOM_TITLE => handleRoomTitle socket user input
  | CREATING_ROOM_DESC => handleRoomDesc socket user input
  | CREATING_ROOM_MOOD => handleRoomMood socket user input
  | CREATING_ROOM_SHROUD => handleRoomShroud socket user input
  | CREATING_OBJ_CONFIRM => handleObjConfirm socket user input
  | CREATING_OBJ_NAME => handleObjName socket user input
  | CREATING_OBJ_DESC => handleObjDesc socket user input
  | CREATING_OBJ_VERB => handleObjVerb socket user input
  | CREATING_OBJ_SUCCESS_MSG => handleObjSuccessMsg uuid socket user input
  | CREATING_OBJ_TYPE => handleObjType socket user input
  | CREATING_OBJ_VALUE => handleObjValue socket user input
  | CREATING_OBJ_CONTENTS => handleObjContents uuid socket user input
  | CREATING_OBJ_ENEMY_STATS => handleObjEnemyStats socket user input
  | CREATING_OBJ_REQUIREMENT => handleObjRequirement socket user input
  | CREATING_OBJ_SUPPLY_TYPE => handleObjSupplyType socket user input
  | CREATING_OBJ_VERB_CONFIRM => handleObjVerbConfirm socket user input
  | GENERATING_ANIMATIONS => ret handled_only
  | IDLE | COMBAT => ret not_handled
  end.

End creation.

(** ** [index.ts]: the command dispatcher and the disconnect handler *)

Module general.
(** [handlers/general.ts], as far as the dispatcher is concerned: the
    three entry points it calls. [handleRegenerate] stands for the
    part of the asynchronous handler that runs before its first
    [await]. *)
Class Handlers := {
  handleHelp : string -> User.t -> M bool;
  handleLook : string -> User.t -> string -> M bool;
  handleRegenerate : string -> User.t -> option string -> M bool;
}.
End general.

(** The handlers the dispatcher can call, for the trace it returns. *)
Inductive Handler :=
| H_creation | H_help | H_look | H_regenerate | H_move | H_fight
| H_retreat | H_interaction.

Definition emit_state (socket : string) (r : HandlerResult) : M unit :=
  match shouldEmitState r with
  | Some p => emit socket (state_update p)
  | None => ret tt
  end.

(** Does the state name start with [CREATING_], or is the state
    [GENERATING_ANIMATIONS]? *)
Definition in_wizard (m : Mode) : bool :=
  startsWith (mode_name m) "CREATING_" || mode_eqb m GENERATING_ANIMATIONS.

(** [arr[n - 1]] for a number [n > 0], with the bound check
    [n <= arr.length && arr[n - 1]] of the ordinal targets. *)
Definition ordinal {A} (l : list A) (n : Z) : option A :=
  if n <=? Z.of_nat (length l) then List.nth_error l (Z.to_nat (n - 1))
  else None.

Inductive Ordinal :=
| ord_item (it : Item.t)   (* the target is a position that holds [it] *)
| ord_keep                 (* the target is not rewritten *)
| ord_missing.             (* the error was sent, the command is over *)

(** The ordinal targeting shared by [fight], [open] and the generic
    interaction. [keep] selects the listing the position counts in and
    [missing] is the error text. *)
Definition resolve_ordinal (socket : string) (currentUser : User.t)
    (target : string) (keep : Item.t -> bool) (missing : Z -> Msg)
  : M Ordinal :=
  match parseInt target with
  | Some targetNum =>
    if targetNum >? 0 then
      let* currentRoom := repo.getRoom (User.current_q currentUser)
                            (User.current_r currentUser)
                            (User.server_code currentUser) in
      match currentRoom with
      | Some currentRoom =>
        let* roomItems := repo.getRoomItems (Room.id currentRoom)
                            (User.server_code currentUser) in
        match ordinal (List.filter keep roomItems) targetNum with
        | Some it => ret (ord_item it)
        | None =>
            emit socket (game_log (missing targetNum) log_error None) >>>
            ret ord_missing
        end
      | None => ret ord_keep
      end
    else ret ord_keep
  | None => ret ord_keep
  end.

Section Dispatcher.

Context `{creation.WizardSteps} `{general.Handlers}.

(** The handler of [cmd:input]. It returns the handlers it called, in
    order. [uuid] is the value [uuidv4()] would return during the
    command. *)
Definition cmd_input (uuid : string) (socket : string) (raw : string)
  : M (list Handler) :=
  let* userId := store.getSession socket in
  if negb (truthy_opt userId) then
    emit socket (game_log msg_user_not_found log_error None) >>> ret []
  else
  let* currentUser := repo.getUser (default "" userId) in
  match currentUser with
  | None =>
      emit socket (game_log msg_user_missing log_error None) >>> ret []
  | Some currentUser =>
  if in_wizard (User.state currentUser) then
    let* result := creation.handleInput uuid socket currentUser raw in
    emit_state socket result >>>
    ret [H_creation]
  else
  let command := toLowerCase (trim raw) in
  if String.eqb command "help" then
    general.handleHelp socket currentUser >>> ret [H_help]
  else if startsWith command "look " then
    general.handleLook socket currentUser
      (trim (substring_from 5 (trim raw))) >>> ret [H_look]
  else if String.eqb command "look" || String.eqb command "l" then
    general.handleLook socket currentUser "" >>> ret [H_look]
  else if String.eqb command "regenerate"
          || String.eqb command "/regenerate" then
    general.handleRegenerate socket currentUser None >>> ret [H_regenerate]
  else if startsWith command "regenerate "
          || startsWith command "/regenerate " then
    let originalInput := trim raw in
    let hasSlash := startsWith (toLowerCase originalInput) "/regenerate " in
    let mood :=
      trim (substring_from (if hasSlash then 12 else 11) originalInput) in
    general.handleRegenerate socket currentUser
      (if truthy mood then Some mood else None) >>> ret [H_regenerate]
  else
  let* moveResult := handleMove socket currentUser raw in
  if handled moveResult then
    emit_state socket moveResult >>> ret [H_move]
  else
  (* Each of the four stages below answers with a pair: has the
     handler of [cmd:input] returned, and which handlers the stage
     called. *)
  (* fight <target|ordinal> *)
  let* fight :=
    if startsWith command "fight " then
      let typed := trim (substring_from 6 (trim raw)) in
      let* target :=
        resolve_ordinal socket currentUser typed
          (fun item => negb (Item.enemy_hp item =? 0)
                       && (Item.enemy_hp item >? 0))
          msg_no_enemy_at in
      match target with
      | ord_missing => ret (true, [])
      | _ =>
        let targetName :=
          match target with
          | ord_item targetEnemy => Item.name targetEnemy
          | _ => typed
          end in
        let* combatResult := handleFight socket currentUser targetName in
        if handled combatResult then
          emit_state socket combatResult >>> ret (true, [H_fight])
        else ret (false, [H_fight])
      end
    else ret (false, []) in
  if fst fight then ret (H_move :: snd fight)
  else
  (* retreat *)
  let* retreat_ :=
    if String.eqb command "retreat" || String.eqb command "/retreat" then
      let* combatResult := handleRetreat socket currentUser in
      if handled combatResult then
        emit_state socket combatResult >>> ret (true, [H_retreat])
      else ret (false, [H_retreat])
    else ret (false, []) in
  if fst retreat_ then ret (H_move :: snd fight ++ snd retreat_)
  else
  (* open <target|ordinal> *)
  let* open_ :=
    if startsWith command "open " then
      let typed := trim (substring_from 5 (trim raw)) in
      let* target :=
        resolve_ordinal socket currentUser typed (fun _ => true)
          msg_no_object_at in
      match target with
      | ord_missing => ret (true, [])
      | _ =>
        let targetName :=
          match target with
          | ord_item targetItem => Item.name targetItem
          | _ => typed
          end in
        let* interactionResult :=
          handleInteraction uuid socket currentUser
            ("open " ++ targetName)%string in
        if handled interactionResult then
          emit_state socket interactionResult >>> ret (true, [H_interaction])
        else ret (false, [H_interaction])
      end
    else ret (false, []) in
  if fst open_ then ret (H_move :: snd fight ++ snd retreat_ ++ snd open_)
  else
  (* <verb> <object|ordinal> *)
  let words := split_ws (trim raw) in
  let word0 := List.nth 0 words "" in
  let* generic :=
    if (2 <=? length words)%nat && truthy word0
       && negb (existsb (String.eqb (toLowerCase word0))
                  ["go"; "help"; "fight"; "open"])
    then
      let word1 := List.nth 1 words "" in
      let* target :=
        if truthy word1 then
          resolve_ordinal socket currentUser word1 (fun _ => true)
            msg_no_object_at
        else ret ord_keep in
      match target with
      | ord_missing => ret (true, [])
      | _ =>
        let interactionCommand :=
          match target with
          | ord_item targetItem =>
              (word0 ++ " " ++ Item.name targetItem)%string
          | _ => raw
          end in
        let* interactionResult :=
          handleInteraction uuid socket currentUser interactionCommand in
        if handled interactionResult then
          emit_state socket interactionResult >>> ret (true, [H_interaction])
        else ret (false, [H_interaction])
      end
    else ret (false, []) in
  let calls :=
    H_move :: snd fight ++ snd retreat_ ++ snd open_ ++ snd generic in
  if fst generic then ret calls
  else
    emit socket (game_log (msg_unknown_command raw) log_error None) >>>
    ret calls
  end.

End Dispatcher.

(** The handler of [disconnect]. *)
Definition on_disconnect (socket : string) : M unit :=
  store.deleteSession socket.

(** The handler of the [combat:retreat] event. *)
Definition on_combat_retreat (socket : string) : M unit :=
  let* userId := store.getSession socket in
  if negb (truthy_opt userId) then ret tt
  else
    let* currentUser := repo.getUser (default "" userId) in
    match currentUser with
    | None => ret tt
    | Some currentUser =>
      let* combatResult := handleRetreat socket currentUser in
      if handled combatResult then emit_state socket combatResult else ret tt
    end.


(** ** Definitions used by the statements *)

(** Ids are primary keys. *)
Definition pk_items (d : Db) : Prop := NoDup (map Item.id (items d)).


(** The world after [combatState.endBattle]. *)
Definition after_endBattle (userId : string) (w : World) : World :=
  with_combat (fun c =>
      mkCombatState (delete userId (activeBattles c))
                    (delete userId (battleData c)))
    match battleData (combat w) !! userId with
    | Some b =>
        with_timers (fun t =>
          mkTimers (delete (ActiveBattle.interval b) (live t))
                   (next_handle t)) w
    | None => w
    end.
Arguments after_endBattle : simpl never.

(** The enemy row the tick looks up: the row of the room listing whose
    id is the id of the target captured when the fight began. *)
Definition current_enemy (cl : TickClosure) (u : User.t) (rm : Room.t)
  : M (option Item.t) :=
  let* l := repo.getRoomItems (Room.id rm) (User.server_code u) in
  ret (find (fun item => String.eqb (Item.id item) (Item.id (tc_target cl))) l).

(** The tick finds the user row [u], the room [rm] the user stands in
    and, in that room, the living enemy row [e]. *)
Definition tick_ready (w : World) (cl : TickClosure) (u : User.t)
    (rm : Room.t) (e : Item.t) : Prop :=
  eval (repo.getUser (User.id (tc_user cl))) w = Ok (Some u)
  /\ eval (repo.getRoom (User.current_q u) (User.current_r u)
             (User.server_code u)) w = Ok (Some rm)
  /\ eval (current_enemy cl u rm) w = Ok (Some e)
  /\ 0 < Item.enemy_hp e.

Definition is_combat_end (ev : string * Event) : bool :=
  match snd ev with combat_end _ _ => true | _ => false end.


(** ** A small world for the examples *)

Module Fixture.

Definition alice : User.t :=
  User.mk "u1" "alice" "ISLE" 0 10 100 5 2 (-1) COMBAT.
Definition bob : User.t :=
  User.mk "u2" "bob" "ISLE" 1 40 40 0 2 (-1) IDLE.
(** Carol is authoring a gate and is asked for the name of its key. *)
Definition carol : User.t :=
  User.mk "u3" "carol" "ISLE" 1 20 20 0 2 (-1) CREATING_OBJ_REQUIREMENT.

Definition crash_site : Room.t :=
  Room.mk "r0" 0 0 "ISLE" "The Crash Site" "Wreckage." 0 "u1" None.
Definition cave : Room.t :=
  Room.mk "r1" 2 (-1) "ISLE" "Cave" "A damp cave." 3 "u1" None.

Definition goblin : Item.t :=
  Item.mk "i1" (Some "r1") None "ISLE" "Goblin" "A goblin." "" "fight"
    NONE 0 0 None 3 3 0 7 0.
(** A small enemy. *)
Definition rat : Item.t :=
  Item.mk "i2" (Some "r1") None "ISLE" "Rat" "A rat." "" "fight"
    NONE 0 0 None 1 1 0 2 0.
(** An enemy that hits hard. *)
Definition ogre : Item.t :=
  Item.mk "i3" (Some "r1") None "ISLE" "Ogre" "An ogre." "" "fight"
    NONE 0 0 None 50 50 30 9 0.
(** Two pickups. *)
Definition lantern : Item.t :=
  Item.mk "i4" (Some "r1") None "ISLE" "Lantern" "A lantern." "" "take"
    ITEM 0 0 None 0 0 0 10 0.
Definition berry : Item.t :=
  Item.mk "i5" (Some "r1") None "ISLE" "Berry" "A berry bush." "" "take"
    ITEM 0 0 None 0 0 0 10 0.
(** A pickup that bob already carries. *)
Definition rope : Item.t :=
  Item.mk "i6" None (Some "u2") "ISLE" "Rope" "A rope." "" "take"
    ITEM 0 0 None 0 0 0 10 0.

Definition the_db : Db :=
  mkDb [alice; bob; carol] [crash_site; cave]
       [goblin; rat; ogre; lantern; berry; rope] [].

Definition room_draft : TempRoomData.t :=
  TempRoomData.mk (Some "Glade") None None 3 (-1).
Definition gate_draft : TempItemData.t :=
  TempItemData.mk (Some "Gate") (Some "An iron gate.") (Some "open") None
    false None (Some GATE) None None None None None None None "r1".

(** The three users are connected on the sockets [s1], [s2], [s3];
    alice and carol have scratch records. *)
Definition the_store : Store :=
  mkStore {["s1" := "u1"; "s2" := "u2"; "s3" := "u3"]}
          {["u1" := room_draft]}
          {["u1" := gate_draft; "u3" := gate_draft]}.

(** Nobody fights. *)
Definition quiet : World :=
  mkWorld the_db the_store (mkCombatState ∅ ∅) (mkTimers ∅ 0) [].

(** Alice fights [target]; the timer of the fight is the handle 0. *)
Definition closure (target : Item.t) : TickClosure :=
  mkTickClosure "s1" alice target.

Definition fighting (target : Item.t) : World :=
  mkWorld the_db the_store
    (mkCombatState {["u1" := 0%nat]}
       {["u1" := ActiveBattle.mk "u1" "s1" (Item.id target) 0]})
    (mkTimers {[0%nat := closure target]} 1)
    [].

(** The world after the tick of the fight with [target] on the two
    random values [rnd1] and [rnd2]. *)
Definition after_tick (target : Item.t) (rnd1 rnd2 : Z) : World :=
  exec (tick 0 (closure target) rnd1 rnd2) (fighting target).

(** The steps and handlers that the embedding leaves open, closed for
    the examples: each answers that it handled the command and does
    nothing. *)
#[global] Instance stub_steps : creation.WizardSteps :=
  creation.Build_WizardSteps
    (fun _ _ _ => ret handled_only) (fun _ _ _ => ret handled_only)
    (fun _ _ _ => ret handled_only) (fun _ _ _ => ret handled_only)
    (fun _ _ _ => ret handled_only) (fun _ _ _ => ret handled_only)
    (fun _ _ _ => ret handled_only) (fun _ _ _ => ret handled_only)
    (fun _ _ _ => ret handled_only) (fun _ _ _ => ret handled_only)
    (fun _ _ _ => ret handled_only) (fun _ _ _ => ret handled_only).

#[global] Instance stub_general : general.Handlers :=
  general.Build_Handlers (fun _ _ => ret true) (fun _ _ _ => ret true)
    (fun _ _ _ => ret true).

(** Carol answers the three prompts that remain for her gate: the name
    of a key that no item of the room bears, the default verb, the
    success message. The gate is created with the id [i9]. *)
Definition key_asked : World :=
  exec (cmd_input "-" "s3" "golden key") quiet.
Definition verb_confirmed : World :=
  exec (cmd_input "-" "s3" "y") key_asked.
Definition gate_created : World :=
  exec (cmd_input "i9" "s3" "The gate swings open.") verb_confirmed.
(** Bob, who carries a rope and no key, then opens the gate. *)
Definition gate_tried : World :=
  exec (cmd_input "-" "s2" "open gate") gate_created.

(** Alice's connection drops in the middle of her fight. *)
Definition disconnected : World :=
  exec (on_disconnect "s1") (fighting goblin).

End Fixture.


(** Every [CREATING_*] mode and [GENERATING_ANIMATIONS]: the modes of
    the closed enumeration other than [IDLE] and [COMBAT]. *)
Definition wizard_mode (m : Mode) : Prop :=
  match m with
  | IDLE | COMBAT => False
  | _ => True
  end.

(** ** [handlers/general.ts]: the obfuscation of verbs *)

(** The loop of [obfuscateText]. [rnd k] stands for the [k]-th value
    of [Math.random()]: the index drawn at step [k] is
    [rnd k mod chars.length], so that every index of the text can be
    drawn. [fuel] bounds the number of iterations; [None] means that
    the loop has not left after [fuel] iterations. *)
Fixpoint obfuscate_loop (fuel : nat) (rnd : nat -> nat) (k : nat)
    (chars : list ascii) (numToHide : Z) (indices : gset nat)
  : option (gset nat) :=
  if Z.of_nat (size indices) <? numToHide then
    match fuel with
    | O => None
    | S fuel' =>
      let idx := (rnd k mod length chars)%nat in
      if bool_decide (chars !! idx = Some " "%char)
      then obfuscate_loop fuel' rnd (S k) chars numToHide indices
      else obfuscate_loop fuel' rnd (S k) chars numToHide ({[idx]} ∪ indices)
    end
  else Some indices.

Definition hide (indices : gset nat) (chars : list ascii) : list ascii :=
  imap (fun i c => if bool_decide (i ∈ indices) then "_"%char else c) chars.

Definition obfuscateText (fuel : nat) (rnd : nat -> nat) (text : string)
    (shroudLevel : Z) : option string :=
  if shroudLevel =? 0 then Some text
  else
    let chars := list_ascii_of_string text in
    let numToHide := Z.min shroudLevel (Z.of_nat (length chars) / 2) in
    match obfuscate_loop fuel rnd 0 chars numToHide ∅ with
    | Some indices => Some (string_of_list_ascii (hide indices chars))
    | None => None
    end.

(** The positions of the text that hold something else than a space. *)
Definition non_space (chars : list ascii) : gset nat :=
  list_to_set (filter (fun i => chars !! i <> Some " "%char)
                      (seq 0 (length chars))).


(** The command of [user] reaches the effect of the item [it] with the
    verb [verb]: the command parses, the user stands in the stored room
    [rm], the lookup of the object name, in the room and then in the
    inventory, yields [it], the verb is the verb of [it], and the gate
    of [it], if it has one, lets the user through. *)
Definition reaches_effect (w : World) (socket : string) (user : User.t)
    (command : string) (rm : Room.t) (verb : string) (it : Item.t) : Prop :=
  exists objectName,
    parse_command command = Some (verb, objectName)
    /\ eval (repo.getRoom (User.current_q user) (User.current_r user)
               (User.server_code user)) w = Ok (Some rm)
    /\ startsWith (Room.id rm) "void-" = false
    /\ eval (find_target user rm objectName) w = Ok (Some it)
    /\ String.eqb (toLowerCase (Item.interact_verb it)) verb = true
    /\ eval (check_required socket user rm it) w = Ok false.

(** Is the event the refusal of a gate? *)
Definition is_need_item (ev : string * Event) : bool :=
  match snd ev with
  | game_log (msg_need_item _) _ _ => true
  | _ => false
  end.

(** The refusal of a second pickup. *)
Definition already_have (socket : string) (it : Item.t) : string * Event :=
  (socket, game_log (msg_already_have (Item.name it)) log_error None).

(** ** Definitions used by the further properties *)

(** A computation leaves the part [proj] of the world as it finds it,
    whether it returns or throws. *)
Definition preserves {S A} (proj : World -> S) (m : M A) : Prop :=
  forall w, proj (snd (m w)) = proj w.

(** The part of the world that only the combat handlers write. *)
Definition battles (w : World) : CombatState * Timers := (combat w, timers w).

(** The target lookup of [handleFight]: the first row of the room
    listing whose name is [targetName], letter case apart. *)
Definition fight_target (user : User.t) (rm : Room.t) (targetName : string)
  : M (option Item.t) :=
  let* roomItems := repo.getRoomItems (Room.id rm) (User.server_code user) in
  ret (find (fun item => String.eqb (toLowerCase (Item.name item))
                                    (toLowerCase targetName)) roomItems).

(** The user row with the given id, as [repo.getUser] finds it. *)
Definition user_row (uid : string) (w : World) : option User.t :=
  find (fun x => String.eqb (User.id x) uid) (users (db w)).

(** The battle registry and the timers agree: the two maps of the
    registry describe the same battles, the timer of every registered
    battle is live and runs the tick of that user, every live timer
    belongs to a registered battle, and no live handle is ahead of the
    counter of handles. *)
Definition battles_agree (w : World) : Prop :=
  (forall uid, activeBattles (combat w) !! uid
               = ActiveBattle.interval <$> battleData (combat w) !! uid)
  /\ (forall uid h, activeBattles (combat w) !! uid = Some h ->
        exists cl, live (timers w) !! h = Some cl
                   /\ User.id (tc_user cl) = uid)
  /\ (forall h cl, live (timers w) !! h = Some cl ->
        activeBattles (combat w) !! User.id (tc_user cl) = Some h)
  /\ (forall h cl, live (timers w) !! h = Some cl ->
        (h < next_handle (timers w))%nat).

(** A computation keeps the invariant [I], whether it returns or
    throws. *)
Definition keeps {A} (I : World -> Prop) (m : M A) : Prop :=
  forall w, I w -> I (snd (m w)).

(** The registry and the timers once the timer [h] is cancelled and the
    battle of [userId] is ended. *)
Definition stopped (userId : string) (h : nat) (b : CombatState * Timers)
  : CombatState * Timers :=
  let l := delete h (live (snd b)) in
  (mkCombatState (delete userId (activeBattles (fst b)))
                 (delete userId (battleData (fst b))),
   mkTimers match battleData (fst b) !! userId with
            | Some x => delete (ActiveBattle.interval x) l
            | None => l
            end
            (next_handle (snd b))).

(** A computation either leaves the registry and the timers alone or
    stops the battle of [userId] and the timer [h]. *)
Definition may_stop {A} (userId : string) (h : nat) (m : M A) : Prop :=
  forall w, battles (snd (m w)) = battles w
            \/ battles (snd (m w)) = stopped userId h (battles w).

(** The user a socket speaks for: the user row of the session of the
    socket, as the handlers of [cmd:input] and [combat:retreat] look it
    up. *)
Definition session_user (socket : string) (w : World) : option User.t :=
  match socketUserMap (store w) !! socket with
  | Some userId => if truthy userId then user_row userId w else None
  | None => None
  end.

(** ** [db/repo.ts], continued: the creation of rooms *)

Module rooms.

Definition on_rooms (f : list Room.t -> list Room.t) (d : Db) : Db :=
  mkDb (users d) (f (rooms d)) (items d) (animations d).

(** [createRoom]; [newId] is the value of [uuidv4()], the id of [room]
    is ignored. The INSERT is refused when the id is taken or the
    creator names no user. No constraint of the schema speaks of the
    coordinate: the row read back is the first row stored at the
    coordinate of [room], which is the new row only when the
    coordinate had none. *)
Definition createRoom (newId : string) (room : Room.t) : M Room.t :=
  if negb (truthy (Room.server_code room))
  then throw (Error "server_code is required for createRoom")
  else
    let* d := gets db in
    if repo.room_exists newId d
       || negb (repo.user_exists (Room.created_by room) d)
    then throw SqliteError
    else
      modify (with_db (on_rooms (fun l =>
        l ++ [Room.mk newId (Room.q room) (Room.r room)
                (Room.server_code room) (Room.title room)
                (Room.description room) (Room.shroud_level room)
                (Room.created_by room) (Room.symbol room)])))
      >>>
      let* createdRoom := repo.getRoom (Room.q room) (Room.r room)
                            (Room.server_code room) in
      match createdRoom with
      | Some createdRoom => ret createdRoom
      | None => throw (Error "Failed to create room")
      end.

End rooms.

(** ** [handlers/creation.ts], continued: the steps of the two wizards *)

Module wizard.

(** A text sent as it is. *)
Definition text (s : string) : Msg := msg_item_text s.

Definition nl : string := String (Ascii.ascii_of_nat 10) "".
Definition dq : string := String (Ascii.ascii_of_nat 34) "".

Definition set_title (v : string) (d : TempRoomData.t) : TempRoomData.t :=
  TempRoomData.mk (Some v) (TempRoomData.description d) (TempRoomData.mood d)
    (TempRoomData.q d) (TempRoomData.r d).
Definition set_description (v : string) (d : TempRoomData.t)
  : TempRoomData.t :=
  TempRoomData.mk (TempRoomData.title d) (Some v) (TempRoomData.mood d)
    (TempRoomData.q d) (TempRoomData.r d).
Definition set_mood (v : option string) (d : TempRoomData.t)
  : TempRoomData.t :=
  TempRoomData.mk (TempRoomData.title d) (TempRoomData.description d) v
    (TempRoomData.q d) (TempRoomData.r d).

(** The snapshot of the room steps: the room of the coordinate if it
    has one, else the transient room; no items. *)
Definition room_snapshot (user : User.t) : M HandlerResult :=
  let* updatedUser := repo.getUser (User.id user) in
  let* currentRoom := repo.getRoom (User.current_q user)
                        (User.current_r user) (User.server_code user) in
  let voidRoom :=
    default (void_room (User.current_q user) (User.current_r user)
               (User.server_code user) (User.id user)) currentRoom in
  let* updatedUser := unwrap updatedUser in
  let* visibleRooms := repo.getVisibleRooms (User.current_q updatedUser)
                         (User.current_r updatedUser)
                         (User.server_code user) in
  let* inventory := repo.getUserInventory (User.id user)
                      (User.server_code user) in
  ret (mkResult true
         (Some (mkStateUpdate (Some updatedUser) voidRoom visibleRooms
                  [] (Some inventory)))).

(** The expiry of the steps that have no scratch record to delete. *)
Definition expired (socket : string) (user : User.t) : M HandlerResult :=
  emit socket (game_log msg_session_expired log_error None) >>>
  repo.updateUserState (User.id user) IDLE >>>
  ret handled_only.

Definition handleRoomTitle (socket : string) (user : User.t) (input : string)
  : M HandlerResult :=
  let* stored := store.getTempRoomData (User.id user) in
  let tempData :=
    default (TempRoomData.mk None None None (User.current_q user)
               (User.current_r user)) stored in
  let tempData := set_title (trim input) tempData in
  store.setTempRoomData (User.id user) tempData >>>
  repo.updateUserState (User.id user) CREATING_ROOM_DESC >>>
  emit socket (game_log (text "Describe the surroundings.") log_prompt
                 (Some "QUESTION")) >>>
  room_snapshot user.

Definition mood_menu : string :=
  ("Choose a Mood:" ++ nl ++ "1. Neutral" ++ nl ++ "2. Mysterious" ++ nl
   ++ "3. Dangerous" ++ nl ++ "4. Peaceful" ++ nl ++ "5. Ancient" ++ nl
   ++ "6. Whimsical")%string.

Definition handleRoomDesc (socket : string) (user : User.t) (input : string)
  : M HandlerResult :=
  let* tempData := store.getTempRoomData (User.id user) in
  match tempData with
  | None => expired socket user
  | Some tempData =>
    let tempData := set_description (trim input) tempData in
    store.setTempRoomData (User.id user) tempData >>>
    repo.updateUserState (User.id user) CREATING_ROOM_MOOD >>>
    emit socket (game_log (text mood_menu) log_prompt (Some "QUESTION")) >>>
    room_snapshot user
  end.

(** [moodMap]. *)
Definition moodMap (n : Z) : option string :=
  if n =? 1 then Some "Neutral"
  else if n =? 2 then Some "Mysterious"
  else if n =? 3 then Some "Dangerous"
  else if n =? 4 then Some "Peaceful"
  else if n =? 5 then Some "Ancient"
  else if n =? 6 then Some "Whimsical"
  else None.

(** [isNaN(n) || n < lo || n > hi] on the result of [parseInt]. *)
Definition out_of_range (n : option Z) (lo hi : Z) : bool :=
  match n with
  | Some n => (n <? lo) || (n >? hi)
  | None => true
  end.

Definition handleRoomMood (socket : string) (user : User.t) (input : string)
  : M HandlerResult :=
  let* tempData := store.getTempRoomData (User.id user) in
  match tempData with
  | None => expired socket user
  | Some tempData =>
    let moodNumber := parseInt (trim input) in
    if out_of_range moodNumber 1 6 then
      emit socket (game_log
        (text "Invalid selection. Please enter a number between 1 and 6.")
        log_error None) >>>
      ret handled_only
    else
      let tempData := set_mood (moodMap (default 0 moodNumber)) tempData in
      store.setTempRoomData (User.id user) tempData >>>
      repo.updateUserState (User.id user) CREATING_ROOM_SHROUD >>>
      emit socket (game_log (text "How mysterious is this place? (0-5)")
                     log_prompt (Some "QUESTION")) >>>
      room_snapshot user
  end.

(** The expiry of the last room step, which drops the scratch room. *)
Definition expired_room (socket : string) (user : User.t) : M HandlerResult :=
  emit socket (game_log msg_session_expired log_error None) >>>
  repo.updateUserState (User.id user) IDLE >>>
  store.deleteTempRoomData (User.id user) >>>
  ret handled_only.

(** [!tempData.title || !tempData.description || !tempData.mood]. *)
Definition incomplete (d : TempRoomData.t) : bool :=
  negb (truthy_opt (TempRoomData.title d))
  || negb (truthy_opt (TempRoomData.description d))
  || negb (truthy_opt (TempRoomData.mood d)).

(** [uuid] is the value of [uuidv4()] in [createRoom]. The user row of
    the snapshot is read before the mode is written. *)
Definition handleRoomShroud (uuid : string) (socket : string) (user : User.t)
    (input : string) : M HandlerResult :=
  let* tempData := store.getTempRoomData (User.id user) in
  match tempData with
  | None => expired_room socket user
  | Some tempData =>
    if incomplete tempData then expired_room socket user
    else
      let shroudLevel := parseInt (trim input) in
      if out_of_range shroudLevel 0 5 then
        emit socket (game_log
          (text "Invalid shroud level. Please enter a number between 0 and 5.")
          log_error None) >>>
        ret handled_only
      else
        let* newRoom :=
          rooms.createRoom uuid
            (Room.mk "" (TempRoomData.q tempData) (TempRoomData.r tempData)
               (User.server_code user)
               (default "" (TempRoomData.title tempData))
               (default "" (TempRoomData.description tempData))
               (default 0 shroudLevel) (User.id user) None) in
        let* updatedUser := repo.getUser (User.id user) in
        emit socket (game_log (text "The world takes shape around you.")
                       log_info None) >>>
        repo.updateUserState (User.id user) CREATING_OBJ_CONFIRM >>>
        store.setTempItemData (User.id user)
          (TempItemData.fresh (Room.id newRoom)) >>>
        emit socket (game_log msg_add_object log_prompt (Some "QUESTION")) >>>
        let* updatedUser := unwrap updatedUser in
        let* visibleRooms := repo.getVisibleRooms (User.current_q updatedUser)
                               (User.current_r updatedUser)
                               (User.server_code user) in
        let* roomItems := repo.getRoomItems (Room.id newRoom)
                            (User.server_code user) in
        let* inventory := repo.getUserInventory (User.id user)
                            (User.server_code user) in
        ret (mkResult true
               (Some (mkStateUpdate (Some updatedUser) newRoom visibleRooms
                        roomItems (Some inventory))))
  end.

(** The continuations of the generation of animations that
    [handleObjConfirm] starts. [on_generated] runs when the generation
    succeeds, [on_generation_failed] when it fails, and also when
    [on_generated] itself throws, as [.then(f).catch(g)] has it. *)
Definition on_generation_failed (socket : string) (user : User.t)
    (currentRoom : Room.t) : M unit :=
  store.deleteTempRoomData (User.id user) >>>
  store.deleteTempItemData (User.id user) >>>
  repo.updateUserState (User.id user) IDLE >>>
  let* updatedUser := repo.getUser (User.id user) in
  let* updatedUser := unwrap updatedUser in
  let* visibleRooms := repo.getVisibleRooms (User.current_q updatedUser)
                         (User.current_r updatedUser)
                         (User.server_code user) in
  let* finalRoomItems := repo.getRoomItems (Room.id currentRoom)
                           (User.server_code user) in
  emit socket (game_log
    (text "The world is complete. (Animations could not be generated)")
    log_info None) >>>
  let* inventory := repo.getUserInventory (User.id user)
                      (User.server_code user) in
  emit socket (state_update
    (mkStateUpdate (Some updatedUser) currentRoom visibleRooms finalRoomItems
       (Some inventory))).

Definition generated (socket : string) (user : User.t) : M unit :=
  store.deleteTempRoomData (User.id user) >>>
  store.deleteTempItemData (User.id user) >>>
  repo.updateUserState (User.id user) IDLE >>>
  let* updatedUser := repo.getUser (User.id user) in
  let* updatedUser := unwrap updatedUser in
  let* refreshedRoom := repo.getRoom (User.current_q updatedUser)
                          (User.current_r updatedUser)
                          (User.server_code user) in
  let* visibleRooms := repo.getVisibleRooms (User.current_q updatedUser)
                         (User.current_r updatedUser)
                         (User.server_code user) in
  let* refreshedRoom := unwrap refreshedRoom in
  let* finalRoomItems := repo.getRoomItems (Room.id refreshedRoom)
                           (User.server_code user) in
  emit socket (game_log (text "The world is complete. You may explore.")
                 log_info None) >>>
  let* inventory := repo.getUserInventory (User.id user)
                      (User.server_code user) in
  emit socket (state_update
    (mkStateUpdate (Some updatedUser) refreshedRoom visibleRooms
       finalRoomItems (Some inventory))) >>>
  sendRoomTapestry socket (Room.id refreshedRoom).

Definition on_generated (socket : string) (user : User.t)
    (currentRoom : Room.t) : M unit :=
  fun w =>
    match generated socket user w with
    | (Throw _, w') => on_generation_failed socket user currentRoom w'
    | done => done
    end.

(** The answer to "Add an object? (y/n)". On [n] the handler starts the
    generation of the animations, which goes on after the handler has
    returned; what follows it is [on_generated] or
    [on_generation_failed]. *)
Definition handleObjConfirm (socket : string) (user : User.t)
    (input : string) : M HandlerResult :=
  let response := toLowerCase (trim input) in
  if String.eqb response "n" || String.eqb response "no" then
    let* currentRoom := repo.getRoom (User.current_q user)
                          (User.current_r user) (User.server_code user) in
    let* currentRoom := unwrap currentRoom in
    let* roomItems := repo.getRoomItems (Room.id currentRoom)
                        (User.server_code user) in
    let* tempRoomData := store.getTempRoomData (User.id user) in
    repo.updateUserState (User.id user) GENERATING_ANIMATIONS >>>
    emit socket (game_log
      (text "Weaving the threads of reality... (Generating Animations)")
      log_info None) >>>
    let* updatedUser := repo.getUser (User.id user) in
    let* updatedUser := unwrap updatedUser in
    let* visibleRooms := repo.getVisibleRooms (User.current_q updatedUser)
                           (User.current_r updatedUser)
                           (User.server_code user) in
    let* inventory := repo.getUserInventory (User.id user)
                        (User.server_code user) in
    ret (mkResult true
           (Some (mkStateUpdate (Some updatedUser) currentRoom visibleRooms
                    roomItems (Some inventory))))
  else if String.eqb response "y" || String.eqb response "yes" then
    repo.updateUserState (User.id user) CREATING_OBJ_NAME >>>
    emit socket (game_log (text "What is this object called?") log_prompt
                   (Some "QUESTION")) >>>
    creation.snapshot user
  else
    emit socket (game_log
      (text ("Please answer with " ++ dq ++ "y" ++ dq ++ " or " ++ dq ++ "n"
             ++ dq ++ ".")%string) log_error None) >>>
    ret handled_only.

Definition set_name (v : string) (d : TempItemData.t) : TempItemData.t :=
  TempItemData.mk (Some v) (TempItemData.description d) (TempItemData.verb d)
    (TempItemData.successMessage d) (TempItemData.effectTypeCombat d)
    (TempItemData.effectValue d) (TempItemData.interactionType d)
    (TempItemData.enemyHp d) (TempItemData.enemyMaxHp d)
    (TempItemData.enemyAttack d) (TempItemData.isInfinite d)
    (TempItemData.xpValue d) (TempItemData.requiredItemId d)
    (TempItemData.requiredItemName d) (TempItemData.roomId d).
Definition set_item_description (v : string) (d : TempItemData.t)
  : TempItemData.t :=
  TempItemData.mk (TempItemData.name d) (Some v) (TempItemData.verb d)
    (TempItemData.successMessage d) (TempItemData.effectTypeCombat d)
    (TempItemData.effectValue d) (TempItemData.interactionType d)
    (TempItemData.enemyHp d) (TempItemData.enemyMaxHp d)
    (TempItemData.enemyAttack d) (TempItemData.isInfinite d)
    (TempItemData.xpValue d) (TempItemData.requiredItemId d)
    (TempItemData.requiredItemName d) (TempItemData.roomId d).
Definition set_interactionType (v : InteractionType) (d : TempItemData.t)
  : TempItemData.t :=
  TempItemData.mk (TempItemData.name d) (TempItemData.description d)
    (TempItemData.verb d) (TempItemData.successMessage d)
    (TempItemData.effectTypeCombat d) (TempItemData.effectValue d) (Some v)
    (TempItemData.enemyHp d) (TempItemData.enemyMaxHp d)
    (TempItemData.enemyAttack d) (TempItemData.isInfinite d)
    (TempItemData.xpValue d) (TempItemData.requiredItemId d)
    (TempItemData.requiredItemName d) (TempItemData.roomId d).
Definition set_effectTypeCombat (d : TempItemData.t) : TempItemData.t :=
  TempItemData.mk (TempItemData.name d) (TempItemData.description d)
    (TempItemData.verb d) (TempItemData.successMessage d) true
    (TempItemData.effectValue d) (TempItemData.interactionType d)
    (TempItemData.enemyHp d) (TempItemData.enemyMaxHp d)
    (TempItemData.enemyAttack d) (TempItemData.isInfinite d)
    (TempItemData.xpValue d) (TempItemData.requiredItemId d)
    (TempItemData.requiredItemName d) (TempItemData.roomId d).
Definition set_effectValue (v : Z) (d : TempItemData.t) : TempItemData.t :=
  TempItemData.mk (TempItemData.name d) (TempItemData.description d)
    (TempItemData.verb d) (TempItemData.successMessage d)
    (TempItemData.effectTypeCombat d) (Some v) (TempItemData.interactionType d)
    (TempItemData.enemyHp d) (TempItemData.enemyMaxHp d)
    (TempItemData.enemyAttack d) (TempItemData.isInfinite d)
    (TempItemData.xpValue d) (TempItemData.requiredItemId d)
    (TempItemData.requiredItemName d) (TempItemData.roomId d).
Definition set_enemy (hp attack xp : Z) (d : TempItemData.t)
  : TempItemData.t :=
  TempItemData.mk (TempItemData.name d) (TempItemData.description d)
    (TempItemData.verb d) (TempItemData.successMessage d)
    (TempItemData.effectTypeCombat d) (TempItemData.effectValue d)
    (TempItemData.interactionType d) (Some hp) (Some hp) (Some attack)
    (TempItemData.isInfinite d) (Some xp) (TempItemData.requiredItemId d)
    (TempItemData.requiredItemName d) (TempItemData.roomId d).
Definition set_isInfinite (v : bool) (d : TempItemData.t) : TempItemData.t :=
  TempItemData.mk (TempItemData.name d) (TempItemData.description d)
    (TempItemData.verb d) (TempItemData.successMessage d)
    (TempItemData.effectTypeCombat d) (TempItemData.effectValue d)
    (TempItemData.interactionType d) (TempItemData.enemyHp d)
    (TempItemData.enemyMaxHp d) (TempItemData.enemyAttack d) (Some v)
    (TempItemData.xpValue d) (TempItemData.requiredItemId d)
    (TempItemData.requiredItemName d) (TempItemData.roomId d).

Definition handleObjName (socket : string) (user : User.t) (input : string)
  : M HandlerResult :=
  let* tempItemData := store.getTempItemData (User.id user) in
  match tempItemData with
  | None => expired socket user
  | Some tempItemData =>
    let tempItemData := set_name (trim input) tempItemData in
    store.setTempItemData (User.id user) tempItemData >>>
    repo.updateUserState (User.id user) CREATING_OBJ_DESC >>>
    emit socket (game_log (text "Describe this object.") log_prompt
                   (Some "QUESTION")) >>>
    creation.snapshot user
  end.

Definition type_menu : string :=
  ("What type of object?" ++ nl ++ "1. Flavor" ++ nl ++ "2. Treasure" ++ nl
   ++ "3. Buff/Trap" ++ nl ++ "4. Pickup" ++ nl ++ "5. Enemy" ++ nl
   ++ "6. Gate")%string.

Definition handleObjDesc (socket : string) (user : User.t) (input : string)
  : M HandlerResult :=
  let* tempItemData := store.getTempItemData (User.id user) in
  match tempItemData with
  | None => creation.session_expired socket user
  | Some tempItemData =>
    if negb (truthy_opt (TempItemData.name tempItemData))
    then creation.session_expired socket user
    else
      let tempItemData := set_item_description (trim input) tempItemData in
      store.setTempItemData (User.id user) tempItemData >>>
      repo.updateUserState (User.id user) CREATING_OBJ_TYPE >>>
      emit socket (game_log (text type_menu) log_prompt (Some "QUESTION")) >>>
      creation.snapshot user
  end.

(** The snapshot of [handleObjVerb], which leaves the inventory out. *)
Definition snapshot_without_inventory (user : User.t) : M HandlerResult :=
  let* updatedUser := repo.getUser (User.id user) in
  let* currentRoom := repo.getRoom (User.current_q user)
                        (User.current_r user) (User.server_code user) in
  let* updatedUser := unwrap updatedUser in
  let* visibleRooms := repo.getVisibleRooms (User.current_q updatedUser)
                         (User.current_r updatedUser)
                         (User.server_code user) in
  let* currentRoom := unwrap currentRoom in
  let* roomItems := repo.getRoomItems (Room.id currentRoom)
                      (User.server_code user) in
  ret (mkResult true
         (Some (mkStateUpdate (Some updatedUser) currentRoom visibleRooms
                  roomItems None))).

Definition handleObjVerb (socket : string) (user : User.t) (input : string)
  : M HandlerResult :=
  let* tempItemData := store.getTempItemData (User.id user) in
  match tempItemData with
  | None => creation.session_expired socket user
  | Some tempItemData =>
    if negb (truthy_opt (TempItemData.name tempItemData))
    then creation.session_expired socket user
    else
      let tempItemData :=
        TempItemData.set_verb (toLowerCase (trim input)) tempItemData in
      store.setTempItemData (User.id user) tempItemData >>>
      repo.updateUserState (User.id user) CREATING_OBJ_SUCCESS_MSG >>>
      emit socket (game_log
        (msg_describe_happens (TempItemData.verb tempItemData)
           (TempItemData.name tempItemData)) log_prompt (Some "QUESTION")) >>>
      snapshot_without_inventory user
  end.

(** [typeMap]. *)
Definition typeMap (n : Z) : option InteractionType :=
  if n =? 1 then Some FLAVOR
  else if n =? 2 then Some TREASURE
  else if n =? 3 then Some BUFF_TRAP
  else if n =? 4 then Some PICKUP
  else if n =? 5 then Some ENEMY
  else if n =? 6 then Some GATE
  else None.

Definition invalid_selection : Msg :=
  text "Invalid selection. Please enter a number between 1 and 6.".

Definition handleObjType (socket : string) (user : User.t) (input : string)
  : M HandlerResult :=
  let* tempItemData := store.getTempItemData (User.id user) in
  match tempItemData with
  | None => creation.session_expired socket user
  | Some tempItemData =>
    if negb (truthy_opt (TempItemData.name tempItemData))
    then creation.session_expired socket user
    else
      let choice := parseInt (trim input) in
      if out_of_range choice 1 6 then
        emit socket (game_log invalid_selection log_error None) >>>
        ret handled_only
      else
        match typeMap (default 0 choice) with
        | None =>
            emit socket (game_log invalid_selection log_error None) >>>
            ret handled_only
        | Some interactionType =>
          let tempItemData := set_interactionType interactionType tempItemData in
          let tempItemData :=
            match interactionType with
            | ENEMY =>
                set_effectTypeCombat (TempItemData.set_verb "fight" tempItemData)
            | TREASURE => TempItemData.set_verb "search" tempItemData
            | _ => tempItemData
            end in
          store.setTempItemData (User.id user) tempItemData >>>
          match interactionType with
          | FLAVOR =>
              repo.updateUserState (User.id user) CREATING_OBJ_VERB >>>
              emit socket (game_log
                (text ("What is the interaction verb? (e.g., " ++ dq ++ "read"
                       ++ dq ++ ", " ++ dq ++ "touch" ++ dq ++ ", " ++ dq
                       ++ "examine" ++ dq ++ ")")%string)
                log_prompt (Some "QUESTION"))
          | TREASURE =>
              repo.updateUserState (User.id user) CREATING_OBJ_VALUE >>>
              emit socket (game_log (text "How much Gold?") log_prompt
                             (Some "QUESTION"))
          | BUFF_TRAP =>
              store.setTempItemData (User.id user)
                (TempItemData.set_verb "touch" tempItemData) >>>
              repo.updateUserState (User.id user) CREATING_OBJ_VALUE >>>
              emit socket (game_log (text "HP Change? (Positive/Negative)")
                             log_prompt (Some "QUESTION"))
          | PICKUP =>
              when (negb (truthy_opt (TempItemData.verb tempItemData)))
                (store.setTempItemData (User.id user)
                   (TempItemData.set_verb "take" tempItemData)) >>>
              repo.updateUserState (User.id user) CREATING_OBJ_SUPPLY_TYPE >>>
              emit socket (game_log
                (text "Is this item Unique (disappears when taken) or Infinite (everyone can take one)? (1. Unique, 2. Infinite)")
                log_prompt (Some "QUESTION"))
          | ENEMY =>
              repo.updateUserState (User.id user) CREATING_OBJ_ENEMY_STATS >>>
              emit socket (game_log
                (text ("Enter HP Attack XP (e.g., " ++ dq ++ "20 4 50" ++ dq
                       ++ "):")%string)
                log_prompt (Some "QUESTION"))
          | GATE =>
              when (negb (truthy_opt (TempItemData.verb tempItemData)))
                (store.setTempItemData (User.id user)
                   (TempItemData.set_verb "open" tempItemData)) >>>
              repo.updateUserState (User.id user) CREATING_OBJ_REQUIREMENT >>>
              emit socket (game_log (text "Name of required Key?") log_prompt
                             (Some "QUESTION"))
          end >>>
          creation.snapshot user
        end
  end.

(** [tempItemData.verb || d]. *)
Definition verb_or (d : string) (t : TempItemData.t) : string :=
  match TempItemData.verb t with
  | Some v => if truthy v then v else d
  | None => d
  end.

Definition handleObjValue (socket : string) (user : User.t) (input : string)
  : M HandlerResult :=
  let* tempItemData := store.getTempItemData (User.id user) in
  match tempItemData with
  | None => creation.session_expired socket user
  | Some tempItemData =>
    if creation.lacks_name_or_type tempItemData
    then creation.session_expired socket user
    else
      match parseInt (trim input) with
      | None =>
          emit socket (game_log
            (text "Invalid number. Please enter a valid integer (positive or negative).")
            log_error None) >>>
          ret handled_only
      | Some value =>
          let tempItemData := set_effectValue value tempItemData in
          store.setTempItemData (User.id user) tempItemData >>>
          repo.updateUserState (User.id user) CREATING_OBJ_VERB_CONFIRM >>>
          emit socket (game_log
            (msg_default_verb (verb_or "interact" tempItemData)) log_prompt
            (Some "QUESTION")) >>>
          creation.snapshot user
      end
  end.

Definition handleObjEnemyStats (socket : string) (user : User.t)
    (input : string) : M HandlerResult :=
  let* tempItemData := store.getTempItemData (User.id user) in
  match tempItemData with
  | None => creation.session_expired socket user
  | Some tempItemData =>
    if creation.lacks_name_or_type tempItemData
    then creation.session_expired socket user
    else
      let parts := split_ws (trim input) in
      if (length parts <? 3)%nat
         || negb (truthy (List.nth 0 parts ""))
         || negb (truthy (List.nth 1 parts ""))
         || negb (truthy (List.nth 2 parts ""))
      then
        emit socket (game_log
          (text ("Invalid format. Please enter " ++ dq ++ "HP ATTACK XP" ++ dq
                 ++ " (e.g., " ++ dq ++ "20 4 10" ++ dq ++ ").")%string)
          log_error None) >>>
        ret handled_only
      else
        match parseInt (List.nth 0 parts ""), parseInt (List.nth 1 parts ""),
              parseInt (List.nth 2 parts "") with
        | Some hp, Some attack, Some xp =>
          if (hp <=? 0) || (attack <=? 0) || (xp <=? 0) then
            emit socket (game_log
              (text "Invalid values. HP, Attack, and XP must be positive integers.")
              log_error None) >>>
            ret handled_only
          else
            let tempItemData := set_enemy hp attack xp tempItemData in
            store.setTempItemData (User.id user) tempItemData >>>
            repo.updateUserState (User.id user) CREATING_OBJ_SUCCESS_MSG >>>
            emit socket (game_log
              (msg_describe_happens (TempItemData.verb tempItemData)
                 (TempItemData.name tempItemData)) log_prompt
              (Some "QUESTION")) >>>
            creation.snapshot user
        | _, _, _ =>
            emit socket (game_log
              (text "Invalid values. HP, Attack, and XP must be positive integers.")
              log_error None) >>>
            ret handled_only
        end
  end.

Definition handleObjSupplyType (socket : string) (user : User.t)
    (input : string) : M HandlerResult :=
  let* tempItemData := store.getTempItemData (User.id user) in
  match tempItemData with
  | None => creation.session_expired socket user
  | Some tempItemData =>
    if creation.lacks_name_or_type tempItemData
    then creation.session_expired socket user
    else
      let choice := parseInt (trim input) in
      if match choice with
         | Some c => negb (c =? 1) && negb (c =? 2)
         | None => true
         end
      then
        emit socket (game_log
          (text "Invalid selection. Please enter 1 for Unique or 2 for Infinite.")
          log_error None) >>>
        ret handled_only
      else
        let tempItemData :=
          set_isInfinite (bool_decide (choice = Some 2)) tempItemData in
        store.setTempItemData (User.id user) tempItemData >>>
        repo.updateUserState (User.id user) CREATING_OBJ_VERB_CONFIRM >>>
        emit socket (game_log
          (msg_default_verb (verb_or "take" tempItemData)) log_prompt
          (Some "QUESTION")) >>>
        creation.snapshot user
  end.

(** The steps, for the dispatcher. [uuid] is the value [uuidv4()] would
    return during the command. *)
Definition steps (uuid : string) : creation.WizardSteps :=
  creation.Build_WizardSteps
    handleRoomTitle handleRoomDesc handleRoomMood (handleRoomShroud uuid)
    handleObjConfirm handleObjName handleObjDesc handleObjVerb handleObjType
    handleObjValue handleObjEnemyStats handleObjSupplyType.

End wizard.

(** ** The room wizard, from the prompt for the title to the room row *)

Section RoomWizard.

Context `{general.Handlers}.

(** The command [raw] on [cmd:input] with the steps of the wizard as
    they are written. *)
Definition command (uuid socket raw : string) : M (list Handler) :=
  @cmd_input (wizard.steps uuid) _ uuid socket raw.

(** The four answers of the room wizard, typed one after the other. *)
Definition author_room (uuid socket title desc mood shroud : string)
  : M (list Handler) :=
  command uuid socket title >>>
  command uuid socket desc >>>
  command uuid socket mood >>>
  command uuid socket shroud.

End RoomWizard.

(** The wizard has let the user go: the mode is IDLE, the other columns
    of the user row are as before, both scratch records are gone, and
    nothing else has been written. *)
Definition released (uid : string) (w w' : World) : Prop :=
  user_row uid w' = User.set_state IDLE <$> user_row uid w
  /\ tempRoomDataMap (store w') !! uid = None
  /\ tempItemDataMap (store w') !! uid = None
  /\ rooms (db w') = rooms (db w)
  /\ items (db w') = items (db w)
  /\ animations (db w') = animations (db w)
  /\ socketUserMap (store w') = socketUserMap (store w)
  /\ battles w' = battles w.

(** The world but for its outbox. *)
Definition silent (w : World) : Db * Store * CombatState * Timers :=
  (db w, store w, combat w, timers w).

(** The shape of a step of the object wizard that succeeds: the mode
    becomes [mode'], the scratch item becomes [d'], if one is given, and
    events are sent; nothing else changes. *)
Definition stepped (w : World) (u : User.t) (mode' : Mode)
    (d' : option TempItemData.t) (r : Res (list Handler) * World) : Prop :=
  exists evs,
    r = (Ok [H_creation],
         mkWorld
           (repo.on_users (repo.update_user (User.id u) (User.set_state mode'))
              (db w))
           (match d' with
            | Some d' => store.on_tempItem (insert (User.id u) d') (store w)
            | None => store w
            end)
           (combat w) (timers w) (outbox w ++ evs)).

(** ** The object wizard: the authoring of an enemy *)

Section EnemyWizard.

Context `{general.Handlers}.

(** The six answers that author an enemy, typed one after the other:
    yes, the name, the description, the type 5, the three figures and
    the success message. *)
Definition author_enemy (uuid socket name desc stats message : string)
  : M (list Handler) :=
  command uuid socket "y" >>>
  command uuid socket name >>>
  command uuid socket desc >>>
  command uuid socket "5" >>>
  command uuid socket stats >>>
  command uuid socket message.

End EnemyWizard.

(** ** A second small world: a cave with things to use *)

Module Scene.

Definition chest : Item.t :=
  Item.mk "i7" (Some "r1") None "ISLE" "Chest" "A chest." "" "search"
    GOLD 25 0 None 0 0 0 10 0.
Definition spring : Item.t :=
  Item.mk "i8" (Some "r1") None "ISLE" "Spring" "A spring." "" "drink"
    HEAL 95 0 None 0 0 0 10 0.
Definition spikes : Item.t :=
  Item.mk "i10" (Some "r1") None "ISLE" "Spikes" "Rusty spikes." "Ouch."
    "touch" DAMAGE 60 0 None 0 0 0 10 0.
(** A door that asks for the rope bob carries. *)
Definition door : Item.t :=
  Item.mk "i11" (Some "r1") None "ISLE" "Door" "A door." "" "open"
    NONE 0 0 (Some "i6") 0 0 0 10 0.

(** Dave stands in the cave with nothing in his hands. *)
Definition dave : User.t :=
  User.mk "u4" "dave" "ISLE" 1 10 100 0 2 (-1) IDLE.

(** Erin stands one step north-east of the crash site, on a coordinate
    that has no room. *)
Definition erin : User.t :=
  User.mk "u5" "erin" "ISLE" 1 10 100 0 1 (-1) IDLE.

Definition cave_db : Db :=
  mkDb [Fixture.alice; Fixture.bob; Fixture.carol; dave; erin]
       [Fixture.crash_site; Fixture.cave]
       [Fixture.goblin; Fixture.rope; chest; spring; spikes; door] [].

Definition cave_store : Store :=
  mkStore {["s2" := "u2"; "s4" := "u4"; "s5" := "u5"; "s9" := "u9"]} ∅ ∅.

Definition world : World :=
  mkWorld cave_db cave_store (mkCombatState ∅ ∅) (mkTimers ∅ 0) [].

(** Dave walks north, into a coordinate that has no room, and is asked
    for the title of the place. *)
Definition moved : World := exec (handleMove "s4" dave "n") world.

(** He authors the room, which gets the id [r9]. *)
Definition authored : World :=
  exec (author_room "r9" "s4" " Misty Moor " "Fog everywhere." "2" "3") moved.

End Scene.

(** ** Looking around: [handleLook] of [handlers/general.ts] *)

Module looking.

(** [!target || target.trim() === ''] *)
Definition blank (target : string) : bool :=
  negb (truthy target) || String.eqb (trim target) "".

(** [i.name.toLowerCase() === target.trim().toLowerCase()] *)
Definition named (target : string) (i : Item.t) : bool :=
  String.eqb (toLowerCase (Item.name i)) (toLowerCase (trim target)).

(** [item.description || 'You don't notice anything.'] *)
Definition description_of (item : Item.t) : string :=
  if truthy (Item.description item) then Item.description item
  else "You don't notice anything.".

Definition undefined_space (socket : string) : M bool :=
  emit socket (game_log (wizard.text "You are in undefined space.")
                 log_info None) >>>
  ret true.

Definition handleLook (socket : string) (user : User.t) (target : string)
  : M bool :=
  let serverCode := User.server_code user in
  let* currentRoom := repo.getRoom (User.current_q user)
                        (User.current_r user) serverCode in
  match currentRoom with
  | None => undefined_space socket
  | Some currentRoom =>
    if startsWith (Room.id currentRoom) "void-" then undefined_space socket
    else if blank target then
      emit socket (game_log (wizard.text (Room.title currentRoom))
                     log_info None) >>>
      emit socket (game_log (wizard.text (Room.description currentRoom))
                     log_info None) >>>
      ret true
    else
      let* roomItems := repo.getRoomItems (Room.id currentRoom) serverCode in
      let* item :=
        match find (named target) roomItems with
        | Some item => ret (Some item)
        | None =>
          let* inventory := repo.getUserInventory (User.id user) serverCode in
          ret (find (named target) inventory)
        end in
      match item with
      | None =>
        emit socket (game_log (msg_dont_see target) log_error None) >>>
        ret true
      | Some item =>
        emit socket (game_log (wizard.text (description_of item))
                       log_info None) >>>
        ret true
      end
  end.

End looking.

(** ** The modes of the wizard *)

Module modes.

(** The arrows of the wizard: the modes that the step for the mode [m]
    can write into the row of the user. A step can also write nothing,
    which leaves the user where they are. *)
Definition arrows (m : Mode) : list Mode :=
  match m with
  | CREATING_ROOM_TITLE => [IDLE; CREATING_ROOM_DESC]
  | CREATING_ROOM_DESC => [IDLE; CREATING_ROOM_MOOD]
  | CREATING_ROOM_MOOD => [IDLE; CREATING_ROOM_SHROUD]
  | CREATING_ROOM_SHROUD => [IDLE; CREATING_OBJ_CONFIRM]
  | CREATING_OBJ_CONFIRM => [GENERATING_ANIMATIONS; CREATING_OBJ_NAME]
  | CREATING_OBJ_NAME => [IDLE; CREATING_OBJ_DESC]
  | CREATING_OBJ_DESC => [IDLE; CREATING_OBJ_TYPE]
  | CREATING_OBJ_TYPE =>
      [IDLE; CREATING_OBJ_VERB; CREATING_OBJ_VALUE; CREATING_OBJ_SUPPLY_TYPE;
       CREATING_OBJ_ENEMY_STATS; CREATING_OBJ_REQUIREMENT]
  | CREATING_OBJ_VERB => [IDLE; CREATING_OBJ_SUCCESS_MSG]
  | CREATING_OBJ_VALUE => [IDLE; CREATING_OBJ_VERB_CONFIRM]
  | CREATING_OBJ_SUPPLY_TYPE => [IDLE; CREATING_OBJ_VERB_CONFIRM]
  | CREATING_OBJ_REQUIREMENT => [IDLE; CREATING_OBJ_VERB_CONFIRM]
  | CREATING_OBJ_ENEMY_STATS => [IDLE; CREATING_OBJ_SUCCESS_MSG]
  | CREATING_OBJ_VERB_CONFIRM => [IDLE; CREATING_OBJ_SUCCESS_MSG]
  | CREATING_OBJ_SUCCESS_MSG => [IDLE; CREATING_OBJ_CONFIRM]
  | CREATING_OBJ_CONTENTS => [IDLE; CREATING_OBJ_CONFIRM]
  | GENERATING_ANIMATIONS | IDLE | COMBAT => []
  end.

(** A computation writes the table of users at most in the mode of the
    user [uid], and then a mode of the list [S]. *)
Definition writes_mode {A} (uid : string) (S : list Mode) (m : M A) : Prop :=
  forall w,
    users (db (snd (m w))) = users (db w)
    \/ exists m', m' ∈ S
         /\ users (db (snd (m w)))
            = repo.update_user uid (User.set_state m') (users (db w)).

End modes.

(** ** The general commands: [handleHelp] and [handleRegenerate] of
    [handlers/general.ts] *)

Module commands.

(** [obfuscateText] may not leave its loop. A call that has not
    returned after [fuel] iterations ends the run of the event handler
    at that point: nothing that follows it is executed, and nothing
    catches it. It is recorded as this outcome. *)
Definition unfinished : Exn := Error "obfuscateText has not returned".

(** [verbs.map((verb) => obfuscateText(verb, shroudLevel))], from the
    [i]-th verb on. [rnd i] is the sequence of the values of
    [Math.random()] during the call for the [i]-th verb. *)
Fixpoint obfuscate_verbs (fuel : nat) (rnd : nat -> nat -> nat) (i : nat)
    (shroudLevel : Z) (verbs : list string) : option (list string) :=
  match verbs with
  | [] => Some []
  | verb :: rest =>
      match obfuscateText fuel (rnd i) verb shroudLevel with
      | Some shrouded =>
          cons shrouded <$> obfuscate_verbs fuel rnd (S i) shroudLevel rest
      | None => None
      end
  end.

Definition handleHelp (fuel : nat) (rnd : nat -> nat -> nat)
    (socket : string) (user : User.t) : M bool :=
  let serverCode := User.server_code user in
  let nowhere :=
    emit socket (game_log
      (wizard.text "You are in undefined space. No objects here.")
      log_info None) >>>
    ret true in
  let* currentRoom := repo.getRoom (User.current_q user)
                        (User.current_r user) serverCode in
  match currentRoom with
  | None => nowhere
  | Some currentRoom =>
    if startsWith (Room.id currentRoom) "void-" then nowhere
    else
      let* items := repo.getRoomItems (Room.id currentRoom) serverCode in
      let verbs := map Item.interact_verb items in
      if (length verbs =? 0)%nat then
        emit socket (game_log (wizard.text "No objects in this room.")
                       log_info None) >>>
        ret true
      else
        match obfuscate_verbs fuel rnd 0 (Room.shroud_level currentRoom)
                verbs with
        | None => throw unfinished
        | Some shroudedVerbs =>
          emit socket (game_log
            (wizard.text ("Verbs: " ++ String.concat ", " shroudedVerbs))
            log_info None) >>>
          ret true
        end
  end.

(** [DELETE FROM animations WHERE room_id = ?]. *)
Definition deleteRoomAnimations (roomId : string) : M unit :=
  modify (with_db (repo.on_animations
    (filter (fun a => ~ Is_true (eqb_opt roomId (Animation.room_id a)))))).

(** [error instanceof Error ? error.message : 'Unknown error']. The
    embedding keeps the message of an [Error] only; for the two other
    exceptions, which are instances of [Error] too, the text below
    stands for a message it does not keep. *)
Definition message_of (e : Exn) : string :=
  match e with
  | Error message => message
  | TypeError => "Cannot read properties of undefined"
  | SqliteError => "constraint failed"
  end.

(** [try { body } catch (error) { handler(error) }]. *)
Definition try_catch {A} (body : M A) (handler : Exn -> M A) : M A :=
  fun w =>
    match body w with
    | (Throw e, w') => handler e w'
    | done => done
    end.

(** [handleRegenerate], up to its first [await]: the look at the room,
    the announcement and, inside the [try], the deletion of the
    animations of the room and the listing of its items; the call of
    the generator that follows writes nothing of the world and the
    handler is suspended on it. The dispatcher drops the promise
    ([void]), so that the value returned here is read by nobody. What
    the handler does after its awaits, it does in later turns of the
    event loop. *)
Definition handleRegenerate (socket : string) (user : User.t)
    (mood : option string) : M bool :=
  let serverCode := User.server_code user in
  let nowhere :=
    emit socket (game_log
      (wizard.text "You are in undefined space. Cannot regenerate animations.")
      log_error None) >>>
    ret true in
  let* currentRoom := repo.getRoom (User.current_q user)
                        (User.current_r user) serverCode in
  match currentRoom with
  | None => nowhere
  | Some currentRoom =>
    if startsWith (Room.id currentRoom) "void-" then nowhere
    else
      let targetMood :=
        match mood with
        | Some mood => if truthy (trim mood) then trim mood else "Mysterious"
        | None => "Mysterious"
        end in
      emit socket (game_log
        (wizard.text ("Regenerating animations for " ++ wizard.dq
                      ++ Room.title currentRoom ++ wizard.dq
                      ++ " with mood: " ++ targetMood ++ "..."))
        log_info None) >>>
      try_catch
        (deleteRoomAnimations (Room.id currentRoom) >>>
         let* roomItems := repo.getRoomItems (Room.id currentRoom)
                             serverCode in
         ret true)
        (fun error =>
           emit socket (game_log
             (wizard.text ("Failed to regenerate animations: "
                           ++ message_of error))
             log_error None) >>>
           ret true)
  end.

(** The three general handlers as they are written, for the
    dispatcher. *)
Definition handlers (fuel : nat) (rnd : nat -> nat -> nat)
  : general.Handlers :=
  general.Build_Handlers (handleHelp fuel rnd) looking.handleLook
    handleRegenerate.

End commands.

(** The command [raw] on [cmd:input] of the server as it is written:
    the steps of the wizard and the general handlers. *)
Definition serve (fuel : nat) (rnd : nat -> nat -> nat)
    (uuid socket raw : string) : M (list Handler) :=
  @command (commands.handlers fuel rnd) uuid socket raw.

(** ** A fight that a player enters with no HP left *)

Module Trap.

(** The values of [Math.random()] of the examples: the [k]-th value
    of every call is [k]. *)
Definition rnd (i k : nat) : nat := k.

(** Dave, who has 10 HP, touches the spikes of the cave, which take
    60: he is left with 0 HP, standing where he was, IDLE. *)
Definition hurt : World :=
  exec (serve 10 rnd "-" "s4" "touch spikes") Scene.world.

(** He then attacks the goblin. *)
Definition fighting : World :=
  exec (serve 10 rnd "-" "s4" "fight goblin") hurt.


End Trap.

(** ** An item that its author marks as infinite *)

Module Orchard.

(** Dave, who has just authored the room [r9], adds a pickup to it and
    chooses the supply type 2, Infinite. *)
Definition chosen : World :=
  exec (serve 10 Trap.rnd "-" "s4" "y" >>>
        serve 10 Trap.rnd "-" "s4" "Apple" >>>
        serve 10 Trap.rnd "-" "s4" "A red apple." >>>
        serve 10 Trap.rnd "-" "s4" "4" >>>
        serve 10 Trap.rnd "-" "s4" "2")
       Scene.authored.

(** He keeps the verb that is proposed and types the success message.
    The item gets the id [i20]. *)
Definition planted : World :=
  exec (serve 10 Trap.rnd "-" "s4" "y" >>>
        serve 10 Trap.rnd "i20" "s4" "Crunchy.")
       chosen.

(** He adds no other object, and the generation of the animations that
    follows comes to its end. *)
Definition opened : World :=
  exec (serve 10 Trap.rnd "-" "s4" "n" >>>
        wizard.on_generated "s4"
          (User.mk "u4" "dave" "ISLE" 1 10 100 0 2 (-2) CREATING_OBJ_CONFIRM)
          (Room.mk "r9" 2 (-2) "ISLE" "Misty Moor" "Fog everywhere." 3 "u4"
             None))
       planted.

(** Dave takes an apple. *)
Definition taken : World :=
  exec (serve 10 Trap.rnd "i21" "s4" "take apple") opened.

(** Erin walks in from the south-west and tries to take one too. *)
Definition second : World :=
  exec (serve 10 Trap.rnd "-" "s5" "go ne" >>>
        serve 10 Trap.rnd "i22" "s5" "take apple")
       taken.

End Orchard.

(** ** What a computation sends *)


(** ** The rows of the items table *)

(** What holds of every row of the items table: it does not carry
    [is_infinite], which is no column of the table, and its
    [xp_value] is not 0. *)
Definition stored_rows (w : World) : Prop :=
  forall i, i ∈ items (db w) ->
    Item.is_infinite i = 0 /\ Item.xp_value i <> 0.
(** * Properties *)

Example parseDirection_go_nw : parseDirection "  Go   NW " = Some dir_nw.
Proof. reflexivity. Qed.

Example parseDirection_go_alone : parseDirection "go" = None.
Proof. reflexivity. Qed.

Example parseDirection_retreat : parseDirection "retreat" = None.
Proof. reflexivity. Qed.

Example split_ws_examples :
  split_ws "" = [""] /\ split_ws " a" = [""; "a"] /\
  split_ws "a  b " = ["a"; "b"; ""].
Proof. repeat split. Qed.

Example parseInt_examples :
  parseInt " 12abc" = Some 12 /\ parseInt "-7" = Some (-7) /\
  parseInt "abc" = None /\ parseInt "" = None.
Proof. repeat split. Qed.

(** C9. [moveAxial] adds exactly the fixed offset of the direction
    (n:(0,-1), s:(0,+1), ne:(+1,-1), sw:(-1,+1), nw:(-1,0), se:(+1,0)),
    and from every coordinate a step followed by the step in the
    opposite direction (n/s, ne/sw, nw/se, either order) comes back to
    the coordinate it started from. *)
Theorem moveAxial_offsets_and_inverse :
  (forall q r dir,
      moveAxial q r dir = mkCoord (q + fst (offset dir)) (r + snd (offset dir)))
  /\ offset dir_n = (0, -1) /\ offset dir_s = (0, 1)
  /\ offset dir_ne = (1, -1) /\ offset dir_sw = (-1, 1)
  /\ offset dir_nw = (-1, 0) /\ offset dir_se = (1, 0)
  /\ opposite dir_n = dir_s /\ opposite dir_s = dir_n
  /\ opposite dir_ne = dir_sw /\ opposite dir_sw = dir_ne
  /\ opposite dir_nw = dir_se /\ opposite dir_se = dir_nw
  /\ (forall q r dir,
        let c := moveAxial q r dir in
        moveAxial (cq c) (cr c) (opposite dir) = mkCoord q r).
Proof.
  split.
  { intros q r []; cbn; f_equal; lia. }
  repeat (split; [reflexivity|]).
  intros q r []; cbn; f_equal; lia.
Qed.

Example void_room_id :
  Room.id (void_room 3 (-12) "A" "u") = "void-3,-12".
Proof. reflexivity. Qed.

(** ** Basic facts about the repository *)

Lemma or_num_0 x : or_num x 0 = x.
Proof. unfold or_num. destruct (Z.eqb_spec x 0); congruence. Qed.

Lemma find_update_user uid f l u :
  find (fun u => String.eqb (User.id u) uid) l = Some u ->
  (forall x, User.id (f x) = User.id x) ->
  find (fun u => String.eqb (User.id u) uid) (repo.update_user uid f l)
  = Some (f u).
Proof.
  intros Hfind Hid. induction l as [|x l IH]; [discriminate|].
  cbn in *. destruct (String.eqb (User.id x) uid) eqn:E.
  - injection Hfind as ->. rewrite Hid, E. reflexivity.
  - rewrite E. auto.
Qed.

Lemma find_update_user_other uid uid' f l :
  uid' <> uid ->
  (forall x, User.id (f x) = User.id x) ->
  find (fun u => String.eqb (User.id u) uid') (repo.update_user uid f l)
  = find (fun u => String.eqb (User.id u) uid') l.
Proof.
  intros Hne Hid. induction l as [|x l IH]; [reflexivity|].
  cbn. fold (repo.update_user uid f l). rewrite IH.
  destruct (String.eqb_spec (User.id x) uid) as [Hx|Hx]; [|reflexivity].
  rewrite Hid.
  destruct (String.eqb_spec (User.id x) uid'); [congruence|reflexivity].
Qed.

Lemma find_update_item iid f l i :
  find (fun i => String.eqb (Item.id i) iid) l = Some i ->
  (forall x, Item.id (f x) = Item.id x) ->
  find (fun i => String.eqb (Item.id i) iid) (repo.update_item iid f l)
  = Some (f i).
Proof.
  intros Hfind Hid. induction l as [|x l IH]; [discriminate|].
  cbn in *. destruct (String.eqb (Item.id x) iid) eqn:E.
  - injection Hfind as ->. rewrite Hid, E. reflexivity.
  - rewrite E. auto.
Qed.

Lemma find_id_unique (l : list Item.t) (i : Item.t) :
  NoDup (map Item.id l) -> i ∈ l ->
  find (fun x => String.eqb (Item.id x) (Item.id i)) l = Some i.
Proof.
  induction l as [|x l IH]; intros Hnd Hin.
  - by apply elem_of_nil in Hin.
  - cbn in *. apply NoDup_cons in Hnd as [Hx Hnd].
    apply elem_of_cons in Hin as [->|Hin].
    + by rewrite String.eqb_refl.
    + destruct (String.eqb_spec (Item.id x) (Item.id i)) as [E|_]; [|auto].
      exfalso. apply Hx. rewrite E. apply list_elem_of_fmap. eauto.
Qed.

Lemma find_some_elem {A} (p : A -> bool) (l : list A) (a : A) :
  find p l = Some a -> a ∈ l /\ p a = true.
Proof.
  intros Hf. apply find_some in Hf as [Hin Hp]. split; [|done].
  by apply list_elem_of_In.
Qed.

(** ** Combat: the roll and resolve phases *)

Lemma Math_ceil_half_bounds delta :
  delta <= 2 * Math_ceil_half delta < delta + 2.
Proof.
  unfold Math_ceil_half.
  pose proof (Z.div_mod (- delta) 2 ltac:(lia)).
  pose proof (Z.mod_pos_bound (- delta) 2 ltac:(lia)). lia.
Qed.

(** The roll and resolve phases of a tick, with
    [playerRoll = d6 + strength], [enemyRoll = d6 + enemyAttack] and
    [delta = |playerRoll - enemyRoll|]: when the player's roll is the
    higher the source is [player], the damage is [ceil(delta/2) + 1] and
    the enemy row holds its old HP less the damage, not below 0, while
    no user row changes; when the enemy's roll is the higher the source
    is [enemy], the damage is [ceil(delta/2)] and the user row holds its
    old HP less the damage, not below 0, while no item row changes; on
    equal rolls the source is [tie], the damage is 0 and the whole world
    is left as it was. The ceiling is pinned by
    [delta <= 2 * ceil < delta + 2]. *)
Lemma resolve_phase_spec (u : User.t) (e : Item.t) (rnd1 rnd2 : Z)
    (w : World) :
  eval (repo.getUser (User.id u)) w = Ok (Some u) ->
  eval (repo.getItem (Item.id e)) w = Ok (Some e) ->
  let playerRoll := rnd1 + 1 + User.strength u in
  let enemyRoll := rnd2 + 1 + Item.enemy_attack e in
  let delta := Z.abs (playerRoll - enemyRoll) in
  let w' := exec (resolve_phase u e rnd1 rnd2) w in
  exists damage source,
    eval (resolve_phase u e rnd1 rnd2) w
    = Ok (playerRoll, enemyRoll, damage, source)
    /\ match playerRoll ?= enemyRoll with
       | Gt =>
           source = src_player
           /\ delta <= 2 * (damage - 1) < delta + 2
           /\ eval (repo.getItem (Item.id e)) w'
              = Ok (Some (Item.set_enemy_hp
                            (Z.max 0 (Item.enemy_hp e - damage)) e))
           /\ users (db w') = users (db w)
       | Lt =>
           source = src_enemy
           /\ delta <= 2 * damage < delta + 2
           /\ eval (repo.getUser (User.id u)) w'
              = Ok (Some (User.set_hp (Z.max 0 (User.hp u - damage)) u))
           /\ items (db w') = items (db w)
       | Eq => source = src_tie /\ damage = 0 /\ w' = w
       end.
Proof.
  intros Hu He playerRoll enemyRoll delta w'.
  unfold eval, repo.getUser, repo.getItem, gets in Hu, He. cbn in Hu, He.
  injection Hu as Hu. injection He as He.
  subst w'. unfold resolve_phase. rewrite or_num_0.
  fold playerRoll enemyRoll. fold delta.
  destruct (Z.compare_spec playerRoll enemyRoll) as [Heq|Hlt|Hgt].
  - replace (playerRoll >? enemyRoll) with false by lia.
    replace (enemyRoll >? playerRoll) with false by lia.
    exists 0, src_tie. cbn. auto.
  - replace (playerRoll >? enemyRoll) with false by lia.
    replace (enemyRoll >? playerRoll) with true by lia.
    exists (Math_ceil_half delta), src_enemy. cbn.
    repeat split; try apply Math_ceil_half_bounds.
    unfold eval, repo.getUser, gets. cbn.
    rewrite (find_update_user _ _ _ u); auto.
  - replace (playerRoll >? enemyRoll) with true by lia.
    exists (Math_ceil_half delta + 1), src_player. cbn.
    repeat split;
      try (pose proof (Math_ceil_half_bounds delta); lia).
    unfold eval, repo.getItem, gets. cbn.
    rewrite (find_update_item _ _ _ e); auto.
Qed.

(** ** Running handlers *)

Lemma bind_ok {A B} (m : M A) (k : A -> M B) w a w1 :
  m w = (Ok a, w1) -> bind m k w = k a w1.
Proof. intros H. unfold bind. rewrite H. reflexivity. Qed.

Lemma bind_throw {A B} (m : M A) (k : A -> M B) w e w1 :
  m w = (Throw e, w1) -> bind m k w = (Throw e, w1).
Proof. intros H. unfold bind. rewrite H. reflexivity. Qed.

(** Unfold the plumbing of the monad, the accessors of the records and
    the statements of the repository, and nothing else. *)
Ltac mrun :=
  cbn [bind ret gets modify emit unwrap throw when fst snd negb
       clearInterval setInterval
       repo.getUser repo.getItem repo.updateItemEnemyHp repo.updateUserStats
       repo.updateUserState repo.updateUserPosition repo.deleteItem
       repo.getItemAnimation repo.getRoomAnimationByType
       repo.stats_hp repo.stats_gold repo.apply_stats repo.apply_opt
       repo.s_hp repo.s_max_hp repo.s_gold repo.s_strength
       store.getSession store.getTempItemData store.getTempRoomData
       store.setTempItemData store.setTempRoomData store.deleteTempItemData
       store.deleteTempRoomData store.setSession
       store.on_sessions store.on_tempRoom store.on_tempItem
       socketUserMap tempRoomDataMap tempItemDataMap
       db store combat timers outbox users rooms items animations
       with_db with_store with_combat with_timers with_outbox
       repo.on_users repo.on_items repo.on_animations
       live next_handle activeBattles battleData
       User.id User.handle User.server_code User.strength User.hp
       User.max_hp User.gold User.current_q User.current_r User.state
       User.set_hp User.set_gold User.set_state User.set_position
       User.set_max_hp User.set_strength].

Tactic Notation "mrun" "in" hyp(H) :=
  cbn [bind ret gets modify emit unwrap throw when fst snd negb
       clearInterval setInterval
       repo.getUser repo.getItem repo.updateItemEnemyHp repo.updateUserStats
       repo.updateUserState repo.updateUserPosition repo.deleteItem
       repo.getItemAnimation repo.getRoomAnimationByType
       repo.stats_hp repo.stats_gold repo.apply_stats repo.apply_opt
       repo.s_hp repo.s_max_hp repo.s_gold repo.s_strength
       store.getSession store.getTempItemData store.getTempRoomData
       store.setTempItemData store.setTempRoomData store.deleteTempItemData
       store.deleteTempRoomData store.setSession
       store.on_sessions store.on_tempRoom store.on_tempItem
       socketUserMap tempRoomDataMap tempItemDataMap
       db store combat timers outbox users rooms items animations
       with_db with_store with_combat with_timers with_outbox
       repo.on_users repo.on_items repo.on_animations
       live next_handle activeBattles battleData
       User.id User.handle User.server_code User.strength User.hp
       User.max_hp User.gold User.current_q User.current_r User.state
       User.set_hp User.set_gold User.set_state User.set_position
       User.set_max_hp User.set_strength] in H.

Lemma endBattle_run userId w :
  combatState.endBattle userId w = (Ok tt, after_endBattle userId w).
Proof.
  unfold combatState.endBattle, after_endBattle, bind, gets.
  destruct (battleData (combat w) !! userId) as [b|] eqn:Hb; cbn.
  - reflexivity.
  - unfold with_combat. cbn. rewrite (delete_id _ _ Hb).
    destruct w as [d s [ab bd] t o]; reflexivity.
Qed.

Lemma after_endBattle_db userId w : db (after_endBattle userId w) = db w.
Proof.
  unfold after_endBattle. destruct (battleData (combat w) !! userId); done.
Qed.

Lemma after_endBattle_store userId w :
  store (after_endBattle userId w) = store w.
Proof.
  unfold after_endBattle. destruct (battleData (combat w) !! userId); done.
Qed.

Lemma after_endBattle_outbox userId w :
  outbox (after_endBattle userId w) = outbox w.
Proof.
  unfold after_endBattle. destruct (battleData (combat w) !! userId); done.
Qed.

Lemma after_endBattle_live userId w h :
  live (timers w) !! h = None ->
  live (timers (after_endBattle userId w)) !! h = None.
Proof.
  unfold after_endBattle. intros H.
  destruct (battleData (combat w) !! userId) as [b|]; cbn; [|done].
  destruct (decide (ActiveBattle.interval b = h)) as [->|Hne].
  - apply lookup_delete_eq.
  - rewrite lookup_delete_ne; done.
Qed.

Lemma after_endBattle_registry userId w :
  activeBattles (combat (after_endBattle userId w)) !! userId = None
  /\ battleData (combat (after_endBattle userId w)) !! userId = None.
Proof.
  unfold after_endBattle.
  destruct (battleData (combat w) !! userId); cbn;
    split; apply lookup_delete_eq.
Qed.



Lemma find_deleted iid (l : list Item.t) :
  find (fun i => String.eqb (Item.id i) iid)
       (filter (fun i => ~ Is_true (String.eqb (Item.id i) iid)) l) = None.
Proof.
  induction l as [|x l IH]; [reflexivity|].
  rewrite filter_cons. destruct (String.eqb (Item.id x) iid) eqn:E.
  - destruct (decide (~ Is_true true)) as [H|_]; [exfalso; apply H, I|auto].
  - destruct (decide (~ Is_true false)) as [_|H]; [|exfalso; apply H; auto].
    cbn. rewrite E. exact IH.
Qed.

(** ** Combat: a tick that passes its guards *)

Lemma tick_ready_inv w cl u rm e :
  tick_ready w cl u rm e ->
  find (fun x => String.eqb (User.id x) (User.id (tc_user cl)))
       (users (db w)) = Some u
  /\ truthy (User.server_code u) = true
  /\ find (fun r => (Room.q r =? User.current_q u)
                    && (Room.r r =? User.current_r u)
                    && String.eqb (Room.server_code r) (User.server_code u))
          (rooms (db w)) = Some rm
  /\ find (fun item => String.eqb (Item.id item) (Item.id (tc_target cl)))
       (filter (fun i => Is_true
                  (repo.in_room (Room.id rm) (User.server_code u) i))
               (items (db w))) = Some e
  /\ 0 < Item.enemy_hp e.
Proof.
  intros (Hu & Hr & He & Hhp).
  unfold eval, repo.getUser, gets in Hu. cbn in Hu. injection Hu as Hu.
  unfold eval, repo.getRoom in Hr.
  destruct (truthy (User.server_code u)) eqn:Hsc; cbn in Hr; [|discriminate].
  injection Hr as Hr.
  unfold eval, current_enemy, repo.getRoomItems, bind in He. rewrite Hsc in He.
  cbn in He. injection He as He. auto.
Qed.

Lemma tick_guards interval cl rnd1 rnd2 w u rm e :
  tick_ready w cl u rm e ->
  tick interval cl rnd1 rnd2 w =
  (let* rolls := resolve_phase u e rnd1 rnd2 in
   let '(playerRoll, enemyRoll, damage, source) := rolls in
   let* updatedEnemy := repo.getItem (Item.id e) in
   let* updatedUser := repo.getUser (User.id (tc_user cl)) in
   let* updatedUser := unwrap updatedUser in
   emit (tc_socket cl) (combat_update
            (mkCombatUpdate (User.hp updatedUser) (User.max_hp updatedUser)
               (or_num (from_option Item.enemy_hp 0 updatedEnemy) 0)
               (or_num (from_option Item.enemy_max_hp 0 updatedEnemy) 0)
               playerRoll enemyRoll damage source)) >>>
          check_outcomes interval (tc_socket cl) (tc_user cl) e updatedEnemy
            updatedUser) w.
Proof.
  intros H. apply tick_ready_inv in H as (Hu & Hsc & Hr & He & Hhp).
  unfold tick. unfold bind at 1. unfold repo.getUser at 1, gets at 1.
  rewrite Hu. unfold bind at 1. unfold repo.getRoom. rewrite Hsc. cbn [negb].
  unfold gets at 1. rewrite Hr.
  unfold bind at 1. unfold repo.getRoomItems. rewrite Hsc. cbn [negb].
  unfold gets at 1. rewrite He.
  replace (Item.enemy_hp e =? 0) with false by lia.
  replace (Item.enemy_hp e <=? 0) with false by lia. reflexivity.
Qed.

(** ** Combat: victory and defeat *)



(** Death handling writes the three columns of the user and nothing
    else, whether or not the snapshot that follows can be built. *)
Lemma handlePlayerDeath_effect user socket w :
  let w' := exec (handlePlayerDeath user socket) w in
  let uid := User.id user in
  users (db w')
  = repo.update_user uid (User.set_state IDLE)
      (repo.update_user uid (User.set_position 0 0)
         (repo.update_user uid (User.set_hp (User.max_hp user))
            (users (db w))))
  /\ rooms (db w') = rooms (db w)
  /\ items (db w') = items (db w)
  /\ animations (db w') = animations (db w)
  /\ store w' = store w
  /\ combat w' = combat w
  /\ timers w' = timers w
  /\ exists evs, outbox w' = outbox w ++ evs
       /\ List.filter is_combat_end evs = [].
Proof.
  intros w' uid. subst w' uid. unfold exec.
  destruct (handlePlayerDeath user socket w) as [res w'] eqn:Hrun.
  unfold handlePlayerDeath in Hrun.
  do 5 (erewrite bind_ok in Hrun by reflexivity).
  unfold repo.getRoom, repo.getVisibleRooms, repo.getRoomItems,
    repo.getUserInventory in Hrun.
  destruct (truthy (User.server_code user)) eqn:Hsc; cbn [negb] in Hrun.
  - do 2 (erewrite bind_ok in Hrun by reflexivity).
    match type of Hrun with
    | context [unwrap ?o] => destruct o as [genesis|]
    end.
    + do 3 (erewrite bind_ok in Hrun by reflexivity).
      erewrite bind_ok in Hrun by reflexivity.
      injection Hrun as <- <-. mrun. rewrite <- !app_assoc.
      repeat split. eexists. split; reflexivity.
    + erewrite bind_throw in Hrun by reflexivity.
      injection Hrun as <- <-. mrun.
      repeat split. eexists. split; reflexivity.
  - erewrite bind_throw in Hrun by reflexivity.
    injection Hrun as <- <-. mrun.
    repeat split. eexists. split; reflexivity.
Qed.

(** C5. A tick whose enemy roll is the higher and whose damage takes
    the player's HP to 0 or below ends in defeat: afterwards the user
    row has its HP at [max_hp], its coordinate at (0,0), its mode
    [IDLE], and every other field, the gold among them, as before the
    tick; no other user row, no room, no item, no animation and no
    scratch record changes; exactly one [combat:end] event is emitted
    and it is [loss]; the timer of the tick is cancelled. The id of the
    enemy is assumed to be a primary key: read by id, the row is the
    one found in the room. *)
Theorem defeat_tick interval cl rnd1 rnd2 w u rm e :
  tick_ready w cl u rm e ->
  eval (repo.getItem (Item.id e)) w = Ok (Some e) ->
  let playerRoll := rnd1 + 1 + User.strength u in
  let enemyRoll := rnd2 + 1 + Item.enemy_attack e in
  let damage := Math_ceil_half (Z.abs (playerRoll - enemyRoll)) in
  enemyRoll > playerRoll ->
  User.hp u - damage <= 0 ->
  let w' := exec (tick interval cl rnd1 rnd2) w in
  let uid := User.id (tc_user cl) in
  eval (repo.getUser uid) w'
  = Ok (Some (User.mk (User.id u) (User.handle u) (User.server_code u)
                (User.strength u) (User.max_hp u) (User.max_hp u)
                (User.gold u) 0 0 IDLE))
  /\ (forall uid', uid' <> uid ->
        eval (repo.getUser uid') w' = eval (repo.getUser uid') w)
  /\ rooms (db w') = rooms (db w)
  /\ items (db w') = items (db w)
  /\ animations (db w') = animations (db w)
  /\ store w' = store w
  /\ (exists evs, outbox w' = outbox w ++ evs
        /\ List.filter is_combat_end evs
           = [(tc_socket cl, combat_end loss None)])
  /\ live (timers w') !! interval = None.
Proof.
  intros Hready Hpk playerRoll enemyRoll damage Hlose Hdead w' uid.
  subst w'. unfold eval, exec.
  destruct (tick interval cl rnd1 rnd2 w) as [res w'] eqn:Hrun.
  rewrite (tick_guards _ _ _ _ _ _ _ _ Hready) in Hrun.
  apply tick_ready_inv in Hready as (Hu & Hsc & Hr & He & Hhp).
  unfold eval in Hpk. mrun in Hpk. injection Hpk as Hpk.
  assert (Hid : User.id u = User.id (tc_user cl)).
  { apply find_some_elem in Hu as [_ Hu]. by apply String.eqb_eq in Hu. }
  unfold resolve_phase in Hrun. rewrite or_num_0, Hid in Hrun.
  fold playerRoll enemyRoll in Hrun.
  replace (playerRoll >? enemyRoll) with false in Hrun by lia.
  replace (enemyRoll >? playerRoll) with true in Hrun by lia.
  fold damage in Hrun.
  replace (Z.max 0 (User.hp u - damage)) with 0 in Hrun by lia.
  mrun in Hrun. rewrite Hpk in Hrun.
  rewrite (find_update_user _ _ _ u) in Hrun by (exact Hu || reflexivity).
  mrun in Hrun.
  unfold check_outcomes in Hrun.
  replace (Item.enemy_hp e <=? 0) with false in Hrun by lia.
  mrun in Hrun. replace (0 <=? 0) with true in Hrun by reflexivity.
  erewrite bind_ok in Hrun by reflexivity.
  erewrite bind_ok in Hrun by apply endBattle_run.
  erewrite bind_ok in Hrun by reflexivity.
  match type of Hrun with
  | handlePlayerDeath ?x ?s ?W = _ =>
      pose proof (handlePlayerDeath_effect x s W) as Hd;
      unfold exec in Hd; rewrite Hrun in Hd
  end.
  cbn [fst snd] in Hd |- *.
  destruct Hd as (Husers & Hrooms & Hitems & Hanims & Hstore & Hcombat
                  & Htimers & evs & Hout & Hevs).
  mrun in Husers. mrun in Hrooms. mrun in Hitems. mrun in Hanims.
  mrun in Hstore. mrun in Htimers. mrun in Hout.
  rewrite after_endBattle_db in Husers, Hrooms, Hitems, Hanims.
  rewrite after_endBattle_store in Hstore.
  rewrite after_endBattle_outbox in Hout.
  mrun in Husers. mrun in Hrooms. mrun in Hitems. mrun in Hanims.
  mrun in Hstore. mrun in Hout.
  rewrite ?Hid in Husers. subst uid.
  split.
  { mrun. rewrite Husers.
    pose proof (find_update_user _ (repo.apply_stats (repo.stats_hp 0)) _ _
                  Hu (fun _ => eq_refl)) as H1.
    pose proof (find_update_user _ (User.set_hp (User.max_hp u)) _ _
                  H1 (fun _ => eq_refl)) as H2.
    pose proof (find_update_user _ (User.set_position 0 0) _ _
                  H2 (fun _ => eq_refl)) as H3.
    pose proof (find_update_user _ (User.set_state IDLE) _ _
                  H3 (fun _ => eq_refl)) as H4.
    rewrite H4. reflexivity. }
  split.
  { intros uid' Hne. mrun. rewrite Husers.
    rewrite !find_update_user_other by (auto || reflexivity). reflexivity. }
  repeat (split; [assumption|]).
  split.
  { rewrite Hout, <- !app_assoc. eexists. split; [reflexivity|].
    cbn [app List.filter is_combat_end snd]. rewrite Hevs. reflexivity. }
  rewrite Htimers. apply after_endBattle_live. mrun. apply lookup_delete_eq.
Qed.

Example rolls_6_2 :
  eval (resolve_phase Fixture.alice Fixture.goblin 5 1)
       (Fixture.fighting Fixture.goblin)
  = Ok (6, 2, 3, src_player).
Proof. reflexivity. Qed.

Example rolls_3_3 :
  resolve_phase Fixture.alice Fixture.goblin 2 2
    (Fixture.fighting Fixture.goblin)
  = (Ok (3, 3, 0, src_tie), Fixture.fighting Fixture.goblin).
Proof. reflexivity. Qed.


Lemma defeat_tick_witness :
  tick_ready (Fixture.fighting Fixture.ogre) (Fixture.closure Fixture.ogre)
    Fixture.alice Fixture.cave Fixture.ogre
  /\ eval (repo.getItem "i3") (Fixture.fighting Fixture.ogre)
     = Ok (Some Fixture.ogre)
  /\ 5 + 1 + 30 > 0 + 1 + 0
  /\ 10 - Math_ceil_half (Z.abs (0 + 1 + 0 - (5 + 1 + 30))) <= 0
  /\ eval (repo.getUser "u1") (Fixture.after_tick Fixture.ogre 0 5)
     = Ok (Some (User.mk "u1" "alice" "ISLE" 0 100 100 5 0 0 IDLE))
  /\ items (db (Fixture.after_tick Fixture.ogre 0 5))
     = items (db (Fixture.fighting Fixture.ogre)).
Proof.
  assert (Hready : tick_ready (Fixture.fighting Fixture.ogre)
                     (Fixture.closure Fixture.ogre) Fixture.alice
                     Fixture.cave Fixture.ogre)
    by (repeat split).
  assert (Hlose : 5 + 1 + 30 > 0 + 1 + 0) by reflexivity.
  assert (Hdead : 10 - Math_ceil_half (Z.abs (0 + 1 + 0 - (5 + 1 + 30))) <= 0)
    by (vm_compute; discriminate).
  pose proof (defeat_tick 0%nat (Fixture.closure Fixture.ogre) 0 5
                (Fixture.fighting Fixture.ogre) Fixture.alice Fixture.cave
                Fixture.ogre Hready eq_refl Hlose Hdead)
    as (Huser & _ & _ & Hitems & _).
  split; [exact Hready|]. split; [reflexivity|]. split; [exact Hlose|].
  split; [exact Hdead|]. split; [exact Huser|exact Hitems].
Defined.

(** ** The dispatcher *)

Lemma in_wizard_spec m : in_wizard m = true <-> wizard_mode m.
Proof. destruct m; cbn; split; (reflexivity || discriminate || tauto). Qed.

Section DispatcherFacts.

Context `{creation.WizardSteps} `{general.Handlers}.

(** C8. For a user whose persisted mode is any [CREATING_*] state or
    [GENERATING_ANIMATIONS], a command on [cmd:input] does what the
    creation wizard's [handleInput] does, followed by the emission of
    the snapshot it returns, and nothing else; the handlers called are
    the wizard's and no other: not the movement, combat, interaction,
    help, look or regenerate handlers. *)
Theorem wizard_routing (uuid socket raw : string) (w : World)
    (userId : string) (u : User.t) :
  eval (store.getSession socket) w = Ok (Some userId) ->
  truthy userId = true ->
  eval (repo.getUser userId) w = Ok (Some u) ->
  wizard_mode (User.state u) ->
  cmd_input uuid socket raw w
  = (let* result := creation.handleInput uuid socket u raw in
     emit_state socket result >>> ret [H_creation]) w
  /\ (forall trace, eval (cmd_input uuid socket raw) w = Ok trace ->
        trace = [H_creation]).
Proof.
  intros Hs Ht Hu Hm. apply in_wizard_spec in Hm.
  unfold eval in Hs, Hu. mrun in Hs. mrun in Hu.
  injection Hs as Hs. injection Hu as Hu.
  assert (Heq : cmd_input uuid socket raw w
    = (let* result := creation.handleInput uuid socket u raw in
       emit_state socket result >>> ret [H_creation]) w).
  { unfold cmd_input. unfold bind at 1. mrun. rewrite Hs. cbn [truthy_opt].
    rewrite Ht. cbn [negb default from_option id]. unfold bind at 1. mrun.
    rewrite Hu, Hm.
    reflexivity. }
  split; [exact Heq|].
  intros trace. unfold eval. rewrite Heq. unfold bind.
  destruct (creation.handleInput uuid socket u raw w) as [[r|e] w1];
    [|discriminate].
  destruct (emit_state socket r w1) as [[[]|e] w2]; [|discriminate].
  cbn. congruence.
Qed.

End DispatcherFacts.

Lemma wizard_routing_witness :
  eval (store.getSession "s3") Fixture.quiet = Ok (Some "u3")
  /\ truthy "u3" = true
  /\ eval (repo.getUser "u3") Fixture.quiet = Ok (Some Fixture.carol)
  /\ wizard_mode (User.state Fixture.carol)
  /\ cmd_input "-" "s3" "n" Fixture.quiet
     = (let* result := creation.handleInput "-" "s3" Fixture.carol "n" in
        emit_state "s3" result >>> ret [H_creation]) Fixture.quiet
  /\ (forall trace, eval (cmd_input "-" "s3" "n") Fixture.quiet = Ok trace ->
        trace = [H_creation]).
Proof.
  pose proof (wizard_routing "-" "s3" "n" Fixture.quiet "u3" Fixture.carol
                eq_refl eq_refl eq_refl I) as [Heq Htrace].
  split; [reflexivity|]. split; [reflexivity|]. split; [reflexivity|].
  split; [exact I|]. split; [exact Heq|exact Htrace].
Defined.

(** ** Movement *)

(** An idle user whose input names no direction: the command is left
    to the other handlers and nothing changes. *)
Lemma handleMove_idle_unparsed socket (u : User.t) input w :
  User.state u = IDLE ->
  parseDirection input = None ->
  handleMove socket u input w = (Ok not_handled, w).
Proof.
  intros Hs Hp. unfold handleMove. rewrite Hs, Hp. reflexivity.
Qed.

(** A user in any other mode: whatever the input is, a direction or
    not, the command is answered with the refusal and marked handled;
    only the outbox changes. *)
Lemma handleMove_not_idle socket (u : User.t) input w :
  User.state u <> IDLE ->
  handleMove socket u input w
  = (Ok handled_only,
     with_outbox (fun o =>
       o ++ [(socket, game_log (msg_cannot_move (User.state u))
                        log_error None)]) w).
Proof.
  intros Hs. unfold handleMove, mode_eqb.
  rewrite bool_decide_eq_false_2 by exact Hs. reflexivity.
Qed.

(** C3, at the failing input. Alice is in [COMBAT] mode and types
    [retreat], which names no direction. [handleMove] does not leave the
    command unhandled: it answers "Cannot move while in COMBAT state."
    and marks it handled, so the dispatcher stops there; the retreat
    handler is never called and the battle goes on, whereas the
    [combat:retreat] event on the same socket does end it. *)
Theorem handleMove_swallows_retreat :
  parseDirection "retreat" = None
  /\ handleMove "s1" Fixture.alice "retreat" (Fixture.fighting Fixture.goblin)
     = (Ok handled_only,
        with_outbox (fun o =>
          o ++ [("s1", game_log (msg_cannot_move COMBAT) log_error None)])
          (Fixture.fighting Fixture.goblin))
  /\ eval (cmd_input "-" "s1" "retreat") (Fixture.fighting Fixture.goblin)
     = Ok [H_move]
  /\ eval (combatState.isInCombat "u1")
          (exec (cmd_input "-" "s1" "retreat")
                (Fixture.fighting Fixture.goblin))
     = Ok true
  /\ eval (combatState.isInCombat "u1")
          (exec (on_combat_retreat "s1") (Fixture.fighting Fixture.goblin))
     = Ok false.
Proof. repeat split. Qed.

(** ** Disconnection *)

(** What the disconnect handler does, for every world: the binding of
    the socket goes, the scratch records of the user bound to it go, and
    the database, the battle registry, the timers and the outbox stay
    as they are. *)
Lemma on_disconnect_effect socket w :
  let w' := exec (on_disconnect socket) w in
  eval (on_disconnect socket) w = Ok tt
  /\ socketUserMap (store w') !! socket = None
  /\ (forall userId, socketUserMap (store w) !! socket = Some userId ->
        truthy userId = true ->
        tempRoomDataMap (store w') !! userId = None
        /\ tempItemDataMap (store w') !! userId = None)
  /\ db w' = db w
  /\ combat w' = combat w
  /\ timers w' = timers w
  /\ outbox w' = outbox w.
Proof.
  unfold on_disconnect, store.deleteSession, exec, eval. cbn zeta.
  unfold bind at 1 3 5 7 9 11 13. mrun.
  destruct (socketUserMap (store w) !! socket) as [uid|] eqn:Hs;
    cbn [truthy_opt].
  - destruct (truthy uid) eqn:Ht; mrun; cbn [default from_option id];
      repeat split; try apply lookup_delete_eq.
    + injection H as <-. apply lookup_delete_eq.
    + injection H as <-. apply lookup_delete_eq.
    + injection H as <-. congruence.
    + injection H as <-. congruence.
  - mrun. repeat split; try apply lookup_delete_eq; discriminate.
Qed.

(** C2, at the failing input. Alice disconnects in the middle of her
    fight with the goblin. Her scratch records are discarded and the
    database is not touched by the handler, but the timer of her fight
    is not cancelled: it is still live, she is still registered as in
    combat, and the next tick fires and slays the goblin in the
    database. *)
Theorem disconnect_leaves_timer_running :
  socketUserMap (store Fixture.disconnected) !! "s1" = None
  /\ tempRoomDataMap (store Fixture.disconnected) !! "u1" = None
  /\ tempItemDataMap (store Fixture.disconnected) !! "u1" = None
  /\ db Fixture.disconnected = db (Fixture.fighting Fixture.goblin)
  /\ live (timers Fixture.disconnected) !! 0%nat
     = Some (Fixture.closure Fixture.goblin)
  /\ eval (combatState.isInCombat "u1") Fixture.disconnected = Ok true
  /\ eval (repo.getItem "i1") Fixture.disconnected = Ok (Some Fixture.goblin)
  /\ eval (repo.getItem "i1") (exec (fire 0 5 1) Fixture.disconnected)
     = Ok None
  /\ eval (repo.getUser "u1") (exec (fire 0 5 1) Fixture.disconnected)
     = Ok (Some (User.mk "u1" "alice" "ISLE" 0 10 100 12 2 (-1) IDLE)).
Proof. repeat split. Qed.

(** ** Gates *)

(** C6, at the failing input. Carol names a key, "golden key", that no
    item of the room bears. She is warned and the gate is created, but
    it is stored without any requirement: the name of the key is
    dropped when the item is committed. Bob, who carries no key, then
    opens the gate: the command succeeds with the gate's success
    message and no "You need a specific item" refusal is sent. *)
Theorem gate_without_key_opens :
  outbox Fixture.key_asked !! 0%nat
  = Some ("s3", game_log (msg_gate_warning "golden key") log_error None)
  /\ eval (cmd_input "i9" "s3" "The gate swings open.")
          Fixture.verb_confirmed = Ok [H_creation]
  /\ eval (repo.getItemByName "r1" "gate" "ISLE") Fixture.gate_created
     = Ok (Some (Item.mk "i9" (Some "r1") None "ISLE" "Gate" "An iron gate."
                   "The gate swings open." "open" NONE 0 0 None 0 0 0 10 0))
  /\ eval (repo.getUserInventory "u2" "ISLE") Fixture.gate_created
     = Ok [Fixture.rope]
  /\ eval (cmd_input "-" "s2" "open gate") Fixture.gate_created
     = Ok [H_move; H_interaction]
  /\ (exists p, skipn (length (outbox Fixture.gate_created))
                  (outbox Fixture.gate_tried)
        = [("s2", game_log (msg_item_text "The gate swings open.")
                    log_info None);
           ("s2", state_update p)])
  /\ List.filter is_need_item (outbox Fixture.gate_tried) = [].
Proof. repeat split. eexists. reflexivity. Qed.

(** ** The obfuscation of verbs *)

Lemma elem_of_non_space chars i :
  i ∈ non_space chars <-> (i < length chars)%nat /\ chars !! i <> Some " "%char.
Proof.
  unfold non_space. rewrite elem_of_list_to_set, list_elem_of_filter, elem_of_seq.
  split; intros H; split; try tauto; lia.
Qed.

Lemma obfuscate_loop_starved fuel rnd k chars numToHide indices :
  chars <> [] ->
  indices ⊆ non_space chars ->
  Z.of_nat (size (non_space chars)) < numToHide ->
  obfuscate_loop fuel rnd k chars numToHide indices = None.
Proof.
  intros Hne. revert k indices.
  induction fuel as [|fuel IH]; intros k indices Hsub Hlt.
  - cbn. pose proof (subseteq_size _ _ Hsub).
    replace (Z.of_nat (size indices) <? numToHide) with true by lia. done.
  - cbn. pose proof (subseteq_size _ _ Hsub).
    replace (Z.of_nat (size indices) <? numToHide) with true by lia.
    case_bool_decide as Hc; [by apply IH|].
    apply IH; [|done].
    apply union_subseteq. split; [|done].
    apply singleton_subseteq_l, elem_of_non_space. split; [|done].
    apply Nat.mod_upper_bound. destruct chars; [done|cbn; lia].
Qed.

(** Whenever the number of characters to hide exceeds the number of
    characters that are not spaces, the loop never leaves: for no
    sequence of random values and no number of iterations does
    [obfuscateText] return. *)
Lemma obfuscateText_starved fuel rnd text shroudLevel :
  shroudLevel <> 0 ->
  Z.of_nat (size (non_space (list_ascii_of_string text)))
  < Z.min shroudLevel (Z.of_nat (String.length text) / 2) ->
  obfuscateText fuel rnd text shroudLevel = None.
Proof.
  intros Hs Hlt. unfold obfuscateText.
  replace (shroudLevel =? 0) with false by lia.
  assert (Hlen : length (list_ascii_of_string text) = String.length text).
  { clear. induction text; cbn; congruence. }
  rewrite Hlen, obfuscate_loop_starved; [done| |set_solver|done].
  intros E. rewrite <- Hlen, E in Hlt. cbn [length Z.of_nat] in Hlt.
  change (Z.of_nat 0 / 2) with 0 in Hlt.
  pose proof (Nat2Z.is_nonneg (size (non_space []))). lia.
Qed.

(** C10, at the failing input. On the text of two spaces in a room of
    shroud level 1 one character is to be hidden, no index ever
    qualifies, and the loop does not leave: whatever the random values
    are and however many iterations are allowed, [obfuscateText] has not
    returned. *)
Theorem obfuscateText_spaces_never_returns :
  forall (fuel : nat) (rnd : nat -> nat),
    obfuscateText fuel rnd "  " 1 = None.
Proof.
  intros fuel rnd. apply obfuscateText_starved; [done|]. vm_compute. done.
Qed.

Lemma obfuscate_loop_sound fuel rnd k chars numToHide indices out :
  numToHide <= Z.of_nat (length chars) / 2 ->
  indices ⊆ non_space chars ->
  Z.of_nat (size indices) <= Z.max 0 numToHide ->
  obfuscate_loop fuel rnd k chars numToHide indices = Some out ->
  out ⊆ non_space chars /\ Z.of_nat (size out) = Z.max 0 numToHide.
Proof.
  intros Hhalf. revert k indices.
  induction fuel as [|fuel IH]; intros k indices Hsub Hle Hrun; cbn in Hrun;
    destruct (Z.ltb_spec (Z.of_nat (size indices)) numToHide) as [Hlt|Hge].
  - discriminate.
  - injection Hrun as <-. split; [done|lia].
  - revert Hrun. case_bool_decide as Hc; [by apply IH|].
    destruct (decide ((rnd k mod length chars)%nat ∈ indices)) as [Hin|Hnin].
    + assert (Heq : {[(rnd k mod length chars)%nat]} ∪ indices = indices)
        by (apply subseteq_union_1_L, singleton_subseteq_l, Hin).
      rewrite Heq. by apply IH.
    + apply IH.
      * apply union_subseteq. split; [|done].
        apply singleton_subseteq_l, elem_of_non_space. split; [|done].
        apply Nat.mod_upper_bound. intros E. rewrite E in Hhalf.
        change (Z.of_nat 0 / 2) with 0 in Hhalf. lia.
      * rewrite size_union by set_solver. rewrite size_singleton. lia.
  - injection Hrun as <-. split; [done|lia].
Qed.

Lemma length_string_of_list_ascii l :
  String.length (string_of_list_ascii l) = length l.
Proof. induction l; cbn; congruence. Qed.

Lemma length_list_ascii_of_string s :
  length (list_ascii_of_string s) = String.length s.
Proof. induction s; cbn; congruence. Qed.

(** When [obfuscateText] returns, the result has the length of the
    text, differs from it only at positions that held something else
    than a space and now hold an underscore, and the number of those
    positions is [min(shroudLevel, floor(length/2))], or 0 when that is
    negative. *)
Lemma obfuscateText_sound fuel rnd text shroudLevel out :
  obfuscateText fuel rnd text shroudLevel = Some out ->
  String.length out = String.length text
  /\ exists indices : gset nat,
       indices ⊆ non_space (list_ascii_of_string text)
       /\ Z.of_nat (size indices)
          = (if shroudLevel =? 0 then 0
             else Z.max 0 (Z.min shroudLevel
                             (Z.of_nat (String.length text) / 2)))
       /\ forall i,
            list_ascii_of_string out !! i
            = (if bool_decide (i ∈ indices) then Some "_"%char
               else list_ascii_of_string text !! i).
Proof.
  unfold obfuscateText. destruct (shroudLevel =? 0) eqn:Hs.
  - intros [= <-]. split; [done|]. exists ∅.
    split; [set_solver|]. split; [done|]. intros i.
    rewrite bool_decide_eq_false_2; [done|set_solver].
  - destruct (obfuscate_loop _ _ _ _ _ _) as [indices|] eqn:Hloop;
      [|discriminate].
    intros [= <-].
    apply obfuscate_loop_sound in Hloop as [Hsub Hsize];
      [|lia|set_solver|rewrite size_empty; lia].
    split.
    { rewrite length_string_of_list_ascii. unfold hide.
      rewrite length_imap. apply length_list_ascii_of_string. }
    exists indices. split; [done|]. split.
    { rewrite Hsize, length_list_ascii_of_string. done. }
    intros i. rewrite list_ascii_of_string_of_list_ascii. unfold hide.
    rewrite list_lookup_imap. case_bool_decide as Hi; [|by destruct (_ !! i)].
    apply Hsub, elem_of_non_space in Hi as [Hi _].
    apply lookup_lt_is_Some in Hi as [c ->]. done.
Qed.

Example obfuscateText_run :
  obfuscateText 10 (fun k => (2 * k + 1)%nat) "pick up" 2 = Some "p_c_ up".
Proof. reflexivity. Qed.

(** ** Interaction: picking items up *)

Lemma getRoom_state q r sc w : snd (repo.getRoom q r sc w) = w.
Proof. unfold repo.getRoom. destruct (truthy sc); reflexivity. Qed.

Lemma getUserInventory_state uid sc w :
  snd (repo.getUserInventory uid sc w) = w.
Proof. unfold repo.getUserInventory. destruct (truthy sc); reflexivity. Qed.

Lemma getItemByName_state rid name sc w :
  snd (repo.getItemByName rid name sc w) = w.
Proof. unfold repo.getItemByName. destruct (truthy sc); reflexivity. Qed.

Lemma run_eta {A} (m : M A) w r :
  eval m w = r -> snd (m w) = w -> m w = (r, w).
Proof. unfold eval. destruct (m w); cbn. congruence. Qed.

Lemma find_target_state user rm name w : snd (find_target user rm name w) = w.
Proof.
  unfold find_target, repo.getItemByName, repo.getUserInventory, bind.
  destruct (truthy (User.server_code user)); cbn; [|reflexivity].
  destruct (find _ _); reflexivity.
Qed.

Lemma check_required_passes socket user rm it w :
  eval (check_required socket user rm it) w = Ok false ->
  check_required socket user rm it w = (Ok false, w).
Proof.
  unfold eval, check_required, repo.getUserInventory, repo.getRoomItems, bind.
  destruct (truthy_opt (Item.required_item_id it)); [|reflexivity].
  destruct (truthy (User.server_code user)); cbn; [|discriminate].
  destruct (existsb _ _); cbn; [reflexivity|discriminate].
Qed.

Lemma reaches_effect_server_code w socket user command rm verb it :
  reaches_effect w socket user command rm verb it ->
  truthy (User.server_code user) = true.
Proof.
  intros (o & _ & Hr & _). unfold eval, repo.getRoom in Hr.
  destruct (truthy (User.server_code user)); [reflexivity|discriminate].
Qed.

Lemma handleInteraction_reach uuid w socket user command rm verb it :
  reaches_effect w socket user command rm verb it ->
  handleInteraction uuid socket user command w
  = (let* successMessage := apply_effect uuid socket user verb it in
     match successMessage with
     | None => ret handled_only
     | Some successMessage =>
         finish_interaction socket user rm it successMessage
     end) w.
Proof.
  intros (o & Hp & Hr & Hv & Hf & Hverb & Hg).
  unfold handleInteraction. rewrite Hp.
  erewrite bind_ok by (apply run_eta; [exact Hr|apply getRoom_state]).
  cbv beta iota. rewrite Hv.
  erewrite bind_ok by (apply run_eta; [exact Hf|apply find_target_state]).
  cbv beta iota. rewrite Hverb. cbn [negb].
  erewrite bind_ok by (apply check_required_passes, Hg).
  reflexivity.
Qed.

(** An [ITEM] interaction on an item that is placed in no room. *)
Lemma pickup_owned uuid w socket user command rm verb it :
  reaches_effect w socket user command rm verb it ->
  Item.effect_type it = ITEM ->
  truthy_opt (Item.room_id it) = false ->
  handleInteraction uuid socket user command w
  = (Ok handled_only, with_outbox (fun o => o ++ [already_have socket it]) w).
Proof.
  intros Hreach Heff Hroom.
  rewrite (handleInteraction_reach _ _ _ _ _ _ _ _ Hreach).
  unfold apply_effect. rewrite Heff, Hroom. reflexivity.
Qed.

Lemma bind_assoc {A B C} (m : M A) (f : A -> M B) (k : B -> M C) w :
  bind (bind m f) k w = bind m (fun x => bind (f x) k) w.
Proof. unfold bind. destruct (m w) as [[a|e] w1]; reflexivity. Qed.

Lemma user_exists_find uid d :
  repo.user_exists uid d = true ->
  exists u, find (fun u => String.eqb (User.id u) uid) (users d) = Some u.
Proof.
  unfold repo.user_exists. induction (users d) as [|x l IH]; cbn;
    [discriminate|].
  destruct (String.eqb (User.id x) uid); eauto.
Qed.

Lemma item_exists_find iid d :
  repo.item_exists iid d = false ->
  find (fun i => String.eqb (Item.id i) iid) (items d) = None.
Proof.
  unfold repo.item_exists. induction (items d) as [|x l IH]; cbn;
    [reflexivity|].
  destruct (String.eqb (Item.id x) iid); [discriminate|auto].
Qed.

(** The tail of the handler builds the snapshot and touches nothing but
    the outbox. *)
Lemma finish_interaction_run socket user rm it sm w :
  truthy (User.server_code user) = true ->
  repo.user_exists (User.id user) (db w) = true ->
  exists p w',
    finish_interaction socket user rm it sm w
    = (Ok (mkResult true (Some p)), w')
    /\ db w' = db w /\ store w' = store w /\ combat w' = combat w
    /\ timers w' = timers w.
Proof.
  intros Hsc Hu. apply user_exists_find in Hu as [u Hu].
  unfold finish_interaction, repo.getVisibleRooms, repo.getRoomItems,
    repo.getUserInventory.
  rewrite Hsc. cbn [negb].
  erewrite bind_ok by reflexivity.
  destruct (find _ (animations (db w))) as [a|].
  - do 2 (erewrite bind_ok by reflexivity).
    erewrite bind_ok by (unfold repo.getUser, gets; cbn; rewrite Hu; reflexivity).
    do 4 (erewrite bind_ok by reflexivity).
    eexists _, _. split; [reflexivity|]. repeat split.
  - do 2 (erewrite bind_ok by reflexivity).
    erewrite bind_ok by (unfold repo.getUser, gets; cbn; rewrite Hu; reflexivity).
    do 4 (erewrite bind_ok by reflexivity).
    eexists _, _. split; [reflexivity|]. repeat split.
Qed.

(** A unique item placed in a room is moved to the user. *)
Lemma pickup_unique uuid w socket user command rm verb it :
  reaches_effect w socket user command rm verb it ->
  Item.effect_type it = ITEM ->
  truthy_opt (Item.room_id it) = true ->
  Item.is_infinite it = 0 ->
  repo.user_exists (User.id user) (db w) = true ->
  exists p w',
    handleInteraction uuid socket user command w
    = (Ok (mkResult true (Some p)), w')
    /\ items (db w')
       = repo.update_item (Item.id it)
           (Item.set_placement (Some (User.id user)) None) (items (db w))
    /\ users (db w') = users (db w) /\ rooms (db w') = rooms (db w)
    /\ animations (db w') = animations (db w)
    /\ store w' = store w /\ combat w' = combat w /\ timers w' = timers w.
Proof.
  intros Hreach Heff Hroom Hinf Hu.
  rewrite (handleInteraction_reach _ _ _ _ _ _ _ _ Hreach).
  pose proof (reaches_effect_server_code _ _ _ _ _ _ _ Hreach) as Hsc.
  unfold apply_effect. rewrite Heff, Hroom, Hinf. cbn [Z.eqb negb].
  unfold repo.setItemOwner. rewrite ?bind_assoc.
  erewrite bind_ok by reflexivity. rewrite ?bind_assoc.
  erewrite bind_ok by reflexivity.
  cbn [repo.fk_ok]. rewrite Hu, andb_true_r, andb_false_r.
  rewrite ?bind_assoc.
  erewrite bind_ok by reflexivity. erewrite bind_ok by reflexivity.
  cbv beta iota.
  match goal with
  | |- context [finish_interaction ?s ?u ?r ?i ?m ?W] =>
      destruct (finish_interaction_run s u r i m W Hsc Hu)
        as (p & w' & Hrun & Hdb & Hst & Hco & Hti)
  end.
  exists p, w'. split; [exact Hrun|]. rewrite Hdb, Hst, Hco, Hti.
  repeat split.
Qed.

Lemma find_append {A} (p : A -> bool) (l1 l2 : list A) :
  find p (l1 ++ l2)
  = match find p l1 with Some x => Some x | None => find p l2 end.
Proof.
  induction l1 as [|x l1 IH]; [reflexivity|].
  cbn. destruct (p x); [reflexivity|exact IH].
Qed.

Lemma find_target_elem user rm name w it :
  eval (find_target user rm name) w = Ok (Some it) ->
  it ∈ items (db w) /\ Item.server_code it = User.server_code user.
Proof.
  unfold eval, find_target, repo.getItemByName, repo.getUserInventory, bind.
  destruct (truthy (User.server_code user)); cbn; [|discriminate].
  destruct (find _ (items (db w))) as [i|] eqn:Hroom; cbn.
  - intros [= ->]. apply find_some_elem in Hroom as [Hin Hp]. split; [done|].
    apply andb_prop in Hp as [_ Hp]. by apply String.eqb_eq in Hp.
  - intros [= Hinv]. apply find_some_elem in Hinv as [Hin _].
    apply list_elem_of_filter in Hin as [Hp Hin]. split; [done|].
    apply Is_true_true, andb_prop in Hp as [_ Hp]. by apply String.eqb_eq in Hp.
Qed.

Lemma update_item_elem iid f (l : list Item.t) i :
  i ∈ repo.update_item iid f l ->
  (exists x, x ∈ l /\ Item.id x = iid /\ i = f x)
  \/ (i ∈ l /\ Item.id i <> iid).
Proof.
  unfold repo.update_item. intros Hi.
  apply list_elem_of_fmap in Hi as (x & -> & Hx).
  destruct (String.eqb_spec (Item.id x) iid); eauto.
Qed.

Lemma in_room_owned rid sc (i : Item.t) o :
  Item.owner_id i = Some o -> repo.in_room rid sc i = false.
Proof.
  intros Ho. unfold repo.in_room. rewrite Ho.
  rewrite bool_decide_eq_true_2 by eauto. by rewrite andb_false_r.
Qed.

(** The pickup of a row of the items table. An interaction that
    reaches the [ITEM] effect of an item [it], by a user whose row
    exists:
    - when [it] is placed in no room, so that it was found in the
      inventory of the user, the command is refused with "You already
      have the ..." and nothing but the outbox changes;
    - when [it] is placed in a room and does not carry [is_infinite],
      as no row of the table does, the row is moved: its owner becomes
      the user and its room is cleared; no row is added, no room
      listing shows the item any more, and every later pickup that
      reaches a row with the id of [it] is refused with "You already
      have the ..." and changes nothing but the outbox. *)
Lemma stored_item_pickup (uuid socket : string) (user : User.t)
    (command : string) (w : World) (rm : Room.t) (verb : string)
    (it : Item.t) :
  reaches_effect w socket user command rm verb it ->
  Item.effect_type it = ITEM ->
  repo.user_exists (User.id user) (db w) = true ->
  let uid := User.id user in
  let w' := exec (handleInteraction uuid socket user command) w in
  (truthy_opt (Item.room_id it) = false ->
     handleInteraction uuid socket user command w
     = (Ok handled_only,
        with_outbox (fun o => o ++ [already_have socket it]) w))
  /\ (truthy_opt (Item.room_id it) = true -> Item.is_infinite it = 0 ->
      (exists p, eval (handleInteraction uuid socket user command) w
                 = Ok (mkResult true (Some p)))
      /\ items (db w')
         = repo.update_item (Item.id it)
             (Item.set_placement (Some uid) None) (items (db w))
      /\ length (items (db w')) = length (items (db w))
      /\ (forall rid sc l, eval (repo.getRoomItems rid sc) w' = Ok l ->
            forall i, i ∈ l -> Item.id i <> Item.id it)
      /\ (forall uuid2 socket2 user2 command2 rm2 verb2 it2,
            reaches_effect w' socket2 user2 command2 rm2 verb2 it2 ->
            Item.id it2 = Item.id it ->
            Item.effect_type it2 = ITEM ->
            handleInteraction uuid2 socket2 user2 command2 w'
            = (Ok handled_only,
               with_outbox (fun o => o ++ [already_have socket2 it2]) w'))).
Proof.
  intros Hreach Heff Hu uid w'. subst w'. unfold exec, eval.
  split.
  - intros Hroom. by apply (pickup_owned _ _ _ _ _ rm verb).
  - intros Hroom Hinf.
    destruct (pickup_unique uuid _ _ _ _ _ _ _ Hreach Heff Hroom Hinf Hu)
      as (p & w' & Hrun & Hitems & Husers & Hrooms & _).
    rewrite Hrun. cbn [fst snd].
    split; [eauto|]. split; [exact Hitems|]. split.
    { rewrite Hitems. unfold repo.update_item. apply length_map. }
    split.
    { intros rid sc l Hl i Hi E. unfold repo.getRoomItems in Hl.
      destruct (truthy sc); [|discriminate]. cbn in Hl. injection Hl as <-.
      apply list_elem_of_filter in Hi as [Hin Hi]. rewrite Hitems in Hi.
      apply update_item_elem in Hi as [(x & _ & _ & ->)|[_ Hne]]; [|done].
      by erewrite in_room_owned in Hin by reflexivity. }
    intros uuid2 socket2 user2 command2 rm2 verb2 it2 Hreach2 Hid Heff2.
    apply (pickup_owned _ _ _ _ _ rm2 verb2); [done..|].
    destruct Hreach2 as (o & _ & _ & _ & Hf & _).
    apply find_target_elem in Hf as [Hin _]. rewrite Hitems in Hin.
    apply update_item_elem in Hin as [(x & _ & _ & ->)|[_ Hne]]; [done|].
    congruence.
Qed.

(** ** Parts of the world a computation leaves alone *)

Lemma preserves_ret {S A} (proj : World -> S) (a : A) : preserves proj (ret a).
Proof. intros w. reflexivity. Qed.

Lemma preserves_throw {S A} (proj : World -> S) e :
  preserves proj (@throw A e).
Proof. intros w. reflexivity. Qed.

Lemma preserves_gets {S A} (proj : World -> S) (f : World -> A) :
  preserves proj (gets f).
Proof. intros w. reflexivity. Qed.

Lemma preserves_modify {S} (proj : World -> S) f :
  (forall w, proj (f w) = proj w) -> preserves proj (modify f).
Proof. intros H w. apply H. Qed.

Lemma preserves_bind {S A B} (proj : World -> S) (m : M A) (k : A -> M B) :
  preserves proj m -> (forall a, preserves proj (k a)) ->
  preserves proj (bind m k).
Proof.
  intros Hm Hk w. unfold bind. specialize (Hm w).
  destruct (m w) as [[a|e] w1]; cbn in *.
  - rewrite Hk. exact Hm.
  - exact Hm.
Qed.

Lemma preserves_unwrap {S A} (proj : World -> S) (o : option A) :
  preserves proj (unwrap o).
Proof. destruct o; intros w; reflexivity. Qed.

Lemma preserves_endBattle {S} (proj : World -> S) userId :
  (forall f w, proj (with_combat f w) = proj w) ->
  (forall f w, proj (with_timers f w) = proj w) ->
  preserves proj (combatState.endBattle userId).
Proof.
  intros Hc Ht w. rewrite endBattle_run. cbn [snd]. unfold after_endBattle.
  rewrite Hc. destruct (battleData (combat w) !! userId); [apply Ht|done].
Qed.

(** One step of the proof that a computation leaves a part of the world
    alone: the head of the computation decides. *)
Ltac frame_step :=
  lazymatch goal with
  | |- preserves _ (bind _ _) => apply preserves_bind; [|intros ?]
  | |- preserves _ (ret _) => apply preserves_ret
  | |- preserves _ (throw _) => apply preserves_throw
  | |- preserves _ (gets _) => apply preserves_gets
  | |- preserves _ (unwrap _) => apply preserves_unwrap
  | |- preserves _ (modify _) =>
      apply preserves_modify; intros [? ? ? ? ?]; reflexivity
  | |- preserves _ (emit _ _) =>
      apply preserves_modify; intros [? ? ? ? ?]; reflexivity
  | |- preserves _ (when ?b _) => destruct b; cbn [when]
  | |- preserves _ (if ?b then _ else _) => destruct b
  | |- preserves _ (match ?o with _ => _ end) => destruct o
  end.

Ltac frame_repo :=
  unfold repo.getUser, repo.getRoom, repo.getVisibleRooms, repo.getRoomItems,
    repo.getItem, repo.getItemByName, repo.getUserInventory,
    repo.updateUserStats, repo.updateUserPosition, repo.updateUserState,
    repo.setItemOwner, repo.updateItemEnemyHp, repo.deleteItem,
    repo.cloneItemForUser, repo.createItem, repo.getItemAnimation,
    repo.getRoomAnimationByType,
    store.getSession, store.setSession, store.getTempRoomData,
    store.setTempRoomData, store.deleteTempRoomData, store.getTempItemData,
    store.setTempItemData, store.deleteTempItemData.

Ltac frame := repeat (frame_repo; frame_step).

Lemma handlePlayerDeath_battles user socket :
  preserves battles (handlePlayerDeath user socket).
Proof. unfold handlePlayerDeath. frame. Qed.

Lemma resolve_phase_battles u e rnd1 rnd2 :
  preserves battles (resolve_phase u e rnd1 rnd2).
Proof. unfold resolve_phase. frame. Qed.

(** ** Combat: starting and leaving a fight *)

Lemma find_update_user_fmap uid f (l : list User.t) :
  (forall x, User.id (f x) = User.id x) ->
  find (fun x => String.eqb (User.id x) uid) (repo.update_user uid f l)
  = f <$> find (fun x => String.eqb (User.id x) uid) l.
Proof.
  intros Hid. induction l as [|x l IH]; [reflexivity|].
  cbn. destruct (String.eqb (User.id x) uid) eqn:E.
  - cbn. rewrite Hid, E. reflexivity.
  - cbn. rewrite E. exact IH.
Qed.

Lemma getRoom_inv q r sc w rm :
  eval (repo.getRoom q r sc) w = Ok rm ->
  truthy sc = true
  /\ find (fun x => (Room.q x =? q) && (Room.r x =? r)
                    && String.eqb (Room.server_code x) sc) (rooms (db w)) = rm.
Proof.
  unfold eval, repo.getRoom. destruct (truthy sc); cbn; [|discriminate].
  intros H. injection H as H. auto.
Qed.

(** X1. A retreat outside combat is refused: the handler answers that
    it handled the command, sends the one error message and changes
    nothing else. *)
Theorem handleRetreat_outside_combat socket user w :
  eval (combatState.isInCombat (User.id user)) w = Ok false ->
  handleRetreat socket user w
  = (Ok handled_only,
     with_outbox (fun o => o ++ [(socket, game_log msg_not_in_combat
                                            log_error None)]) w).
Proof.
  unfold eval, handleRetreat, combatState.isInCombat. mrun.
  intros H. injection H as H. rewrite H. reflexivity.
Qed.

Lemma handleRetreat_run socket user w rm :
  eval (combatState.isInCombat (User.id user)) w = Ok true ->
  eval (repo.getRoom (User.current_q user) (User.current_r user)
          (User.server_code user)) w = Ok (Some rm) ->
  exists p,
    handleRetreat socket user w
    = (Ok (mkResult true (Some p)),
       with_outbox (fun o => o ++ [(socket, combat_end retreat None);
                                   (socket, game_log msg_escaped log_info None)])
         (with_db (repo.on_users
                     (repo.update_user (User.id user) (User.set_state IDLE)))
            (after_endBattle (User.id user) w)))
    /\ player p = User.set_state IDLE <$> user_row (User.id user) w
    /\ room p = rm.
Proof.
  intros Hin Hroom.
  apply getRoom_inv in Hroom as [Hsc Hroom].
  unfold eval in *.
  unfold handleRetreat, combatState.isInCombat in *.
  mrun in Hin. injection Hin as Hin.
  mrun. rewrite Hin. mrun.
  erewrite bind_ok by apply endBattle_run.
  unfold repo.getRoom, repo.getVisibleRooms, repo.getRoomItems,
    repo.getUserInventory.
  rewrite Hsc.
  mrun. rewrite !after_endBattle_db. rewrite Hroom.
  mrun. eexists. split.
  { unfold with_outbox, with_db. cbn [db store combat timers outbox].
    rewrite <- app_assoc. reflexivity. }
  cbn [player room]. split; [|reflexivity].
  apply find_update_user_fmap. reflexivity.
Qed.

(** X2. A retreat in combat ends the battle: the registry forgets the
    user, the timer of the battle is cancelled, the user row changes in
    its mode only, which becomes IDLE, so that the HP lost in the fight
    stay lost and the gold is kept, no item row changes, and the events
    are the [combat:end] with result [retreat] and the farewell; the
    snapshot returned carries the updated user row. *)
Theorem handleRetreat_ends_battle socket user w rm :
  eval (combatState.isInCombat (User.id user)) w = Ok true ->
  eval (repo.getRoom (User.current_q user) (User.current_r user)
          (User.server_code user)) w = Ok (Some rm) ->
  let w' := exec (handleRetreat socket user) w in
  (exists p, eval (handleRetreat socket user) w = Ok (mkResult true (Some p))
     /\ player p = User.set_state IDLE <$> user_row (User.id user) w
     /\ room p = rm)
  /\ eval (combatState.isInCombat (User.id user)) w' = Ok false
  /\ eval (combatState.getBattle (User.id user)) w' = Ok None
  /\ (forall b, battleData (combat w) !! User.id user = Some b ->
        live (timers w') !! ActiveBattle.interval b = None)
  /\ users (db w')
     = repo.update_user (User.id user) (User.set_state IDLE) (users (db w))
  /\ items (db w') = items (db w)
  /\ outbox w' = outbox w ++ [(socket, combat_end retreat None);
                              (socket, game_log msg_escaped log_info None)].
Proof.
  intros Hin Hroom w'. subst w'.
  destruct (handleRetreat_run socket user w rm Hin Hroom)
    as (p & Hrun & Hp & Hrm).
  unfold eval, exec. rewrite Hrun. cbn [fst snd].
  split; [eauto|].
  destruct (after_endBattle_registry (User.id user) w) as [H1 H2].
  unfold combatState.isInCombat, combatState.getBattle. mrun.
  rewrite H1, H2.
  split; [reflexivity|]. split; [reflexivity|].
  split.
  { intros b Hb. unfold after_endBattle. rewrite Hb. cbn.
    apply lookup_delete_eq. }
  rewrite !after_endBattle_db, after_endBattle_outbox. auto.
Qed.

Lemma tick_ready_intro w cl u rm e :
  find (fun x => String.eqb (User.id x) (User.id (tc_user cl)))
       (users (db w)) = Some u ->
  truthy (User.server_code u) = true ->
  find (fun r => (Room.q r =? User.current_q u)
                 && (Room.r r =? User.current_r u)
                 && String.eqb (Room.server_code r) (User.server_code u))
       (rooms (db w)) = Some rm ->
  find (fun item => String.eqb (Item.id item) (Item.id (tc_target cl)))
       (filter (fun i => Is_true
                  (repo.in_room (Room.id rm) (User.server_code u) i))
               (items (db w))) = Some e ->
  0 < Item.enemy_hp e ->
  tick_ready w cl u rm e.
Proof.
  intros Hu Hsc Hr He Hhp. unfold tick_ready, eval, current_enemy,
    repo.getUser, repo.getRoom, repo.getRoomItems.
  rewrite Hsc. mrun. rewrite Hu, Hr, He. auto.
Qed.

Lemma NoDup_filter_ids (P : Item.t -> Prop) `{!forall x, Decision (P x)}
    (l : list Item.t) :
  NoDup (map Item.id l) -> NoDup (map Item.id (filter P l)).
Proof.
  induction l as [|x l IH]; [auto|].
  intros Hnd. cbn [map] in Hnd. apply NoDup_cons in Hnd as [Hx Hnd].
  rewrite filter_cons. destruct (decide (P x)); [|auto].
  cbn [map]. apply NoDup_cons. split; [|auto].
  intros Hin. apply Hx. change (map Item.id ?k) with (Item.id <$> k) in *.
  apply list_elem_of_fmap in Hin as (y & Hy & Hin).
  apply list_elem_of_filter in Hin as [_ Hin].
  apply list_elem_of_fmap. eauto.
Qed.

(** X3. A fight begins when the user is in no battle, is IDLE (or in
    COMBAT mode), stands in a stored room and names a row of the room
    whose enemy HP are positive. The handler then writes the mode
    COMBAT, announces the fight, arms a timer under the next free
    handle, whose callback captures the socket, the user value it was
    given and the target row, and registers the battle under that
    handle. Nothing else changes: no HP, no gold, no item. When the
    user value is the stored row and item ids are unique, the first
    tick of that timer finds its fight: the user row, now in COMBAT
    mode, the room and the living target. *)
Theorem handleFight_starts_battle socket user targetName w rm t :
  eval (combatState.isInCombat (User.id user)) w = Ok false ->
  User.state user = IDLE \/ User.state user = COMBAT ->
  eval (repo.getRoom (User.current_q user) (User.current_r user)
          (User.server_code user)) w = Ok (Some rm) ->
  startsWith (Room.id rm) "void-" = false ->
  eval (fight_target user rm targetName) w = Ok (Some t) ->
  0 < Item.enemy_hp t ->
  let h := next_handle (timers w) in
  let cl := mkTickClosure socket user t in
  let w' :=
    mkWorld
      (repo.on_users
         (repo.update_user (User.id user) (User.set_state COMBAT)) (db w))
      (store w)
      (mkCombatState
         (<[User.id user := h]> (activeBattles (combat w)))
         (<[User.id user := ActiveBattle.mk (User.id user) socket
                              (Item.id t) h]> (battleData (combat w))))
      (mkTimers (<[h := cl]> (live (timers w))) (S h))
      (outbox w ++ [(socket, game_log (msg_combat_begins (Item.name t))
                               log_info None)]) in
  handleFight socket user targetName w = (Ok handled_only, w')
  /\ (user_row (User.id user) w = Some user -> pk_items (db w) ->
      tick_ready w' cl (User.set_state COMBAT user) rm t
      /\ eval (repo.getItem (Item.id t)) w' = Ok (Some t)).
Proof.
  intros Hin Hst Hroom Hvoid Ht Hhp h cl w'.
  apply getRoom_inv in Hroom as [Hsc Hroom].
  unfold eval, fight_target, repo.getRoomItems in Ht. rewrite Hsc in Ht.
  mrun in Ht. injection Ht as Ht.
  unfold eval, combatState.isInCombat in Hin. mrun in Hin. injection Hin as Hin.
  split.
  - unfold handleFight, combatState.isInCombat, combatState.startBattle,
      repo.getRoom, repo.getRoomItems.
    mrun. rewrite Hin, Hsc. mrun.
    replace (negb (mode_eqb (User.state user) IDLE)
             && negb (mode_eqb (User.state user) COMBAT)) with false
      by (destruct Hst as [-> | ->]; reflexivity).
    mrun. rewrite Hroom. mrun. rewrite Hvoid. mrun. rewrite Ht.
    replace (Item.enemy_hp t =? 0) with false by lia.
    replace (Item.enemy_hp t <=? 0) with false by lia.
    reflexivity.
  - intros Hu Hpk. apply find_some_elem in Ht as [Htin _].
    pose proof Htin as Htall. apply list_elem_of_filter in Htall as [_ Htall].
    split.
    + apply tick_ready_intro.
      * unfold w', cl. mrun. unfold user_row in Hu.
        rewrite find_update_user_fmap, Hu by reflexivity. reflexivity.
      * exact Hsc.
      * exact Hroom.
      * unfold w', cl. mrun. apply find_id_unique; [|exact Htin].
        apply NoDup_filter_ids, Hpk.
      * exact Hhp.
    + unfold eval, w'. mrun. rewrite (find_id_unique _ _ Hpk Htall).
      reflexivity.
Qed.

(** X4. [handleFight] is all or nothing. Whatever the world and the
    command, it never leaves the command to another handler, and when
    it has not registered a battle for the user it has written nothing:
    the database, the scratch store, the registry and the timers are as
    before. *)
Theorem handleFight_all_or_nothing socket user targetName w :
  let w' := exec (handleFight socket user targetName) w in
  (forall r, eval (handleFight socket user targetName) w = Ok r ->
     r = handled_only)
  /\ (activeBattles (combat w') !! User.id user
      = activeBattles (combat w) !! User.id user ->
      db w' = db w /\ store w' = store w /\ combat w' = combat w
      /\ timers w' = timers w).
Proof.
  unfold eval, exec, handleFight, combatState.isInCombat,
    combatState.startBattle, repo.getRoom, repo.getRoomItems.
  mrun.
  destruct (activeBattles (combat w) !! User.id user) as [h|] eqn:Hin.
  { rewrite bool_decide_eq_true_2 by eauto. mrun.
    split; [intros r [= <-]; reflexivity|auto]. }
  rewrite bool_decide_eq_false_2 by (intros [? ?]; discriminate).
  destruct (negb (mode_eqb (User.state user) IDLE)
            && negb (mode_eqb (User.state user) COMBAT)).
  { mrun. split; [intros r [= <-]; reflexivity|auto]. }
  destruct (truthy (User.server_code user)); mrun;
    [|split; [discriminate|auto]].
  destruct (find _ (rooms (db w))) as [rm|]; mrun;
    [|split; [intros r [= <-]; reflexivity|auto]].
  destruct (startsWith (Room.id rm) "void-"); mrun;
    [split; [intros r [= <-]; reflexivity|auto]|].
  destruct (find _ (filter _ (items (db w)))) as [t|]; mrun;
    [|split; [intros r [= <-]; reflexivity|auto]].
  destruct ((Item.enemy_hp t =? 0) || (Item.enemy_hp t <=? 0)); mrun;
    [split; [intros r [= <-]; reflexivity|auto]|].
  split; [intros r [= <-]; reflexivity|].
  rewrite lookup_insert_eq. discriminate.
Qed.

(** ** Combat: ticks that do not end in victory or defeat *)


(** X6. A tick that does not find its fight stops the battle. When the
    user row, the room the user stands in, or a living enemy row in
    that room is missing, the tick returns normally, cancels its timer,
    clears the registry entry of the user and emits nothing. When the
    user row and the room were found, so that it is the enemy that is
    missing, it writes the mode IDLE into the row of the user and
    nothing else; when the user row or the room is missing, it changes
    no row at all. *)
Theorem tick_stops_without_fight interval cl rnd1 rnd2 w :
  (forall u rm e, ~ tick_ready w cl u rm e) ->
  (forall u, user_row (User.id (tc_user cl)) w = Some u ->
             truthy (User.server_code u) = true) ->
  let uid := User.id (tc_user cl) in
  let w' := exec (tick interval cl rnd1 rnd2) w in
  eval (tick interval cl rnd1 rnd2) w = Ok tt
  /\ live (timers w') !! interval = None
  /\ eval (combatState.isInCombat uid) w' = Ok false
  /\ outbox w' = outbox w
  /\ store w' = store w
  /\ (forall u rm,
        user_row uid w = Some u ->
        eval (repo.getRoom (User.current_q u) (User.current_r u)
                (User.server_code u)) w = Ok (Some rm) ->
        db w' = repo.on_users (repo.update_user uid (User.set_state IDLE))
                  (db w))
  /\ (user_row uid w = None
      \/ (exists u, user_row uid w = Some u
            /\ eval (repo.getRoom (User.current_q u) (User.current_r u)
                       (User.server_code u)) w = Ok None) ->
      db w' = db w).
Proof.
  intros Hnot Hsc uid w'. subst w'. unfold eval, exec, user_row in *.
  assert (Hend : forall w0, live (timers w0) !! interval = None ->
            live (timers (after_endBattle uid w0)) !! interval = None
            /\ bool_decide (is_Some
                 (activeBattles (combat (after_endBattle uid w0)) !! uid))
               = false).
  { intros w0 H0. split; [apply after_endBattle_live, H0|].
    destruct (after_endBattle_registry uid w0) as [-> _].
    apply bool_decide_eq_false_2. intros [? ?]; discriminate. }
  assert (Hquit : forall res w',
    (clearInterval interval >>> combatState.endBattle uid) w = (res, w') ->
    res = Ok tt
    /\ live (timers w') !! interval = None
    /\ fst (combatState.isInCombat uid w') = Ok false
    /\ outbox w' = outbox w /\ store w' = store w
    /\ db w' = db w).
  { intros res w' Hrun. mrun in Hrun. rewrite endBattle_run in Hrun.
    injection Hrun as <- <-. unfold combatState.isInCombat. mrun.
    rewrite after_endBattle_outbox, after_endBattle_store,
      after_endBattle_db.
    destruct (Hend (with_timers (fun t => mkTimers (delete interval (live t))
                                            (next_handle t)) w))
      as [H1 H2]; [apply lookup_delete_eq|].
    rewrite H1, H2. auto 10. }
  assert (Hstop : forall res w',
    (let* _ := clearInterval interval in
     let* _ := combatState.endBattle uid in
     repo.updateUserState uid IDLE) w = (res, w') ->
    res = Ok tt
    /\ live (timers w') !! interval = None
    /\ fst (combatState.isInCombat uid w') = Ok false
    /\ outbox w' = outbox w /\ store w' = store w
    /\ db w' = repo.on_users (repo.update_user uid (User.set_state IDLE))
                 (db w)).
  { intros res w' Hrun. mrun in Hrun.
    erewrite bind_ok in Hrun by apply endBattle_run.
    mrun in Hrun. injection Hrun as <- <-.
    unfold combatState.isInCombat. mrun.
    rewrite after_endBattle_outbox, after_endBattle_store,
      after_endBattle_db.
    destruct (Hend (with_timers (fun t => mkTimers (delete interval (live t))
                                            (next_handle t)) w))
      as [H1 H2]; [apply lookup_delete_eq|].
    rewrite H1, H2. auto 10. }
  destruct (tick interval cl rnd1 rnd2 w) as [res w'] eqn:Hrun.
  unfold tick in Hrun. fold uid in Hrun.
  unfold bind at 1, repo.getUser at 1, gets at 1 in Hrun.
  cbn [fst snd].
  destruct (find _ (users (db w))) as [u|] eqn:Hu.
  2:{ destruct (Hquit _ _ Hrun) as (H1 & H2 & H3 & H4 & H5 & H6).
      do 5 (split; [assumption|]). split; [intros ? ? [=]|auto]. }
  specialize (Hsc u eq_refl).
  assert (Hget : forall o,
            fst (repo.getRoom (User.current_q u) (User.current_r u)
                   (User.server_code u) w) = Ok o ->
            find (fun rm => (Room.q rm =? User.current_q u)
                            && (Room.r rm =? User.current_r u)
                            && String.eqb (Room.server_code rm)
                                 (User.server_code u))
                 (rooms (db w)) = o).
  { intros o. unfold repo.getRoom. rewrite Hsc. cbn [negb].
    unfold gets. cbn [fst]. intros [= <-]. reflexivity. }
  unfold bind at 1, repo.getRoom in Hrun. rewrite Hsc in Hrun.
  cbn [negb] in Hrun. unfold gets at 1 in Hrun.
  destruct (find _ (rooms (db w))) as [rm|] eqn:Hr.
  2:{ destruct (Hquit _ _ Hrun) as (H1 & H2 & H3 & H4 & H5 & H6).
      do 5 (split; [assumption|]). split; [|auto].
      intros u0 rm0 [= <-] Hrm0. apply Hget in Hrm0. discriminate. }
  assert (Hdone : forall res w',
    (let* _ := clearInterval interval in
     let* _ := combatState.endBattle uid in
     repo.updateUserState uid IDLE) w = (res, w') ->
    res = Ok tt
    /\ live (timers w') !! interval = None
    /\ fst (combatState.isInCombat uid w') = Ok false
    /\ outbox w' = outbox w /\ store w' = store w
    /\ (forall u0 rm0,
          Some u = Some u0 ->
          fst (repo.getRoom (User.current_q u0) (User.current_r u0)
                 (User.server_code u0) w) = Ok (Some rm0) ->
          db w' = repo.on_users (repo.update_user uid (User.set_state IDLE))
                    (db w))
    /\ (Some u = None
        \/ (exists u0, Some u = Some u0
              /\ fst (repo.getRoom (User.current_q u0) (User.current_r u0)
                        (User.server_code u0) w) = Ok None) ->
        db w' = db w)).
  { intros res0 w0 Hrun0.
    destruct (Hstop _ _ Hrun0) as (H1 & H2 & H3 & H4 & H5 & H6).
    do 5 (split; [assumption|]). split; [auto|].
    intros [[=]|(u0 & [= <-] & Hnone)]. apply Hget in Hnone. discriminate. }
  unfold bind at 1, repo.getRoomItems in Hrun. rewrite Hsc in Hrun.
  cbn [negb] in Hrun. unfold gets at 1 in Hrun.
  destruct (find _ (filter _ (items (db w)))) as [e|] eqn:He;
    [|exact (Hdone _ _ Hrun)].
  destruct ((Item.enemy_hp e =? 0) || (Item.enemy_hp e <=? 0)) eqn:Hhp;
    [exact (Hdone _ _ Hrun)|].
  exfalso. apply (Hnot u rm e). apply tick_ready_intro; auto. lia.
Qed.

(** ** Combat: the registry and the timers agree *)

Lemma preserves_may_stop {A} uid h (m : M A) :
  preserves battles m -> may_stop uid h m.
Proof. intros H w. left. apply H. Qed.

Lemma may_stop_bind {A B} uid h (m : M A) (k : A -> M B) :
  preserves battles m -> (forall a, may_stop uid h (k a)) ->
  may_stop uid h (bind m k).
Proof.
  intros Hm Hk w. unfold bind. specialize (Hm w).
  destruct (m w) as [[a|e] w1]; cbn in *.
  - rewrite <- Hm. apply Hk.
  - auto.
Qed.

Lemma stop_may_stop {A} uid h (k : M A) :
  preserves battles k ->
  may_stop uid h (clearInterval h >>> combatState.endBattle uid >>> k).
Proof.
  intros Hk w. right. mrun. erewrite bind_ok by apply endBattle_run.
  rewrite Hk. unfold after_endBattle, battles, stopped. cbn.
  destruct (battleData (combat w) !! uid); reflexivity.
Qed.

Lemma check_outcomes_may_stop interval socket user e ue uu :
  may_stop (User.id user) interval
    (check_outcomes interval socket user e ue uu).
Proof.
  unfold check_outcomes.
  destruct (match ue with Some e0 => Item.enemy_hp e0 <=? 0 | None => false end).
  - apply stop_may_stop. frame.
  - destruct (User.hp uu <=? 0).
    + apply stop_may_stop. apply preserves_bind; [frame|intros _].
      apply handlePlayerDeath_battles.
    + apply preserves_may_stop. frame.
Qed.

Lemma tick_may_stop interval cl rnd1 rnd2 :
  may_stop (User.id (tc_user cl)) interval (tick interval cl rnd1 rnd2).
Proof.
  assert (Hquit : may_stop (User.id (tc_user cl)) interval
            (clearInterval interval >>>
             combatState.endBattle (User.id (tc_user cl)))).
  { intros w. right. mrun. rewrite endBattle_run.
    unfold after_endBattle, battles, stopped. cbn.
    destruct (battleData (combat w) !! _); reflexivity. }
  unfold tick.
  apply may_stop_bind; [frame|intros [u|]]; [|exact Hquit].
  apply may_stop_bind; [frame|intros [rm|]]; [|exact Hquit].
  apply may_stop_bind; [frame|intros l].
  destruct (find _ l) as [e|]; [|apply stop_may_stop; frame].
  destruct ((Item.enemy_hp e =? 0) || (Item.enemy_hp e <=? 0));
    [apply stop_may_stop; frame|].
  apply may_stop_bind; [apply resolve_phase_battles|intros [[[pr er] dmg] src]].
  apply may_stop_bind; [frame|intros ue].
  apply may_stop_bind; [frame|intros uu].
  apply may_stop_bind; [frame|intros uu'].
  apply may_stop_bind; [frame|intros _].
  apply check_outcomes_may_stop.
Qed.

Lemma battles_agree_same w w' :
  battles w' = battles w -> battles_agree w -> battles_agree w'.
Proof.
  unfold battles, battles_agree. intros Heq. injection Heq as -> ->. auto.
Qed.

Lemma battles_agree_stopped w w' h cl :
  battles_agree w ->
  live (timers w) !! h = Some cl ->
  battles w' = stopped (User.id (tc_user cl)) h (battles w) ->
  battles_agree w'.
Proof.
  intros (H1 & H2 & H3 & H4) Hcl. unfold battles, stopped. cbn [fst snd].
  set (uid := User.id (tc_user cl)).
  pose proof (H3 _ _ Hcl) as Ha. fold uid in Ha.
  pose proof (H1 uid) as Hb. rewrite Ha in Hb.
  destruct (battleData (combat w) !! uid) as [b|] eqn:Hbd; [|discriminate].
  cbn in Hb. injection Hb as Hb. rewrite <- Hb.
  intros Heq. injection Heq as Hc Ht. unfold battles_agree.
  rewrite Hc, Ht. cbn.
  split; [|split; [|split]].
  - intros u'. destruct (decide (uid = u')) as [<-|Hne].
    + rewrite !lookup_delete_eq. reflexivity.
    + rewrite !lookup_delete_ne by done. apply H1.
  - intros u' h' Hu'. apply lookup_delete_Some in Hu' as [Hne Hu'].
    destruct (H2 _ _ Hu') as (cl' & Hl & Hid). exists cl'. split; [|exact Hid].
    assert (h <> h').
    { intros <-. rewrite Hcl in Hl. injection Hl as <-. auto. }
    rewrite !lookup_delete_ne by done. exact Hl.
  - intros h' cl' Hl. apply lookup_delete_Some in Hl as [Hne Hl].
    apply lookup_delete_Some in Hl as [_ Hl].
    pose proof (H3 _ _ Hl) as Hact.
    rewrite lookup_delete_ne; [exact Hact|].
    intros E. rewrite <- E, Ha in Hact. congruence.
  - intros h' cl' Hl. apply lookup_delete_Some in Hl as [Hne Hl].
    apply lookup_delete_Some in Hl as [_ Hl]. eauto.
Qed.

Lemma battles_agree_ended w w' uid :
  battles_agree w ->
  battles w' = battles (after_endBattle uid w) ->
  battles_agree w'.
Proof.
  intros Hinv. pose proof Hinv as (H1 & H2 & H3 & H4).
  destruct (battleData (combat w) !! uid) as [b|] eqn:Hbd.
  - pose proof (H1 uid) as Ha. rewrite Hbd in Ha. cbn in Ha.
    destruct (H2 _ _ Ha) as (cl & Hl & Hid).
    intros Hw'. apply (battles_agree_stopped w w' _ cl Hinv Hl).
    rewrite Hw', Hid. unfold after_endBattle, battles, stopped.
    cbn [fst snd]. rewrite Hbd. cbn. rewrite delete_delete_eq. reflexivity.
  - pose proof (H1 uid) as Ha. rewrite Hbd in Ha. cbn in Ha.
    intros Hw'. apply (battles_agree_same w); [|exact Hinv].
    rewrite Hw'. unfold after_endBattle, battles. rewrite Hbd. cbn.
    rewrite !delete_id by done. destruct (combat w); reflexivity.
Qed.

Lemma battles_agree_started w w' socket user t :
  battles_agree w ->
  activeBattles (combat w) !! User.id user = None ->
  let h := next_handle (timers w) in
  battles w'
  = (mkCombatState
       (<[User.id user := h]> (activeBattles (combat w)))
       (<[User.id user := ActiveBattle.mk (User.id user) socket
                            (Item.id t) h]> (battleData (combat w))),
     mkTimers (<[h := mkTickClosure socket user t]> (live (timers w)))
              (S h)) ->
  battles_agree w'.
Proof.
  intros (H1 & H2 & H3 & H4) Hnone h. unfold battles. intros Heq.
  injection Heq as Hc Ht. unfold battles_agree. rewrite Hc, Ht. cbn. set (uid := User.id user) in *.
  assert (Hfresh : live (timers w) !! h = None).
  { destruct (live (timers w) !! h) as [cl|] eqn:E; [|done].
    apply H4 in E. subst h. lia. }
  split; [|split; [|split]].
  - intros u'. destruct (decide (uid = u')) as [<-|Hne].
    + rewrite !lookup_insert_eq. reflexivity.
    + rewrite !lookup_insert_ne by done. apply H1.
  - intros u' h'. destruct (decide (uid = u')) as [<-|Hne].
    + rewrite lookup_insert_eq. intros [= <-]. rewrite lookup_insert_eq.
      eexists. split; reflexivity.
    + rewrite lookup_insert_ne by done. intros Hu'.
      destruct (H2 _ _ Hu') as (cl' & Hl & Hid). exists cl'.
      split; [|exact Hid]. rewrite lookup_insert_ne; [exact Hl|].
      intros <-. congruence.
  - intros h' cl'. destruct (decide (h = h')) as [<-|Hne].
    + rewrite lookup_insert_eq. intros [= <-]. cbn. apply lookup_insert_eq.
    + rewrite lookup_insert_ne by done. intros Hl.
      pose proof (H3 _ _ Hl) as Hact. rewrite lookup_insert_ne; [exact Hact|].
      intros E. rewrite <- E in Hact. congruence.
  - intros h' cl'. destruct (decide (h = h')) as [<-|Hne].
    + lia.
    + rewrite lookup_insert_ne by done. intros Hl. apply H4 in Hl.
      fold h in Hl. lia.
Qed.

Lemma handleFight_keeps socket user targetName :
  keeps battles_agree (handleFight socket user targetName).
Proof.
  intros w Hinv.
  unfold handleFight, combatState.isInCombat, combatState.startBattle,
    repo.getRoom, repo.getRoomItems.
  mrun.
  destruct (activeBattles (combat w) !! User.id user) as [h|] eqn:Hin.
  { rewrite bool_decide_eq_true_2 by eauto. mrun.
    apply (battles_agree_same w); auto. }
  rewrite bool_decide_eq_false_2 by (intros [? ?]; discriminate).
  destruct (negb (mode_eqb (User.state user) IDLE)
            && negb (mode_eqb (User.state user) COMBAT)).
  { mrun. apply (battles_agree_same w); auto. }
  destruct (truthy (User.server_code user)); mrun; [|exact Hinv].
  destruct (find _ (rooms (db w))) as [rm|]; mrun;
    [|apply (battles_agree_same w); auto].
  destruct (startsWith (Room.id rm) "void-"); mrun;
    [apply (battles_agree_same w); auto|].
  destruct (find _ (filter _ (items (db w)))) as [t|]; mrun;
    [|apply (battles_agree_same w); auto].
  destruct ((Item.enemy_hp t =? 0) || (Item.enemy_hp t <=? 0)); mrun;
    [apply (battles_agree_same w); auto|].
  apply (battles_agree_started w _ socket user t Hinv Hin). reflexivity.
Qed.

Lemma handleRetreat_keeps socket user :
  keeps battles_agree (handleRetreat socket user).
Proof.
  intros w Hinv. unfold handleRetreat, combatState.isInCombat. mrun.
  destruct (bool_decide _); mrun; [|apply (battles_agree_same w); auto].
  erewrite bind_ok by apply endBattle_run.
  apply (battles_agree_ended w _ (User.id user) Hinv).
  assert (Hk : forall k : M HandlerResult, preserves battles k ->
            battles (snd (k (after_endBattle (User.id user) w)))
            = battles (after_endBattle (User.id user) w)) by auto.
  apply Hk. frame.
Qed.

Lemma fire_keeps interval rnd1 rnd2 :
  keeps battles_agree (fire interval rnd1 rnd2).
Proof.
  intros w Hinv. unfold fire. mrun.
  destruct (live (timers w) !! interval) as [cl|] eqn:Hcl; [|exact Hinv].
  destruct (tick_may_stop interval cl rnd1 rnd2 w) as [H|H].
  - apply (battles_agree_same w); auto.
  - apply (battles_agree_stopped w _ interval cl); auto.
Qed.

(** ** Interaction: effects and refusals *)

Lemma find_target_battles user rm name : preserves battles (find_target user rm name).
Proof. intros w. rewrite find_target_state. reflexivity. Qed.

Ltac mstep :=
  rewrite ?bind_assoc; erewrite bind_ok by reflexivity; cbv beta iota.




Lemma check_required_cases socket user rm it w :
  check_required socket user rm it w = (Ok false, w)
  \/ (exists hint,
        check_required socket user rm it w
        = (Ok true, with_outbox (fun o => o ++
             [(socket, game_log (msg_need_item hint) log_error None)]) w))
  \/ (exists e, check_required socket user rm it w = (Throw e, w)).
Proof.
  unfold check_required, repo.getUserInventory, repo.getRoomItems.
  destruct (truthy_opt (Item.required_item_id it)); [|auto].
  destruct (truthy (User.server_code user)); mrun; [|eauto].
  destruct (existsb _ _); mrun; eauto.
Qed.

(** X8. An interaction that does not reach the effect of an item
    writes nothing. Whatever stops it (a command of one word or with a
    reserved verb, an unexplored coordinate, an unknown object, the
    wrong verb, a closed gate), the database, the scratch store, the
    registry and the timers are as before, no snapshot is returned and
    at most one message is sent; a command that does not parse is left
    to the next handler without any message. *)
Theorem handleInteraction_refusal uuid w socket user command :
  (forall rm verb it, ~ reaches_effect w socket user command rm verb it) ->
  let w' := exec (handleInteraction uuid socket user command) w in
  db w' = db w /\ store w' = store w /\ battles w' = battles w
  /\ (forall r, eval (handleInteraction uuid socket user command) w = Ok r ->
        r = match parse_command command with
            | Some _ => handled_only
            | None => not_handled
            end)
  /\ (exists evs, outbox w' = outbox w ++ evs /\ (length evs <= 1)%nat
        /\ (parse_command command = None -> evs = [])).
Proof.
  intros Hnot w'. subst w'. unfold eval, exec.
  unfold handleInteraction.
  destruct (parse_command command) as [[verb objectName]|] eqn:Hp.
  2:{ cbn. do 3 (split; [reflexivity|]). split; [congruence|].
      exists []. rewrite app_nil_r. auto. }
  set (P := fun r : Res HandlerResult * World =>
    db (snd r) = db w /\ store (snd r) = store w
    /\ battles (snd r) = battles w
    /\ (forall r0, fst r = Ok r0 -> r0 = handled_only)
    /\ (exists evs, outbox (snd r) = outbox w ++ evs /\ (length evs <= 1)%nat
          /\ (Some (verb, objectName) = None -> evs = []))).
  change (P ((let* currentRoom :=
                repo.getRoom (User.current_q user) (User.current_r user)
                  (User.server_code user) in
              match currentRoom with
              | Some currentRoom =>
                  if startsWith (Room.id currentRoom) "void-"
                  then emit socket (game_log msg_not_valid_room log_error None)
                       >>> ret handled_only
                  else
                    let* item := find_target user currentRoom objectName in
                    match item with
                    | Some item =>
                        if negb (String.eqb (toLowerCase (Item.interact_verb item)) verb)
                        then emit socket (game_log (msg_cant_verb verb (Item.name item)) log_error None)
                             >>> ret handled_only
                        else
                          let* refused := check_required socket user currentRoom item in
                          if refused : bool then ret handled_only
                          else
                            let* successMessage := apply_effect uuid socket user verb item in
                            match successMessage with
                            | Some successMessage =>
                                finish_interaction socket user currentRoom item successMessage
                            | None => ret handled_only
                            end
                    | None =>
                        emit socket (game_log (msg_dont_see objectName) log_error None)
                        >>> ret handled_only
                    end
              | None =>
                  emit socket (game_log msg_not_valid_room log_error None)
                  >>> ret handled_only
              end) w)).
  assert (Hsay : forall ev, P ((emit socket ev >>> ret handled_only) w)).
  { intros ev. unfold P. cbn. do 3 (split; [reflexivity|]).
    split; [congruence|]. exists [(socket, ev)].
    split; [reflexivity|]. split; [cbn; lia|discriminate]. }
  assert (Hthrow : forall e, P (Throw e, w)).
  { intros e. unfold P. cbn. do 3 (split; [reflexivity|]).
    split; [discriminate|]. exists []. rewrite app_nil_r.
    split; [reflexivity|]. split; [cbn; lia|discriminate]. }
  destruct (repo.getRoom (User.current_q user) (User.current_r user)
              (User.server_code user) w) as [rres w0] eqn:Hroom.
  pose proof (getRoom_state (User.current_q user) (User.current_r user)
                (User.server_code user) w) as Hw0.
  rewrite Hroom in Hw0. cbn in Hw0. subst w0.
  destruct rres as [[rm|]|e].
  2:{ erewrite bind_ok by exact Hroom. apply Hsay. }
  2:{ erewrite bind_throw by exact Hroom. apply Hthrow. }
  erewrite bind_ok by exact Hroom. cbv beta iota.
  destruct (startsWith (Room.id rm) "void-") eqn:Hvoid; [apply Hsay|].
  destruct (find_target user rm objectName w) as [tres w0] eqn:Hfind.
  pose proof (find_target_state user rm objectName w) as Hw0.
  rewrite Hfind in Hw0. cbn in Hw0. subst w0.
  destruct tres as [[it|]|e].
  2:{ erewrite bind_ok by exact Hfind. apply Hsay. }
  2:{ erewrite bind_throw by exact Hfind. apply Hthrow. }
  erewrite bind_ok by exact Hfind. cbv beta iota.
  destruct (String.eqb (toLowerCase (Item.interact_verb it)) verb) eqn:Hverb;
    cbn [negb]; [|apply Hsay].
  destruct (check_required_cases socket user rm it w)
    as [Hc|[[hint Hc]|[e Hc]]].
  - exfalso. apply (Hnot rm verb it). exists objectName.
    unfold eval. rewrite Hroom, Hfind, Hc. auto 10.
  - erewrite bind_ok by exact Hc. cbv beta iota. unfold P. cbn.
    do 3 (split; [reflexivity|]). split; [congruence|].
    eexists [_]. split; [reflexivity|]. split; [cbn; lia|discriminate].
  - erewrite bind_throw by exact Hc. apply Hthrow.
Qed.

(** X9. A gate whose key is set lets through exactly the users who
    carry the key: the check passes, without a word, when a row of the
    inventory has the required id, and otherwise it refuses, changes
    nothing and sends the one message, which names the key when the key
    lies in the room. *)
Theorem gate_checks_key socket user rm it w k inv ri :
  Item.required_item_id it = Some k ->
  truthy k = true ->
  eval (repo.getUserInventory (User.id user) (User.server_code user)) w
  = Ok inv ->
  eval (repo.getRoomItems (Room.id rm) (User.server_code user)) w = Ok ri ->
  ((exists i, i ∈ inv /\ Item.id i = k) ->
     check_required socket user rm it w = (Ok false, w))
  /\ ((forall i, i ∈ inv -> Item.id i <> k) ->
      check_required socket user rm it w
      = (Ok true,
         with_outbox (fun o => o ++
           [(socket,
             game_log (msg_need_item
                (Item.name <$> find (fun i => String.eqb (Item.id i) k) ri))
               log_error None)]) w)).
Proof.
  intros Hreq Hk Hinv Hri.
  unfold eval, repo.getUserInventory, repo.getRoomItems in Hinv, Hri.
  unfold check_required, repo.getUserInventory, repo.getRoomItems.
  rewrite Hreq. cbn [truthy_opt]. rewrite Hk.
  destruct (truthy (User.server_code user)); [|discriminate].
  mrun in Hinv. mrun in Hri. injection Hinv as Hinv. injection Hri as Hri.
  mrun. rewrite Hinv. split.
  - intros (i & Hi & Hid).
    assert (Hex : existsb (fun invItem => eqb_opt (Item.id invItem) (Some k))
                    inv = true).
    { apply existsb_exists. exists i. split; [apply list_elem_of_In, Hi|].
      cbn. apply String.eqb_eq, Hid. }
    rewrite Hex. reflexivity.
  - intros Hnone.
    assert (Hex : existsb (fun invItem => eqb_opt (Item.id invItem) (Some k))
                    inv = false).
    { apply not_true_is_false. intros H. apply existsb_exists in H
        as (i & Hi & Hid). apply (Hnone i); [apply list_elem_of_In, Hi|].
      cbn in Hid. apply String.eqb_eq, Hid. }
    rewrite Hex. mrun. rewrite Hri, find_append.
    assert (Hfi : find (fun i => eqb_opt (Item.id i) (Some k)) inv = None).
    { destruct (find _ inv) as [i|] eqn:E; [|reflexivity].
      apply find_some_elem in E as [Hi Hid]. exfalso. apply (Hnone i Hi).
      cbn in Hid. apply String.eqb_eq, Hid. }
    rewrite Hfi.
    destruct (find (fun i => eqb_opt (Item.id i) (Some k)) ri) eqn:E;
      cbn in E; rewrite E; reflexivity.
Qed.

(** ** Movement *)

(** X10. A move of an IDLE user into a stored room. The position of the
    user row becomes the neighbouring coordinate and nothing else is
    written: the mode stays IDLE, no scratch record is made, no item,
    room, battle or timer changes. The snapshot carries the moved user
    row and the room entered, and the only event is the tapestry of
    that room, when it has one. *)
Theorem handleMove_into_room socket user input w d rm u :
  User.state user = IDLE ->
  parseDirection input = Some d ->
  let c := moveAxial (User.current_q user) (User.current_r user) d in
  eval (repo.getRoom (cq c) (cr c) (User.server_code user)) w = Ok (Some rm) ->
  user_row (User.id user) w = Some u ->
  let w' := exec (handleMove socket user input) w in
  user_row (User.id user) w' = Some (User.set_position (cq c) (cr c) u)
  /\ users (db w')
     = repo.update_user (User.id user) (User.set_position (cq c) (cr c))
         (users (db w))
  /\ rooms (db w') = rooms (db w) /\ items (db w') = items (db w)
  /\ store w' = store w /\ battles w' = battles w
  /\ (exists p, eval (handleMove socket user input) w
               = Ok (mkResult true (Some p))
        /\ player p = Some (User.set_position (cq c) (cr c) u)
        /\ room p = rm)
  /\ outbox w'
     = outbox w ++
       match eval (repo.getRoomAnimationByType (Room.id rm) TAPESTRY) w with
       | Ok (Some a) => [(socket, animation_play a)]
       | _ => []
       end.
Proof.
  intros Hidle Hdir c Hroom Hu w'. subst w'.
  apply getRoom_inv in Hroom as [Hsc Hroom].
  unfold eval, exec, user_row in *.
  unfold handleMove, sendRoomTapestry, repo.getRoom, repo.getVisibleRooms,
    repo.getRoomItems, repo.getUserInventory.
  unfold mode_eqb. rewrite Hidle, Hdir, Hsc.
  rewrite bool_decide_eq_true_2 by reflexivity. fold c. mrun.
  rewrite Hroom. mrun.
  rewrite find_update_user_fmap, Hu by reflexivity.
  cbn [fmap option_fmap option_map]. mrun.
  rewrite ?bind_assoc. erewrite bind_ok by reflexivity. mrun.
  destruct (find _ (animations (db w))) as [a|]; mrun;
    rewrite find_update_user_fmap, Hu by reflexivity.
  - repeat split. eexists. repeat split.
  - rewrite app_nil_r. repeat split. eexists. repeat split.
Qed.

(** X11. A move of an IDLE user into an unexplored coordinate starts
    the room wizard. The user row is moved there and put in the mode
    CREATING_ROOM_TITLE, a scratch room record that holds the
    coordinate and nothing else is stored under the user id, replacing
    any earlier one, and the one event is the prompt for the title. The
    snapshot shows the transient room ["void-q,r"] with no items, and
    no room row is created yet. *)
Theorem handleMove_into_void socket user input w d u :
  User.state user = IDLE ->
  parseDirection input = Some d ->
  let c := moveAxial (User.current_q user) (User.current_r user) d in
  eval (repo.getRoom (cq c) (cr c) (User.server_code user)) w = Ok None ->
  user_row (User.id user) w = Some u ->
  let w' := exec (handleMove socket user input) w in
  let u' := User.set_state CREATING_ROOM_TITLE
              (User.set_position (cq c) (cr c) u) in
  user_row (User.id user) w' = Some u'
  /\ eval (store.getTempRoomData (User.id user)) w'
     = Ok (Some (TempRoomData.mk None None None (cq c) (cr c)))
  /\ rooms (db w') = rooms (db w) /\ items (db w') = items (db w)
  /\ battles w' = battles w
  /\ (exists p, eval (handleMove socket user input) w
               = Ok (mkResult true (Some p))
        /\ player p = Some u'
        /\ room p = void_room (cq c) (cr c) (User.server_code user)
                      (User.id user)
        /\ roomItems p = [] /\ inventory p = None)
  /\ outbox w'
     = outbox w ++ [(socket, game_log msg_what_called log_prompt
                               (Some "QUESTION"))].
Proof.
  intros Hidle Hdir c Hroom Hu w' u'. subst w'.
  apply getRoom_inv in Hroom as [Hsc Hroom].
  unfold eval, exec, user_row in *.
  unfold handleMove, repo.getRoom, repo.getVisibleRooms.
  unfold mode_eqb. rewrite Hidle, Hdir, Hsc.
  rewrite bool_decide_eq_true_2 by reflexivity. fold c. mrun.
  rewrite Hroom. mrun.
  rewrite !find_update_user_fmap, Hu by reflexivity.
  cbn [fmap option_fmap option_map]. mrun.
  rewrite !find_update_user_fmap, Hu by reflexivity.
  rewrite lookup_insert_eq.
  repeat split. eexists. repeat split.
Qed.


Lemma handleInteraction_refusal_witness :
  db (exec (handleInteraction "-" "s4" Scene.dave "kick chest") Scene.world)
  = Scene.cave_db
  /\ outbox (exec (handleInteraction "-" "s4" Scene.dave "kick chest")
               Scene.world)
     = [("s4", game_log (msg_cant_verb "kick" "Chest") log_error None)].
Proof.
  assert (Hnot : forall rm verb it,
            ~ reaches_effect Scene.world "s4" Scene.dave "kick chest" rm verb
                it).
  { intros rm verb it (o & Hp & Hr & _ & Hf & Hv & _).
    injection Hp as <- <-. injection Hr as <-. injection Hf as <-.
    discriminate Hv. }
  pose proof (handleInteraction_refusal "-" Scene.world "s4" Scene.dave
                "kick chest" Hnot) as (Hdb & _).
  split; [exact Hdb|reflexivity].
Defined.

Lemma gate_checks_key_witness :
  check_required "s2" Fixture.bob Fixture.cave Scene.door Scene.world
  = (Ok false, Scene.world)
  /\ eval (check_required "s4" Scene.dave Fixture.cave Scene.door) Scene.world
     = Ok true.
Proof.
  destruct (gate_checks_key "s2" Fixture.bob Fixture.cave Scene.door
              Scene.world "i6" [Fixture.rope]
              [Fixture.goblin; Scene.chest; Scene.spring; Scene.spikes;
               Scene.door]
              eq_refl eq_refl eq_refl eq_refl) as [Hopen _].
  destruct (gate_checks_key "s4" Scene.dave Fixture.cave Scene.door
              Scene.world "i6" []
              [Fixture.goblin; Scene.chest; Scene.spring; Scene.spikes;
               Scene.door]
              eq_refl eq_refl eq_refl eq_refl) as [_ Hshut].
  split.
  - apply Hopen. exists Fixture.rope. split; [apply list_elem_of_here|reflexivity].
  - unfold eval. rewrite Hshut; [reflexivity|].
    intros i Hi. apply elem_of_nil in Hi. destruct Hi.
Defined.

Lemma handleMove_into_room_witness :
  user_row "u5" (exec (handleMove "s5" Scene.erin "go sw") Scene.world)
  = Some (User.mk "u5" "erin" "ISLE" 1 10 100 0 0 0 IDLE)
  /\ store (exec (handleMove "s5" Scene.erin "go sw") Scene.world)
     = Scene.cave_store.
Proof.
  pose proof (handleMove_into_room "s5" Scene.erin "go sw" Scene.world dir_sw
                Fixture.crash_site Scene.erin eq_refl eq_refl eq_refl eq_refl)
    as (Hrow & _ & _ & _ & Hstore & _).
  split; [exact Hrow|exact Hstore].
Defined.

Lemma handleMove_into_void_witness :
  user_row "u4" (exec (handleMove "s4" Scene.dave "N") Scene.world)
  = Some (User.mk "u4" "dave" "ISLE" 1 10 100 0 2 (-2) CREATING_ROOM_TITLE)
  /\ eval (store.getTempRoomData "u4")
       (exec (handleMove "s4" Scene.dave "N") Scene.world)
     = Ok (Some (TempRoomData.mk None None None 2 (-2)))
  /\ rooms (db (exec (handleMove "s4" Scene.dave "N") Scene.world))
     = [Fixture.crash_site; Fixture.cave].
Proof.
  pose proof (handleMove_into_void "s4" Scene.dave "N" Scene.world dir_n
                Scene.dave eq_refl eq_refl eq_refl eq_refl)
    as (Hrow & Htemp & Hrooms & _).
  split; [exact Hrow|]. split; [exact Htemp|exact Hrooms].
Defined.

(** ** The wizards *)

Lemma session_user_inv socket w u :
  session_user socket w = Some u ->
  socketUserMap (store w) !! socket = Some (User.id u)
  /\ truthy (User.id u) = true
  /\ user_row (User.id u) w = Some u.
Proof.
  unfold session_user.
  destruct (socketUserMap (store w) !! socket) as [uid|]; [|discriminate].
  destruct (truthy uid) eqn:Ht; [|discriminate].
  intros Hu. pose proof Hu as Hu'. unfold user_row in Hu'.
  apply find_some_elem in Hu' as [_ Hid]. apply String.eqb_eq in Hid.
  subst uid. auto.
Qed.

Ltac mgo :=
  repeat (rewrite ?bind_assoc; erewrite bind_ok by reflexivity;
          cbv beta iota).

Lemma session_user_updated socket w u W f :
  session_user socket w = Some u ->
  (forall x, User.id (f x) = User.id x) ->
  socketUserMap (store W) = socketUserMap (store w) ->
  users (db W) = repo.update_user (User.id u) f (users (db w)) ->
  session_user socket W = Some (f u).
Proof.
  intros Hs Hf Hmap Hus. apply session_user_inv in Hs as (Hs & Ht & Hu).
  unfold session_user, user_row in *. rewrite Hmap, Hs, Ht, Hus.
  rewrite find_update_user_fmap, Hu by exact Hf. reflexivity.
Qed.

Section WizardFacts.

Context `{general.Handlers}.

Lemma command_in_wizard uuid socket raw w u :
  session_user socket w = Some u ->
  in_wizard (User.state u) = true ->
  command uuid socket raw w
  = (let* result :=
       @creation.handleInput (wizard.steps uuid) uuid socket u raw in
     emit_state socket result >>> ret [H_creation]) w.
Proof.
  intros Hs Hm. apply session_user_inv in Hs as (Hs & Ht & Hu).
  unfold user_row in Hu.
  unfold command, cmd_input. unfold bind at 1. mrun. rewrite Hs.
  cbn [truthy_opt]. rewrite Ht. cbn [negb default from_option id].
  unfold bind at 1. mrun. rewrite Hu, Hm. reflexivity.
Qed.

Lemma step_title uuid socket raw w u :
  session_user socket w = Some u ->
  User.state u = CREATING_ROOM_TITLE ->
  truthy (User.server_code u) = true ->
  exists evs,
    command uuid socket raw w
    = (Ok [H_creation],
       mkWorld
         (repo.on_users (repo.update_user (User.id u)
            (User.set_state CREATING_ROOM_DESC)) (db w))
         (store.on_tempRoom
            (insert (User.id u)
               (wizard.set_title (trim raw)
                  (default (TempRoomData.mk None None None (User.current_q u)
                              (User.current_r u))
                     (tempRoomDataMap (store w) !! User.id u))))
            (store w))
         (combat w) (timers w) (outbox w ++ evs)).
Proof.
  intros Hs Hst Hsc. rewrite (command_in_wizard _ _ _ _ _ Hs)
    by (rewrite Hst; reflexivity).
  apply session_user_inv in Hs as (_ & _ & Hu). unfold user_row in Hu.
  unfold creation.handleInput. rewrite Hst. cbn [creation.handleRoomTitle wizard.steps].
  unfold wizard.handleRoomTitle, wizard.room_snapshot, repo.getRoom,
    repo.getVisibleRooms, repo.getUserInventory, emit_state.
  rewrite Hsc. cbn [negb]. mgo. mrun.
  rewrite find_update_user_fmap, Hu by reflexivity.
  cbn [fmap option_fmap option_map]. mgo.
  eexists [_; _]. unfold ret, with_outbox, with_db, with_store.
  cbn [db store combat timers outbox]. rewrite <- app_assoc. reflexivity.
Qed.


Lemma step_desc uuid socket raw w u d :
  session_user socket w = Some u ->
  User.state u = CREATING_ROOM_DESC ->
  truthy (User.server_code u) = true ->
  tempRoomDataMap (store w) !! User.id u = Some d ->
  exists evs,
    command uuid socket raw w
    = (Ok [H_creation],
       mkWorld
         (repo.on_users (repo.update_user (User.id u)
            (User.set_state CREATING_ROOM_MOOD)) (db w))
         (store.on_tempRoom
            (insert (User.id u) (wizard.set_description (trim raw) d))
            (store w))
         (combat w) (timers w) (outbox w ++ evs)).
Proof.
  intros Hs Hst Hsc Hd. rewrite (command_in_wizard _ _ _ _ _ Hs)
    by (rewrite Hst; reflexivity).
  apply session_user_inv in Hs as (_ & _ & Hu). unfold user_row in Hu.
  unfold creation.handleInput. rewrite Hst.
  cbn [creation.handleRoomDesc wizard.steps].
  unfold wizard.handleRoomDesc, wizard.room_snapshot, repo.getRoom,
    repo.getVisibleRooms, repo.getUserInventory, emit_state.
  rewrite Hsc. cbn [negb]. mgo. mrun. rewrite Hd. mgo. mrun.
  rewrite find_update_user_fmap, Hu by reflexivity.
  cbn [fmap option_fmap option_map]. mgo.
  eexists [_; _]. unfold ret, with_outbox, with_db, with_store.
  cbn [db store combat timers outbox]. rewrite <- app_assoc. reflexivity.
Qed.

Lemma moodMap_in_range m :
  1 <= m <= 6 -> truthy_opt (wizard.moodMap m) = true.
Proof.
  intros Hm. assert (m = 1 \/ m = 2 \/ m = 3 \/ m = 4 \/ m = 5 \/ m = 6)
    as [->|[->|[->|[->|[->| ->]]]]] by lia; reflexivity.
Qed.

Lemma getRoom_same_rooms q r sc w W :
  rooms (db W) = rooms (db w) ->
  eval (repo.getRoom q r sc) W = eval (repo.getRoom q r sc) w.
Proof.
  intros Hr. unfold eval, repo.getRoom. destruct (truthy sc); cbn;
    [|reflexivity]. rewrite Hr. reflexivity.
Qed.

Lemma step_mood uuid socket raw w u d m :
  session_user socket w = Some u ->
  User.state u = CREATING_ROOM_MOOD ->
  truthy (User.server_code u) = true ->
  tempRoomDataMap (store w) !! User.id u = Some d ->
  parseInt (trim raw) = Some m -> 1 <= m <= 6 ->
  exists evs,
    command uuid socket raw w
    = (Ok [H_creation],
       mkWorld
         (repo.on_users (repo.update_user (User.id u)
            (User.set_state CREATING_ROOM_SHROUD)) (db w))
         (store.on_tempRoom
            (insert (User.id u) (wizard.set_mood (wizard.moodMap m) d))
            (store w))
         (combat w) (timers w) (outbox w ++ evs)).
Proof.
  intros Hs Hst Hsc Hd Hm Hrange. rewrite (command_in_wizard _ _ _ _ _ Hs)
    by (rewrite Hst; reflexivity).
  apply session_user_inv in Hs as (_ & _ & Hu). unfold user_row in Hu.
  unfold creation.handleInput. rewrite Hst.
  cbn [creation.handleRoomMood wizard.steps].
  unfold wizard.handleRoomMood, wizard.room_snapshot, repo.getRoom,
    repo.getVisibleRooms, repo.getUserInventory, emit_state.
  rewrite Hsc, Hm. cbn [negb wizard.out_of_range default from_option id].
  replace ((m <? 1) || (m >? 6)) with false by lia.
  mgo. mrun. rewrite Hd. mgo. mrun.
  rewrite find_update_user_fmap, Hu by reflexivity.
  cbn [fmap option_fmap option_map]. mgo.
  eexists [_; _]. unfold ret, with_outbox, with_db, with_store.
  cbn [db store combat timers outbox]. rewrite <- app_assoc. reflexivity.
Qed.

Lemma user_row_exists uid w u :
  user_row uid w = Some u -> repo.user_exists uid (db w) = true.
Proof.
  unfold user_row, repo.user_exists. induction (users (db w)) as [|x l IH];
    cbn; [discriminate|].
  destruct (String.eqb (User.id x) uid); cbn; auto.
Qed.

Lemma step_shroud uuid socket raw w u d s :
  session_user socket w = Some u ->
  User.state u = CREATING_ROOM_SHROUD ->
  truthy (User.server_code u) = true ->
  tempRoomDataMap (store w) !! User.id u = Some d ->
  wizard.incomplete d = false ->
  parseInt (trim raw) = Some s -> 0 <= s <= 5 ->
  repo.room_exists uuid (db w) = false ->
  eval (repo.getRoom (TempRoomData.q d) (TempRoomData.r d)
          (User.server_code u)) w = Ok None ->
  exists evs,
    command uuid socket raw w
    = (Ok [H_creation],
       mkWorld
         (repo.on_users (repo.update_user (User.id u)
            (User.set_state CREATING_OBJ_CONFIRM))
            (rooms.on_rooms (fun l => l ++
               [Room.mk uuid (TempRoomData.q d) (TempRoomData.r d)
                  (User.server_code u) (default "" (TempRoomData.title d))
                  (default "" (TempRoomData.description d)) s (User.id u)
                  None]) (db w)))
         (store.on_tempItem (insert (User.id u) (TempItemData.fresh uuid))
            (store w))
         (combat w) (timers w) (outbox w ++ evs)).
Proof.
  intros Hs Hst Hsc Hd Hinc Hp Hrange Hfresh Hvoid.
  rewrite (command_in_wizard _ _ _ _ _ Hs) by (rewrite Hst; reflexivity).
  apply session_user_inv in Hs as (_ & _ & Hu).
  pose proof (user_row_exists _ _ _ Hu) as Hex. unfold user_row in Hu.
  apply getRoom_inv in Hvoid as [_ Hvoid].
  unfold creation.handleInput. rewrite Hst.
  cbn [creation.handleRoomShroud wizard.steps].
  unfold wizard.handleRoomShroud, rooms.createRoom, repo.getRoom,
    repo.getVisibleRooms, repo.getUserInventory, repo.getRoomItems,
    emit_state.
  rewrite Hsc, Hp. cbn [negb wizard.out_of_range default from_option id
                        Room.server_code Room.created_by Room.q Room.r
                        Room.title Room.description Room.shroud_level
                        Room.symbol].
  rewrite Hsc. cbn [negb].
  replace ((s <? 0) || (s >? 5)) with false by lia.
  mgo. mrun. rewrite Hd, Hinc. mgo. rewrite Hfresh, Hex. cbn [negb orb].
  mgo. mrun. unfold rooms.on_rooms at 1. cbn [rooms].
  rewrite find_append, Hvoid. cbn [find Room.q Room.r Room.server_code].
  rewrite !Z.eqb_refl, String.eqb_refl. cbn [andb]. mgo. mrun.
  unfold rooms.on_rooms at 1. cbn [users]. rewrite Hu. mgo.
  eexists [_; _; _]. unfold ret, with_outbox, with_db, with_store.
  cbn [db store combat timers outbox Room.id].
  rewrite <- !app_assoc. reflexivity.
Qed.


(** X12. The room wizard, end to end. A user who has been asked for
    the title of a new place and answers the four prompts with a title
    and a description that are not blank, a mood from 1 to 6 and a
    shroud level from 0 to 5 gets the room: one row is added, at the
    coordinate of the scratch record, in the realm of the user, with
    the answers trimmed, the shroud level typed and the user as
    creator. The mood is not a column of the room: it stays in the
    scratch record. The user is left in the mode CREATING_OBJ_CONFIRM
    with a fresh scratch item for the new room; no item, battle or timer
    is touched. *)
Theorem room_wizard_commits uuid socket title desc mood shroud w u m s :
  session_user socket w = Some u ->
  User.state u = CREATING_ROOM_TITLE ->
  truthy (User.server_code u) = true ->
  truthy (trim title) = true -> truthy (trim desc) = true ->
  parseInt (trim mood) = Some m -> 1 <= m <= 6 ->
  parseInt (trim shroud) = Some s -> 0 <= s <= 5 ->
  repo.room_exists uuid (db w) = false ->
  let d0 := default (TempRoomData.mk None None None (User.current_q u)
                       (User.current_r u))
              (tempRoomDataMap (store w) !! User.id u) in
  eval (repo.getRoom (TempRoomData.q d0) (TempRoomData.r d0)
          (User.server_code u)) w = Ok None ->
  let w' := exec (author_room uuid socket title desc mood shroud) w in
  eval (author_room uuid socket title desc mood shroud) w = Ok [H_creation]
  /\ rooms (db w')
     = rooms (db w) ++ [Room.mk uuid (TempRoomData.q d0) (TempRoomData.r d0)
                          (User.server_code u) (trim title) (trim desc) s
                          (User.id u) None]
  /\ user_row (User.id u) w' = Some (User.set_state CREATING_OBJ_CONFIRM u)
  /\ tempItemDataMap (store w') !! User.id u = Some (TempItemData.fresh uuid)
  /\ TempRoomData.mood <$> tempRoomDataMap (store w') !! User.id u
     = Some (wizard.moodMap m)
  /\ items (db w') = items (db w)
  /\ battles w' = battles w.
Proof.
  intros Hs Hst Hsc Ht Hd Hm Hmr Hp Hpr Hfresh d0 Hvoid w'.
  subst w'. unfold eval, exec, author_room.
  destruct (step_title uuid socket title w u Hs Hst Hsc) as [evs1 H1].
  fold d0 in H1.
  match type of H1 with _ = (_, ?W) => set (w1 := W) in * end.
  erewrite bind_ok by exact H1. clear H1. cbv beta.
  assert (Hs1 : session_user socket w1
                = Some (User.set_state CREATING_ROOM_DESC u))
    by (apply (session_user_updated socket w); auto).
  destruct (step_desc uuid socket desc w1 _ (wizard.set_title (trim title) d0)
              Hs1 eq_refl Hsc) as [evs2 H2].
  { cbn. apply lookup_insert_eq. }
  match type of H2 with _ = (_, ?W) => set (w2 := W) in * end.
  erewrite bind_ok by exact H2. clear H2. cbv beta.
  assert (Hs2 : session_user socket w2
                = Some (User.set_state CREATING_ROOM_MOOD
                          (User.set_state CREATING_ROOM_DESC u)))
    by (apply (session_user_updated socket w1); auto).
  destruct (step_mood uuid socket mood w2 _
              (wizard.set_description (trim desc)
                 (wizard.set_title (trim title) d0)) m
              Hs2 eq_refl Hsc) as [evs3 H3]; [|exact Hm|exact Hmr|].
  { cbn. apply lookup_insert_eq. }
  match type of H3 with _ = (_, ?W) => set (w3 := W) in * end.
  erewrite bind_ok by exact H3. clear H3. cbv beta.
  assert (Hs3 : session_user socket w3
                = Some (User.set_state CREATING_ROOM_SHROUD
                          (User.set_state CREATING_ROOM_MOOD
                             (User.set_state CREATING_ROOM_DESC u))))
    by (apply (session_user_updated socket w2); auto).
  pose proof (moodMap_in_range m Hmr) as Hmo.
  destruct (step_shroud uuid socket shroud w3 _
              (wizard.set_mood (wizard.moodMap m)
                 (wizard.set_description (trim desc)
                    (wizard.set_title (trim title) d0))) s
              Hs3 eq_refl Hsc) as [evs4 H4];
    [| |exact Hp|exact Hpr|exact Hfresh| |].
  { cbn. apply lookup_insert_eq. }
  { unfold wizard.incomplete. cbn. rewrite Ht, Hd, Hmo. reflexivity. }
  { rewrite <- Hvoid. apply getRoom_same_rooms. reflexivity. }
  rewrite H4. cbn [fst snd db store combat timers users rooms items].
  apply session_user_inv in Hs3 as (_ & _ & Hu3). unfold user_row in Hu3.
  split; [reflexivity|]. split; [reflexivity|]. split.
  { unfold user_row. cbn [db users repo.on_users].
    change (users (rooms.on_rooms _ (db w3))) with (users (db w3)).
    rewrite find_update_user_fmap by reflexivity.
    change (User.id u) with
      (User.id (User.set_state CREATING_ROOM_SHROUD
                  (User.set_state CREATING_ROOM_MOOD
                     (User.set_state CREATING_ROOM_DESC u)))).
    rewrite Hu3. reflexivity. }
  split; [apply lookup_insert_eq|]. split; [|split; reflexivity].
  cbn [store.on_tempItem tempRoomDataMap].
  change (tempRoomDataMap (store w3) !! User.id u) with
    (<[User.id u := wizard.set_mood (wizard.moodMap m)
         (wizard.set_description (trim desc)
            (wizard.set_title (trim title) d0))]>
       (tempRoomDataMap (store w2)) !! User.id u).
  rewrite lookup_insert_eq. reflexivity.
Qed.


Lemma step_shroud_expired uuid socket raw w u d :
  session_user socket w = Some u ->
  User.state u = CREATING_ROOM_SHROUD ->
  tempRoomDataMap (store w) !! User.id u = Some d ->
  wizard.incomplete d = true ->
  command uuid socket raw w
  = (Ok [H_creation],
     mkWorld
       (repo.on_users (repo.update_user (User.id u) (User.set_state IDLE))
          (db w))
       (store.on_tempRoom (delete (User.id u)) (store w))
       (combat w) (timers w)
       (outbox w ++ [(socket, game_log msg_session_expired log_error None)])).
Proof.
  intros Hs Hst Hd Hinc.
  rewrite (command_in_wizard _ _ _ _ _ Hs) by (rewrite Hst; reflexivity).
  unfold creation.handleInput. rewrite Hst.
  cbn [creation.handleRoomShroud wizard.steps].
  unfold wizard.handleRoomShroud, wizard.expired_room, emit_state.
  mgo. mrun. rewrite Hd, Hinc. mgo. reflexivity.
Qed.

(** X13. A blank title is only found out at the last step. When the
    answer to the first prompt of the room wizard is blank, the wizard
    still asks for the description and the mood and accepts them; the
    step for the shroud level then answers "Creation session expired",
    whatever is typed: no room is created, the scratch room is dropped
    and the user is IDLE again, still standing on the coordinate that
    has no room. *)
Theorem blank_title_aborts uuid socket title desc mood shroud w u m :
  session_user socket w = Some u ->
  User.state u = CREATING_ROOM_TITLE ->
  truthy (User.server_code u) = true ->
  truthy (trim title) = false ->
  parseInt (trim mood) = Some m -> 1 <= m <= 6 ->
  let w' := exec (author_room uuid socket title desc mood shroud) w in
  eval (author_room uuid socket title desc mood shroud) w = Ok [H_creation]
  /\ rooms (db w') = rooms (db w)
  /\ user_row (User.id u) w' = Some (User.set_state IDLE u)
  /\ tempRoomDataMap (store w') !! User.id u = None
  /\ (exists evs, outbox w'
        = outbox w ++ evs ++
          [(socket, game_log msg_session_expired log_error None)]).
Proof.
  intros Hs Hst Hsc Ht Hm Hmr w'.
  subst w'. unfold eval, exec, author_room.
  set (d0 := default (TempRoomData.mk None None None (User.current_q u)
                        (User.current_r u))
               (tempRoomDataMap (store w) !! User.id u)).
  destruct (step_title uuid socket title w u Hs Hst Hsc) as [evs1 H1].
  fold d0 in H1.
  match type of H1 with _ = (_, ?W) => set (w1 := W) in * end.
  erewrite bind_ok by exact H1. clear H1. cbv beta.
  assert (Hs1 : session_user socket w1
                = Some (User.set_state CREATING_ROOM_DESC u))
    by (apply (session_user_updated socket w); auto).
  destruct (step_desc uuid socket desc w1 _ (wizard.set_title (trim title) d0)
              Hs1 eq_refl Hsc) as [evs2 H2].
  { cbn. apply lookup_insert_eq. }
  match type of H2 with _ = (_, ?W) => set (w2 := W) in * end.
  erewrite bind_ok by exact H2. clear H2. cbv beta.
  assert (Hs2 : session_user socket w2
                = Some (User.set_state CREATING_ROOM_MOOD
                          (User.set_state CREATING_ROOM_DESC u)))
    by (apply (session_user_updated socket w1); auto).
  destruct (step_mood uuid socket mood w2 _
              (wizard.set_description (trim desc)
                 (wizard.set_title (trim title) d0)) m
              Hs2 eq_refl Hsc) as [evs3 H3]; [|exact Hm|exact Hmr|].
  { cbn. apply lookup_insert_eq. }
  match type of H3 with _ = (_, ?W) => set (w3 := W) in * end.
  erewrite bind_ok by exact H3. clear H3. cbv beta.
  assert (Hs3 : session_user socket w3
                = Some (User.set_state CREATING_ROOM_SHROUD
                          (User.set_state CREATING_ROOM_MOOD
                             (User.set_state CREATING_ROOM_DESC u))))
    by (apply (session_user_updated socket w2); auto).
  rewrite (step_shroud_expired uuid socket shroud w3 _
             (wizard.set_mood (wizard.moodMap m)
                (wizard.set_description (trim desc)
                   (wizard.set_title (trim title) d0)))
             Hs3 eq_refl).
  2:{ cbn. apply lookup_insert_eq. }
  2:{ unfold wizard.incomplete. cbn. rewrite Ht. reflexivity. }
  cbn [fst snd db store combat timers users rooms items outbox].
  apply session_user_inv in Hs3 as (_ & _ & Hu3). unfold user_row in Hu3.
  split; [reflexivity|]. split; [reflexivity|]. split.
  { unfold user_row. cbn [db users repo.on_users].
    rewrite find_update_user_fmap by reflexivity.
    change (User.id u) with
      (User.id (User.set_state CREATING_ROOM_SHROUD
                  (User.set_state CREATING_ROOM_MOOD
                     (User.set_state CREATING_ROOM_DESC u)))).
    rewrite Hu3. reflexivity. }
  split; [apply lookup_delete_eq|].
  exists (evs1 ++ evs2 ++ evs3). unfold w3, w2, w1.
  cbn [outbox]. rewrite <- !app_assoc. reflexivity.
Qed.

End WizardFacts.

(** ** The end of the generation of animations *)

Lemma released_of_silent uid w w1 w' :
  released uid w w1 -> silent w' = silent w1 -> released uid w w'.
Proof.
  unfold released, silent, user_row, battles. intros Hr Heq.
  injection Heq as -> -> -> ->. exact Hr.
Qed.

Lemma released_again uid w w1 :
  released uid w w1 \/ w1 = w ->
  released uid w
    (with_db (repo.on_users (repo.update_user uid (User.set_state IDLE)))
       (with_store (store.on_tempItem (delete uid))
          (with_store (store.on_tempRoom (delete uid)) w1))).
Proof.
  unfold released, user_row, battles. mrun.
  rewrite find_update_user_fmap by reflexivity.
  intros [(Hu & Hr & Hi & Hrooms & Hitems & Han & Hs & Hb) | ->].
  - rewrite Hu. repeat split; try apply lookup_delete_eq; auto.
    destruct (find _ (users (db w))); reflexivity.
  - repeat split; apply lookup_delete_eq.
Qed.

Lemma on_generation_failed_releases socket user rm w w1 :
  released (User.id user) w w1 \/ w1 = w ->
  released (User.id user) w
    (snd (wizard.on_generation_failed socket user rm w1)).
Proof.
  intros Hw1. unfold wizard.on_generation_failed. mgo.
  match goal with |- released _ _ (snd (?m ?W)) =>
    apply (released_of_silent _ _ W);
      [|assert (Hp : preserves silent m) by frame; apply Hp]
  end.
  apply released_again, Hw1.
Qed.

Lemma generated_releases socket user w :
  released (User.id user) w (snd (wizard.generated socket user w)).
Proof.
  unfold wizard.generated, sendRoomTapestry. mgo.
  match goal with |- released _ _ (snd (?m ?W)) =>
    apply (released_of_silent _ _ W);
      [|assert (Hp : preserves silent m) by frame; apply Hp]
  end.
  apply released_again. auto.
Qed.

(** X14. However the generation of animations ends, the wizard lets
    the user go. The continuation of a successful generation and the
    continuation of a failed one both put the user in the mode IDLE,
    drop both scratch records and write nothing else, whether or not
    the closing snapshot can be built; and when the continuation of a
    success throws, the continuation of the failure still runs. *)
Theorem generation_always_releases socket user rm w :
  released (User.id user) w (exec (wizard.on_generated socket user rm) w)
  /\ released (User.id user) w
       (exec (wizard.on_generation_failed socket user rm) w).
Proof.
  unfold exec. split; [|apply on_generation_failed_releases; auto].
  unfold wizard.on_generated.
  pose proof (generated_releases socket user w) as Hg.
  destruct (wizard.generated socket user w) as [[[]|e] w1]; cbn [snd] in *.
  - exact Hg.
  - apply on_generation_failed_releases. auto.
Qed.

(** ** The object wizard *)

Lemma snapshot_run user w u' rm :
  truthy (User.server_code user) = true ->
  user_row (User.id user) w = Some u' ->
  eval (repo.getRoom (User.current_q user) (User.current_r user)
          (User.server_code user)) w = Ok (Some rm) ->
  exists p, creation.snapshot user w = (Ok (mkResult true (Some p)), w).
Proof.
  intros Hsc Hu Hr. apply getRoom_inv in Hr as [_ Hr]. unfold user_row in Hu.
  unfold creation.snapshot, repo.getRoom, repo.getVisibleRooms,
    repo.getRoomItems, repo.getUserInventory.
  rewrite Hsc. cbn [negb]. mgo. mrun. rewrite Hu, Hr. mgo.
  eexists. reflexivity.
Qed.

(** The end of a step: the snapshot is built and sent. *)
Lemma step_end socket (user : User.t) w0 mode' w rm :
  session_user socket w = Some user ->
  truthy (User.server_code user) = true ->
  eval (repo.getRoom (User.current_q user) (User.current_r user)
          (User.server_code user)) w = Ok (Some rm) ->
  users (db w0) = repo.update_user (User.id user) (User.set_state mode')
                    (users (db w)) ->
  rooms (db w0) = rooms (db w) ->
  exists ev,
    (let* result := creation.snapshot user in
     emit_state socket result >>> ret [H_creation]) w0
    = (Ok [H_creation], with_outbox (fun o => o ++ [ev]) w0).
Proof.
  intros Hs Hsc Hr Hus Hrooms.
  apply session_user_inv in Hs as (_ & _ & Hu).
  destruct (snapshot_run user w0 (User.set_state mode' user) rm Hsc)
    as [p Hp].
  { unfold user_row in *. rewrite Hus, find_update_user_fmap, Hu by reflexivity.
    reflexivity. }
  { rewrite <- Hr. apply getRoom_same_rooms, Hrooms. }
  erewrite bind_ok by exact Hp. eexists. reflexivity.
Qed.

Ltac step_finish socket u w rm Hs Hsc Hr mode :=
  match goal with |- stepped _ _ _ _ (_ ?W) =>
    let ev := fresh "ev" in
    let Hev := fresh "Hev" in
    destruct (step_end socket u W mode w rm Hs Hsc Hr eq_refl eq_refl)
      as [ev Hev];
    rewrite Hev; eexists [_; _]; unfold with_outbox, with_db, with_store;
    cbn [db store combat timers outbox]; rewrite <- app_assoc; reflexivity
  end.

Section ObjectFacts.

Context `{general.Handlers}.

Lemma obj_confirm_yes uuid socket raw w u rm :
  session_user socket w = Some u ->
  User.state u = CREATING_OBJ_CONFIRM ->
  truthy (User.server_code u) = true ->
  eval (repo.getRoom (User.current_q u) (User.current_r u)
          (User.server_code u)) w = Ok (Some rm) ->
  toLowerCase (trim raw) = "y" ->
  stepped w u CREATING_OBJ_NAME None (command uuid socket raw w).
Proof.
  intros Hs Hst Hsc Hr Hy.
  rewrite (command_in_wizard _ _ _ _ _ Hs) by (rewrite Hst; reflexivity).
  unfold creation.handleInput. rewrite Hst.
  cbn [creation.handleObjConfirm wizard.steps].
  unfold wizard.handleObjConfirm. rewrite Hy. cbn [String.eqb Ascii.eqb orb
    Bool.eqb andb].
  mgo. step_finish socket u w rm Hs Hsc Hr CREATING_OBJ_NAME.
Qed.

Lemma obj_name uuid socket raw w u rm d :
  session_user socket w = Some u ->
  User.state u = CREATING_OBJ_NAME ->
  truthy (User.server_code u) = true ->
  eval (repo.getRoom (User.current_q u) (User.current_r u)
          (User.server_code u)) w = Ok (Some rm) ->
  tempItemDataMap (store w) !! User.id u = Some d ->
  stepped w u CREATING_OBJ_DESC (Some (wizard.set_name (trim raw) d))
    (command uuid socket raw w).
Proof.
  intros Hs Hst Hsc Hr Hd.
  rewrite (command_in_wizard _ _ _ _ _ Hs) by (rewrite Hst; reflexivity).
  unfold creation.handleInput. rewrite Hst.
  cbn [creation.handleObjName wizard.steps].
  unfold wizard.handleObjName. mgo. mrun. rewrite Hd. mgo.
  step_finish socket u w rm Hs Hsc Hr CREATING_OBJ_DESC.
Qed.

Lemma obj_desc uuid socket raw w u rm d :
  session_user socket w = Some u ->
  User.state u = CREATING_OBJ_DESC ->
  truthy (User.server_code u) = true ->
  eval (repo.getRoom (User.current_q u) (User.current_r u)
          (User.server_code u)) w = Ok (Some rm) ->
  tempItemDataMap (store w) !! User.id u = Some d ->
  truthy_opt (TempItemData.name d) = true ->
  stepped w u CREATING_OBJ_TYPE
    (Some (wizard.set_item_description (trim raw) d))
    (command uuid socket raw w).
Proof.
  intros Hs Hst Hsc Hr Hd Hn.
  rewrite (command_in_wizard _ _ _ _ _ Hs) by (rewrite Hst; reflexivity).
  unfold creation.handleInput. rewrite Hst.
  cbn [creation.handleObjDesc wizard.steps].
  unfold wizard.handleObjDesc. mgo. mrun. rewrite Hd, Hn. cbn [negb]. mgo.
  step_finish socket u w rm Hs Hsc Hr CREATING_OBJ_TYPE.
Qed.

Lemma obj_type_enemy uuid socket raw w u rm d :
  session_user socket w = Some u ->
  User.state u = CREATING_OBJ_TYPE ->
  truthy (User.server_code u) = true ->
  eval (repo.getRoom (User.current_q u) (User.current_r u)
          (User.server_code u)) w = Ok (Some rm) ->
  tempItemDataMap (store w) !! User.id u = Some d ->
  truthy_opt (TempItemData.name d) = true ->
  parseInt (trim raw) = Some 5 ->
  stepped w u CREATING_OBJ_ENEMY_STATS
    (Some (wizard.set_effectTypeCombat
             (TempItemData.set_verb "fight"
                (wizard.set_interactionType ENEMY d))))
    (command uuid socket raw w).
Proof.
  intros Hs Hst Hsc Hr Hd Hn Hp.
  rewrite (command_in_wizard _ _ _ _ _ Hs) by (rewrite Hst; reflexivity).
  unfold creation.handleInput. rewrite Hst.
  cbn [creation.handleObjType wizard.steps].
  unfold wizard.handleObjType. rewrite Hp.
  cbn [wizard.out_of_range wizard.typeMap default from_option id Z.ltb Z.gtb
       Z.compare Pos.compare Pos.compare_cont orb Z.eqb Pos.eqb].
  mgo. mrun. rewrite Hd, Hn. cbn [negb]. mgo.
  step_finish socket u w rm Hs Hsc Hr CREATING_OBJ_ENEMY_STATS.
Qed.

Lemma obj_enemy_stats uuid socket raw w u rm d a b c rest hp attack xp :
  session_user socket w = Some u ->
  User.state u = CREATING_OBJ_ENEMY_STATS ->
  truthy (User.server_code u) = true ->
  eval (repo.getRoom (User.current_q u) (User.current_r u)
          (User.server_code u)) w = Ok (Some rm) ->
  tempItemDataMap (store w) !! User.id u = Some d ->
  creation.lacks_name_or_type d = false ->
  split_ws (trim raw) = a :: b :: c :: rest ->
  parseInt a = Some hp -> parseInt b = Some attack -> parseInt c = Some xp ->
  0 < hp -> 0 < attack -> 0 < xp ->
  stepped w u CREATING_OBJ_SUCCESS_MSG
    (Some (wizard.set_enemy hp attack xp d))
    (command uuid socket raw w).
Proof.
  intros Hs Hst Hsc Hr Hd Hn Hsplit Ha Hb Hc Hhp Hat Hxp.
  assert (Htr : forall x v, parseInt x = Some v -> truthy x = true).
  { intros x v Hx. destruct x; [discriminate|reflexivity]. }
  rewrite (command_in_wizard _ _ _ _ _ Hs) by (rewrite Hst; reflexivity).
  unfold creation.handleInput. rewrite Hst.
  cbn [creation.handleObjEnemyStats wizard.steps].
  unfold wizard.handleObjEnemyStats. rewrite Hsplit.
  cbn [length Nat.ltb Nat.leb List.nth orb].
  rewrite (Htr _ _ Ha), (Htr _ _ Hb), (Htr _ _ Hc), Ha, Hb, Hc.
  cbn [negb orb].
  replace ((hp <=? 0) || (attack <=? 0) || (xp <=? 0)) with false by lia.
  mgo. mrun. rewrite Hd, Hn. mgo.
  step_finish socket u w rm Hs Hsc Hr CREATING_OBJ_SUCCESS_MSG.
Qed.


Lemma obj_success_enemy uuid socket raw w u rm d n v hp attack xp :
  session_user socket w = Some u ->
  User.state u = CREATING_OBJ_SUCCESS_MSG ->
  truthy (User.server_code u) = true ->
  eval (repo.getRoom (User.current_q u) (User.current_r u)
          (User.server_code u)) w = Ok (Some rm) ->
  tempItemDataMap (store w) !! User.id u = Some d ->
  TempItemData.name d = Some n -> truthy n = true ->
  TempItemData.verb d = Some v ->
  TempItemData.interactionType d = Some ENEMY ->
  TempItemData.enemyHp d = Some hp -> TempItemData.enemyMaxHp d = Some hp ->
  TempItemData.enemyAttack d = Some attack ->
  TempItemData.xpValue d = Some xp ->
  0 < hp -> 0 < attack -> 0 < xp ->
  repo.room_exists (TempItemData.roomId d) (db w) = true ->
  repo.item_exists uuid (db w) = false ->
  exists evs,
    command uuid socket raw w
    = (Ok [H_creation],
       mkWorld
         (repo.on_users (repo.update_user (User.id u)
            (User.set_state CREATING_OBJ_CONFIRM))
            (repo.on_items (fun l => l ++
               [Item.mk uuid (Some (TempItemData.roomId d)) None
                  (User.server_code u) n
                  (default "" (TempItemData.description d)) (trim raw) v
                  NONE 0 0 None hp hp attack xp 0]) (db w)))
         (store.on_tempItem
            (insert (User.id u) (TempItemData.fresh (TempItemData.roomId d)))
            (store.on_tempItem
               (insert (User.id u)
                  (TempItemData.set_successMessage (trim raw) d))
               (store w)))
         (combat w) (timers w) (outbox w ++ evs)).
Proof.
  intros Hs Hst Hsc Hr Hd Hn Hnt Hv Hty Hhp Hmax Hat Hxp Php Pat Pxp Hroom
    Hfresh.
  rewrite (command_in_wizard _ _ _ _ _ Hs) by (rewrite Hst; reflexivity).
  unfold creation.handleInput. rewrite Hst.
  unfold creation.handleObjSuccessMsg. mgo. mrun. rewrite Hd, Hn.
  cbn [truthy_opt]. rewrite Hnt. cbn [negb]. mgo.
  unfold creation.finishObjectCreation, repo.createItem.
  destruct d as [dn dd dv dm dc de dt dh dx da di dxp dr drn rid].
  cbn [TempItemData.name TempItemData.description TempItemData.verb
       TempItemData.successMessage TempItemData.effectTypeCombat
       TempItemData.effectValue TempItemData.interactionType
       TempItemData.enemyHp TempItemData.enemyMaxHp TempItemData.enemyAttack
       TempItemData.isInfinite TempItemData.xpValue
       TempItemData.requiredItemId TempItemData.requiredItemName
       TempItemData.roomId TempItemData.set_successMessage] in *.
  subst dn dv dt dh dx da dxp.
  rewrite Hsc. cbn [negb unwrap default from_option id Item.server_code
                    Item.room_id Item.owner_id Item.required_item_id
                    repo.fk_ok].
  rewrite Hsc. cbn [negb].
  unfold or_num.
  replace (hp =? 0) with false by lia. replace (attack =? 0) with false by lia.
  replace (xp =? 0) with false by lia.
  mgo. mrun. rewrite Hfresh, Hroom. cbn [negb orb andb]. mgo. mrun.
  rewrite find_append, (item_exists_find _ _ Hfresh). cbn [find Item.id
    Item.set_id Item.set_is_infinite]. rewrite String.eqb_refl. mgo.
  match goal with |- exists _, (_ ?W) = _ =>
    destruct (step_end socket u W CREATING_OBJ_CONFIRM
                (with_db (repo.on_items (fun l => l ++
                   [Item.mk uuid (Some rid) None (User.server_code u) n
                      (default "" dd) (trim raw) v NONE 0 0 None hp hp
                      attack xp 0])) w) rm)
      as [ev Hev]; auto
  end.
  { rewrite <- Hr. apply getRoom_same_rooms. reflexivity. }
  rewrite Hev. eexists [_; _; _]. unfold with_outbox, with_db, with_store.
  cbn [db store combat timers outbox]. rewrite <- !app_assoc. reflexivity.
Qed.


(** X15. The object wizard, end to end, for an enemy. A user who is
    asked "Add an object?" and answers yes, a name that is not blank, a
    description, the type 5 and three positive figures "HP ATTACK XP",
    none above [MAX_SAFE_INTEGER], so that the numbers parsed are the
    numbers typed, then the success message, gets the enemy: one item row is added, in
    the room of the scratch record and in the realm of the user, owned
    by nobody, with the answers trimmed, the verb [fight], no effect,
    no gate, the HP typed as both current and maximum HP, the attack
    and the XP value typed. The user is asked again whether to add an
    object, with a fresh scratch item for the same room. *)
Theorem enemy_wizard_commits uuid socket name desc stats message w u rm rid
    a b c rest hp attack xp :
  session_user socket w = Some u ->
  User.state u = CREATING_OBJ_CONFIRM ->
  truthy (User.server_code u) = true ->
  eval (repo.getRoom (User.current_q u) (User.current_r u)
          (User.server_code u)) w = Ok (Some rm) ->
  tempItemDataMap (store w) !! User.id u = Some (TempItemData.fresh rid) ->
  repo.room_exists rid (db w) = true ->
  repo.item_exists uuid (db w) = false ->
  truthy (trim name) = true ->
  split_ws (trim stats) = a :: b :: c :: rest ->
  parseInt a = Some hp -> parseInt b = Some attack -> parseInt c = Some xp ->
  0 < hp <= MAX_SAFE_INTEGER ->
  0 < attack <= MAX_SAFE_INTEGER ->
  0 < xp <= MAX_SAFE_INTEGER ->
  let w' := exec (author_enemy uuid socket name desc stats message) w in
  eval (author_enemy uuid socket name desc stats message) w = Ok [H_creation]
  /\ items (db w')
     = items (db w) ++
       [Item.mk uuid (Some rid) None (User.server_code u) (trim name)
          (trim desc) (trim message) "fight" NONE 0 0 None hp hp attack xp 0]
  /\ user_row (User.id u) w' = Some u
  /\ tempItemDataMap (store w') !! User.id u = Some (TempItemData.fresh rid)
  /\ rooms (db w') = rooms (db w)
  /\ battles w' = battles w.
Proof.
  intros Hs Hst Hsc Hr Hd Hroom Hfresh Hn Hsplit Ha Hb Hc [Php _] [Pat _]
    [Pxp _] w'.
  subst w'. unfold eval, exec, author_enemy.
  (* yes *)
  destruct (obj_confirm_yes uuid socket "y" w u rm Hs Hst Hsc Hr eq_refl)
    as [evs1 H1].
  match type of H1 with _ = (_, ?W) => set (w1 := W) in * end.
  erewrite bind_ok by exact H1. clear H1. cbv beta.
  assert (Hs1 : session_user socket w1
                = Some (User.set_state CREATING_OBJ_NAME u))
    by (apply (session_user_updated socket w); auto).
  (* the name *)
  destruct (obj_name uuid socket name w1 _ rm (TempItemData.fresh rid)
              Hs1 eq_refl Hsc) as [evs2 H2].
  { rewrite <- Hr. apply getRoom_same_rooms. reflexivity. }
  { exact Hd. }
  match type of H2 with _ = (_, ?W) => set (w2 := W) in * end.
  erewrite bind_ok by exact H2. clear H2. cbv beta.
  assert (Hs2 : session_user socket w2
                = Some (User.set_state CREATING_OBJ_DESC
                          (User.set_state CREATING_OBJ_NAME u)))
    by (apply (session_user_updated socket w1); auto).
  (* the description *)
  destruct (obj_desc uuid socket desc w2 _ rm
              (wizard.set_name (trim name) (TempItemData.fresh rid))
              Hs2 eq_refl Hsc) as [evs3 H3].
  { rewrite <- Hr. apply getRoom_same_rooms. reflexivity. }
  { cbn. apply lookup_insert_eq. }
  { exact Hn. }
  match type of H3 with _ = (_, ?W) => set (w3 := W) in * end.
  erewrite bind_ok by exact H3. clear H3. cbv beta.
  assert (Hs3 : session_user socket w3
                = Some (User.set_state CREATING_OBJ_TYPE
                          (User.set_state CREATING_OBJ_DESC
                             (User.set_state CREATING_OBJ_NAME u))))
    by (apply (session_user_updated socket w2); auto).
  (* the type *)
  destruct (obj_type_enemy uuid socket "5" w3 _ rm
              (wizard.set_item_description (trim desc)
                 (wizard.set_name (trim name) (TempItemData.fresh rid)))
              Hs3 eq_refl Hsc) as [evs4 H4].
  { rewrite <- Hr. apply getRoom_same_rooms. reflexivity. }
  { cbn. apply lookup_insert_eq. }
  { exact Hn. }
  { reflexivity. }
  match type of H4 with _ = (_, ?W) => set (w4 := W) in * end.
  erewrite bind_ok by exact H4. clear H4. cbv beta.
  assert (Hs4 : session_user socket w4
                = Some (User.set_state CREATING_OBJ_ENEMY_STATS
                          (User.set_state CREATING_OBJ_TYPE
                             (User.set_state CREATING_OBJ_DESC
                                (User.set_state CREATING_OBJ_NAME u)))))
    by (apply (session_user_updated socket w3); auto).
  (* the figures *)
  set (d4 := wizard.set_effectTypeCombat
               (TempItemData.set_verb "fight"
                  (wizard.set_interactionType ENEMY
                     (wizard.set_item_description (trim desc)
                        (wizard.set_name (trim name)
                           (TempItemData.fresh rid)))))).
  destruct (obj_enemy_stats uuid socket stats w4 _ rm d4 a b c rest hp attack
              xp Hs4 eq_refl Hsc) as [evs5 H5]; auto.
  { rewrite <- Hr. apply getRoom_same_rooms. reflexivity. }
  { cbn. apply lookup_insert_eq. }
  { unfold creation.lacks_name_or_type. cbn. rewrite Hn. reflexivity. }
  match type of H5 with _ = (_, ?W) => set (w5 := W) in * end.
  erewrite bind_ok by exact H5. clear H5. cbv beta.
  assert (Hs5 : session_user socket w5
                = Some (User.set_state CREATING_OBJ_SUCCESS_MSG
                          (User.set_state CREATING_OBJ_ENEMY_STATS
                             (User.set_state CREATING_OBJ_TYPE
                                (User.set_state CREATING_OBJ_DESC
                                   (User.set_state CREATING_OBJ_NAME u))))))
    by (apply (session_user_updated socket w4); auto).
  (* the success message *)
  destruct (obj_success_enemy uuid socket message w5 _ rm
              (wizard.set_enemy hp attack xp d4) (trim name) "fight" hp attack
              xp Hs5 eq_refl Hsc) as [evs6 H6]; auto.
  { rewrite <- Hr. apply getRoom_same_rooms. reflexivity. }
  { cbn. apply lookup_insert_eq. }
  rewrite H6. cbn [fst snd db store combat timers users rooms items].
  apply session_user_inv in Hs5 as (_ & _ & Hu5). unfold user_row in Hu5.
  split; [reflexivity|]. split; [reflexivity|]. split.
  { unfold user_row. cbn [db users repo.on_users].
    change (users (repo.on_items _ (db w5))) with (users (db w5)).
    rewrite find_update_user_fmap by reflexivity.
    change (User.id u) with
      (User.id (User.set_state CREATING_OBJ_SUCCESS_MSG
                  (User.set_state CREATING_OBJ_ENEMY_STATS
                     (User.set_state CREATING_OBJ_TYPE
                        (User.set_state CREATING_OBJ_DESC
                           (User.set_state CREATING_OBJ_NAME u)))))).
    rewrite Hu5. cbn. rewrite <- Hst. destruct u; reflexivity. }
  split; [apply lookup_insert_eq|]. split; reflexivity.
Qed.

End ObjectFacts.

Lemma room_wizard_commits_witness :
  session_user "s4" Scene.moved
  = Some (User.mk "u4" "dave" "ISLE" 1 10 100 0 2 (-2) CREATING_ROOM_TITLE)
  /\ rooms (db Scene.authored)
     = [Fixture.crash_site; Fixture.cave;
        Room.mk "r9" 2 (-2) "ISLE" "Misty Moor" "Fog everywhere." 3 "u4" None]
  /\ user_row "u4" Scene.authored
     = Some (User.mk "u4" "dave" "ISLE" 1 10 100 0 2 (-2) CREATING_OBJ_CONFIRM).
Proof.
  assert (Hm : 1 <= 2 <= 6) by lia. assert (Hs : 0 <= 3 <= 5) by lia.
  pose proof (room_wizard_commits "r9" "s4" " Misty Moor " "Fog everywhere."
                "2" "3" Scene.moved
                (User.mk "u4" "dave" "ISLE" 1 10 100 0 2 (-2)
                   CREATING_ROOM_TITLE) 2 3
                eq_refl eq_refl eq_refl eq_refl eq_refl eq_refl Hm eq_refl Hs
                eq_refl eq_refl)
    as (_ & Hrooms & Hrow & _).
  split; [reflexivity|]. split; [exact Hrooms|exact Hrow].
Defined.

Lemma blank_title_aborts_witness :
  rooms (db (exec (author_room "r9" "s4" "   " "Fog everywhere." "2" "3")
               Scene.moved))
  = [Fixture.crash_site; Fixture.cave]
  /\ user_row "u4" (exec (author_room "r9" "s4" "   " "Fog everywhere." "2" "3")
                      Scene.moved)
     = Some (User.mk "u4" "dave" "ISLE" 1 10 100 0 2 (-2) IDLE).
Proof.
  assert (Hm : 1 <= 2 <= 6) by lia.
  pose proof (blank_title_aborts "r9" "s4" "   " "Fog everywhere." "2" "3"
                Scene.moved
                (User.mk "u4" "dave" "ISLE" 1 10 100 0 2 (-2)
                   CREATING_ROOM_TITLE) 2
                eq_refl eq_refl eq_refl eq_refl eq_refl Hm)
    as (_ & Hrooms & Hrow & _).
  split; [exact Hrooms|exact Hrow].
Defined.

Lemma enemy_wizard_commits_witness :
  session_user "s4" Scene.authored
  = Some (User.mk "u4" "dave" "ISLE" 1 10 100 0 2 (-2) CREATING_OBJ_CONFIRM)
  /\ items (db (exec (author_enemy "i20" "s4" "Wolf" "A grey wolf." "20 4 50"
                        "The wolf falls.") Scene.authored))
     = items Scene.cave_db ++
       [Item.mk "i20" (Some "r9") None "ISLE" "Wolf" "A grey wolf."
          "The wolf falls." "fight" NONE 0 0 None 20 20 4 50 0].
Proof.
  assert (H20 : 0 < 20 <= MAX_SAFE_INTEGER) by (vm_compute; split; congruence).
  assert (H4 : 0 < 4 <= MAX_SAFE_INTEGER) by (vm_compute; split; congruence).
  assert (H50 : 0 < 50 <= MAX_SAFE_INTEGER)
    by (vm_compute; split; congruence).
  pose proof (enemy_wizard_commits "i20" "s4" "Wolf" "A grey wolf." "20 4 50"
                "The wolf falls." Scene.authored
                (User.mk "u4" "dave" "ISLE" 1 10 100 0 2 (-2)
                   CREATING_OBJ_CONFIRM)
                (Room.mk "r9" 2 (-2) "ISLE" "Misty Moor" "Fog everywhere." 3
                   "u4" None)
                "r9" "20" "4" "50" [] 20 4 50
                eq_refl eq_refl eq_refl eq_refl eq_refl eq_refl eq_refl
                eq_refl eq_refl eq_refl eq_refl eq_refl H20 H4 H50)
    as (_ & Hitems & _).
  split; [reflexivity|exact Hitems].
Defined.

(** ** The whole server keeps the registry and the timers in agreement *)

Lemma keeps_bind {A B} (I : World -> Prop) (m : M A) (k : A -> M B) :
  keeps I m -> (forall a, keeps I (k a)) -> keeps I (bind m k).
Proof.
  intros Hm Hk w Hw. unfold bind. specialize (Hm w Hw).
  destruct (m w) as [[a|e] w1]; cbn in *; [apply Hk, Hm|exact Hm].
Qed.

Lemma keeps_preserves {A} (m : M A) :
  preserves battles m -> keeps battles_agree m.
Proof. intros Hm w Hw. apply (battles_agree_same w); auto. Qed.

Ltac frame_handlers :=
  unfold handleMove, sendRoomTapestry, handleInteraction, find_target,
    check_required, apply_effect, finish_interaction, resolve_ordinal,
    emit_state, creation.handleObjSuccessMsg, creation.handleObjRequirement,
    creation.handleObjVerbConfirm, creation.handleObjContents,
    creation.finishObjectCreation, creation.session_expired,
    creation.snapshot,
    wizard.handleRoomTitle, wizard.handleRoomDesc, wizard.handleRoomMood,
    wizard.handleRoomShroud, wizard.handleObjConfirm, wizard.handleObjName,
    wizard.handleObjDesc, wizard.handleObjVerb, wizard.handleObjType,
    wizard.handleObjValue, wizard.handleObjEnemyStats,
    wizard.handleObjSupplyType, wizard.room_snapshot, wizard.expired,
    wizard.expired_room, wizard.snapshot_without_inventory,
    rooms.createRoom.

Ltac frame_all := repeat (frame_handlers; frame_repo; frame_step).

Lemma handleMove_battles socket user input :
  preserves battles (handleMove socket user input).
Proof. frame_all. Qed.

Lemma handleInteraction_battles uuid socket user command :
  preserves battles (handleInteraction uuid socket user command).
Proof. frame_all. Qed.

Lemma wizard_battles uuid socket user input :
  preserves battles
    (@creation.handleInput (wizard.steps uuid) uuid socket user input).
Proof.
  unfold creation.handleInput.
  destruct (User.state user);
    cbn [wizard.steps creation.handleRoomTitle creation.handleRoomDesc
         creation.handleRoomMood creation.handleRoomShroud
         creation.handleObjConfirm creation.handleObjName
         creation.handleObjDesc creation.handleObjVerb creation.handleObjType
         creation.handleObjValue creation.handleObjEnemyStats
         creation.handleObjSupplyType];
    frame_all.
Qed.

Lemma on_disconnect_battles socket : preserves battles (on_disconnect socket).
Proof.
  unfold on_disconnect, store.deleteSession. frame_all.
Qed.

Lemma on_generated_battles socket user rm w :
  battles (snd (wizard.on_generated socket user rm w)) = battles w
  /\ battles (snd (wizard.on_generation_failed socket user rm w)) = battles w.
Proof.
  assert (Hf : preserves battles (wizard.on_generation_failed socket user rm))
    by (unfold wizard.on_generation_failed; frame_all).
  assert (Hg : preserves battles (wizard.generated socket user))
    by (unfold wizard.generated; frame_all).
  split; [|apply Hf]. unfold wizard.on_generated.
  specialize (Hg w). destruct (wizard.generated socket user w) as [[[]|e] w1];
    cbn [snd] in *; [exact Hg|]. rewrite Hf. exact Hg.
Qed.

Ltac keep_step :=
  lazymatch goal with
  | |- keeps _ (bind _ _) => apply keeps_bind; [|intros ?]
  | |- keeps _ (handleFight _ _ _) => apply handleFight_keeps
  | |- keeps _ (handleRetreat _ _) => apply handleRetreat_keeps
  | |- keeps _ (if ?b then _ else _) => destruct b
  | |- keeps _ (match ?o with _ => _ end) => destruct o
  end.

Section ServerFacts.

Context `{general.Handlers}.

Hypothesis handleHelp_battles :
  forall socket user, preserves battles (general.handleHelp socket user).
Hypothesis handleLook_battles :
  forall socket user target,
    preserves battles (general.handleLook socket user target).
Hypothesis handleRegenerate_battles :
  forall socket user mood,
    preserves battles (general.handleRegenerate socket user mood).

Lemma command_keeps uuid socket raw :
  keeps battles_agree (command uuid socket raw).
Proof.
  unfold command, cmd_input. cbv zeta.
  repeat keep_step;
    apply keeps_preserves;
    first [ apply handleMove_battles | apply handleInteraction_battles
          | apply wizard_battles | apply handleHelp_battles
          | apply handleLook_battles | apply handleRegenerate_battles
          | frame_all ].
Qed.

Lemma on_combat_retreat_keeps socket :
  keeps battles_agree (on_combat_retreat socket).
Proof.
  unfold on_combat_retreat.
  repeat keep_step; apply keeps_preserves; frame_all.
Qed.

(** The entry points keep the agreement of the registry and the
    timers, for general handlers that leave both alone. *)
Lemma entry_points_keep w :
  battles_agree w ->
  (forall uuid socket raw, battles_agree (exec (command uuid socket raw) w))
  /\ (forall socket, battles_agree (exec (on_combat_retreat socket) w))
  /\ (forall socket, battles_agree (exec (on_disconnect socket) w))
  /\ (forall interval rnd1 rnd2,
        battles_agree (exec (fire interval rnd1 rnd2) w))
  /\ (forall socket user rm,
        battles_agree (exec (wizard.on_generated socket user rm) w)
        /\ battles_agree
             (exec (wizard.on_generation_failed socket user rm) w)).
Proof.
  intros Hinv. split; [|split; [|split; [|split]]]; intros.
  - apply command_keeps, Hinv.
  - apply on_combat_retreat_keeps, Hinv.
  - apply (battles_agree_same w); [apply on_disconnect_battles|exact Hinv].
  - apply fire_keeps, Hinv.
  - destruct (on_generated_battles socket user rm w) as [H1 H2].
    split; apply (battles_agree_same w); auto.
Qed.

End ServerFacts.

(** ** The general handlers leave the battles alone *)

Lemma preserves_try_catch {S A} (proj : World -> S) (body : M A)
    (handler : Exn -> M A) :
  preserves proj body -> (forall e, preserves proj (handler e)) ->
  preserves proj (commands.try_catch body handler).
Proof.
  intros Hb Hh w. unfold commands.try_catch. specialize (Hb w).
  destruct (body w) as [[a|e] w1]; cbn [snd] in *; [exact Hb|].
  rewrite Hh. exact Hb.
Qed.

Lemma handleHelp_silent fuel rnd socket user :
  preserves silent (commands.handleHelp fuel rnd socket user).
Proof. unfold commands.handleHelp. cbv zeta. frame. Qed.

Lemma handleLook_silent socket user target :
  preserves silent (looking.handleLook socket user target).
Proof. unfold looking.handleLook, looking.undefined_space. frame. Qed.

Lemma handleRegenerate_battles socket user mood :
  preserves battles (commands.handleRegenerate socket user mood).
Proof.
  unfold commands.handleRegenerate. cbv zeta.
  repeat lazymatch goal with
         | |- preserves _ (commands.try_catch _ _) =>
             apply preserves_try_catch; [|intros ?]
         | |- preserves _ (commands.deleteRoomAnimations _) =>
             unfold commands.deleteRoomAnimations
         | |- _ => frame_repo; frame_step
         end.
Qed.

Lemma battles_of_silent {A} (m : M A) :
  preserves silent m -> preserves battles m.
Proof.
  intros Hm w. specialize (Hm w). unfold silent, battles in *.
  injection Hm as _ _ -> ->. reflexivity.
Qed.

(** X16. The battle registry and the timers agree, and the server
    keeps them so: the two maps of the registry describe the same
    battles, every registered battle has a live timer that ticks for
    that user, every live timer belongs to a registered battle, and
    handles are never reused. This is preserved, whether the handler
    returns or throws, by a command on [cmd:input], whatever its text
    and the mode of the user, with the steps of the wizard and the
    general handlers as they are written ([help], whatever the random
    values and whether or not the obfuscation of its verbs returns,
    [look], and [regenerate] up to its first [await]), by the
    [combat:retreat] event, by a disconnection, by the firing of a
    timer, whatever its dice, and by the two continuations that end
    the generation of animations of the wizard. The later turns of
    [regenerate] and of the generation itself, which write symbols and
    animations, are not among these. *)
Theorem server_keeps_battles_agree fuel rnd w :
  battles_agree w ->
  (forall uuid socket raw,
     battles_agree (exec (serve fuel rnd uuid socket raw) w))
  /\ (forall socket, battles_agree (exec (on_combat_retreat socket) w))
  /\ (forall socket, battles_agree (exec (on_disconnect socket) w))
  /\ (forall interval rnd1 rnd2,
        battles_agree (exec (fire interval rnd1 rnd2) w))
  /\ (forall socket user rm,
        battles_agree (exec (wizard.on_generated socket user rm) w)
        /\ battles_agree
             (exec (wizard.on_generation_failed socket user rm) w)).
Proof.
  intros Hinv.
  exact (@entry_points_keep (commands.handlers fuel rnd)
           (fun socket user =>
              battles_of_silent _ (handleHelp_silent fuel rnd socket user))
           (fun socket user target =>
              battles_of_silent _ (handleLook_silent socket user target))
           handleRegenerate_battles w Hinv).
Qed.

(** ** The dispatcher and the socket events *)

Section EntryFacts.

Context `{creation.WizardSteps} `{general.Handlers}.

(** X17. Nothing is done for a socket that speaks for nobody. When the
    socket has no session, or the session names no user row, a command
    on [cmd:input] calls no handler and is answered with one error
    message, and the [combat:retreat] event is dropped without a word;
    the database, the scratch store, the registry and the timers are
    left as they are. *)
Theorem nobody_is_served uuid socket raw w :
  session_user socket w = None ->
  (exists msg,
     cmd_input uuid socket raw w
     = (Ok [], with_outbox (fun o => o ++
                  [(socket, game_log msg log_error None)]) w)
     /\ (msg = msg_user_not_found \/ msg = msg_user_missing))
  /\ on_combat_retreat socket w = (Ok tt, w).
Proof.
  unfold session_user, user_row, cmd_input, on_combat_retreat.
  intros Hs. unfold bind at 1 3. mrun.
  destruct (socketUserMap (store w) !! socket) as [uid|]; cbn [truthy_opt].
  - destruct (truthy uid); cbn [negb default from_option id].
    + unfold bind at 1 3. mrun. rewrite Hs. mrun. eauto.
    + mrun. eauto.
  - mrun. eauto.
Qed.

(** X18. The [combat:retreat] event ends the battle of the user of the
    socket, whatever the mode of that user: the registry forgets the
    user and the timer is cancelled, the mode becomes IDLE, and the
    socket receives the [combat:end] with result [retreat], the
    farewell and then the snapshot with the updated user row. *)
Theorem on_combat_retreat_ends_battle socket w u rm :
  session_user socket w = Some u ->
  eval (combatState.isInCombat (User.id u)) w = Ok true ->
  eval (repo.getRoom (User.current_q u) (User.current_r u)
          (User.server_code u)) w = Ok (Some rm) ->
  let w' := exec (on_combat_retreat socket) w in
  eval (on_combat_retreat socket) w = Ok tt
  /\ eval (combatState.isInCombat (User.id u)) w' = Ok false
  /\ (forall b, battleData (combat w) !! User.id u = Some b ->
        live (timers w') !! ActiveBattle.interval b = None)
  /\ user_row (User.id u) w' = Some (User.set_state IDLE u)
  /\ (exists p, outbox w'
        = outbox w ++ [(socket, combat_end retreat None);
                       (socket, game_log msg_escaped log_info None);
                       (socket, state_update p)]
        /\ player p = Some (User.set_state IDLE u) /\ room p = rm).
Proof.
  intros Hs Hin Hroom w'. subst w'.
  destruct (handleRetreat_run socket u w rm Hin Hroom)
    as (p & Hrun & Hp & Hrm).
  apply session_user_inv in Hs as (Hs & Ht & Hu).
  pose proof Hu as Hu'. unfold user_row in Hu'.
  assert (Hev : on_combat_retreat socket w
    = (Ok tt,
       with_outbox (fun o => o ++ [(socket, state_update p)])
         (with_outbox (fun o => o ++
            [(socket, combat_end retreat None);
             (socket, game_log msg_escaped log_info None)])
            (with_db (repo.on_users
               (repo.update_user (User.id u) (User.set_state IDLE)))
               (after_endBattle (User.id u) w))))).
  { unfold on_combat_retreat. erewrite bind_ok by reflexivity.
    mrun. rewrite Hs. cbn [truthy_opt]. rewrite Ht.
    cbn [negb default from_option id].
    erewrite bind_ok by reflexivity. mrun. rewrite Hu'.
    erewrite bind_ok by exact Hrun. reflexivity. }
  unfold eval, exec. rewrite Hev. cbn [fst snd].
  destruct (after_endBattle_registry (User.id u) w) as [H1 H2].
  unfold combatState.isInCombat, user_row. mrun. rewrite H1.
  rewrite !after_endBattle_db, after_endBattle_outbox.
  rewrite find_update_user_fmap, Hu' by reflexivity.
  split; [reflexivity|]. split; [reflexivity|]. split.
  { intros b Hb. unfold after_endBattle. rewrite Hb. cbn.
    apply lookup_delete_eq. }
  split; [reflexivity|]. exists p. rewrite <- app_assoc.
  split; [reflexivity|]. rewrite Hp, Hu. auto.
Qed.

End EntryFacts.

(** ** The repository *)

(** X19. [deleteItem] leaves no trace of the item: the row cannot be
    read any more, no remaining item requires it, so that a gate whose
    key is deleted is open to everybody, no animation refers to it, and
    the other item rows are as they were, their requirement of the
    deleted item apart; users and rooms are not touched. *)
Theorem deleteItem_integrity itemId w :
  let w' := exec (repo.deleteItem itemId) w in
  eval (repo.deleteItem itemId) w = Ok tt
  /\ eval (repo.getItem itemId) w' = Ok None
  /\ (forall i, i ∈ items (db w') -> Item.required_item_id i <> Some itemId)
  /\ (forall a, a ∈ animations (db w') ->
        Animation.object_id a <> Some itemId)
  /\ (forall i, i ∈ items (db w') <->
        exists i0, i0 ∈ items (db w) /\ Item.id i0 <> itemId
                   /\ i = if bool_decide (Item.required_item_id i0 = Some itemId)
                          then Item.set_required_item_id None i0 else i0)
  /\ users (db w') = users (db w) /\ rooms (db w') = rooms (db w)
  /\ store w' = store w /\ battles w' = battles w /\ outbox w' = outbox w.
Proof.
  unfold eval, exec, repo.deleteItem. mrun.
  assert (Heqb : forall o, eqb_opt itemId o = bool_decide (o = Some itemId)).
  { intros [x|]; cbn.
    - destruct (String.eqb_spec itemId x) as [->|Hne].
      + rewrite bool_decide_eq_true_2; reflexivity.
      + rewrite bool_decide_eq_false_2; congruence.
    - rewrite bool_decide_eq_false_2; [reflexivity|discriminate]. }
  assert (Hin : forall i,
    i ∈ filter (fun i => ~ Is_true (String.eqb (Item.id i) itemId))
          (map (fun i => if eqb_opt itemId (Item.required_item_id i)
                         then Item.set_required_item_id None i else i)
               (items (db w)))
    <-> exists i0, i0 ∈ items (db w) /\ Item.id i0 <> itemId
          /\ i = if bool_decide (Item.required_item_id i0 = Some itemId)
                 then Item.set_required_item_id None i0 else i0).
  { intros i. rewrite list_elem_of_filter.
    change (map ?f ?l) with (f <$> l). rewrite list_elem_of_fmap. split.
    - intros (Hid & i0 & -> & Hi0). exists i0. rewrite Heqb in *.
      split; [exact Hi0|]. split; [|reflexivity].
      intros E. apply Hid. apply Is_true_true, String.eqb_eq.
      destruct (bool_decide _); exact E.
    - intros (i0 & Hi0 & Hid & ->). rewrite <- Heqb. split; [|eauto].
      intros E. apply Hid. apply Is_true_true, String.eqb_eq in E.
      destruct (eqb_opt _ _); exact E. }
  split; [reflexivity|]. split.
  { rewrite find_deleted. reflexivity. }
  split.
  { intros i Hi. apply Hin in Hi as (i0 & _ & _ & ->).
    case_bool_decide as E; [discriminate|exact E]. }
  split.
  { intros a Ha. apply list_elem_of_filter in Ha as [Ha _].
    intros E. apply Ha. rewrite E. cbn. rewrite String.eqb_refl. exact I. }
  split; [exact Hin|]. repeat split.
Qed.

(** X20. [createItem] stores what it is given, except the supply type.
    Under a fresh id and with foreign keys that name rows, one row is
    appended and returned: it has the new id and every field of the
    argument but [is_infinite], which the INSERT does not list and which
    therefore reads 0; the row can be read back by its id and every
    other item reads as before. Under an id that is taken the INSERT is
    refused and nothing changes. *)
Theorem createItem_round_trip newId item w :
  truthy (Item.server_code item) = true ->
  repo.fk_ok repo.room_exists (Item.room_id item) (db w) = true ->
  repo.fk_ok repo.user_exists (Item.owner_id item) (db w) = true ->
  repo.fk_ok repo.item_exists (Item.required_item_id item) (db w) = true ->
  let row := Item.set_is_infinite 0 (Item.set_id newId item) in
  (repo.item_exists newId (db w) = false ->
     repo.createItem newId item w
     = (Ok row, with_db (repo.on_items (fun l => l ++ [row])) w)
     /\ eval (repo.getItem newId)
          (with_db (repo.on_items (fun l => l ++ [row])) w) = Ok (Some row)
     /\ (forall other, other <> newId ->
           eval (repo.getItem other)
             (with_db (repo.on_items (fun l => l ++ [row])) w)
           = eval (repo.getItem other) w))
  /\ (repo.item_exists newId (db w) = true ->
      repo.createItem newId item w = (Throw SqliteError, w)).
Proof.
  intros Hsc Hroom Howner Hreq row. unfold repo.createItem.
  rewrite Hsc. cbn [negb]. split; intros Hex.
  - assert (Hrun : repo.createItem newId item w
                   = (Ok row, with_db (repo.on_items (fun l => l ++ [row])) w)).
    { unfold repo.createItem. rewrite Hsc. cbn [negb]. mgo.
      rewrite Hex, Hroom, Howner, Hreq. cbn [negb orb andb]. mgo. mrun.
      rewrite find_append, (item_exists_find _ _ Hex). cbn [find].
      fold row. replace (String.eqb (Item.id row) newId) with true
        by (symmetry; apply String.eqb_refl).
      reflexivity. }
    unfold repo.createItem in Hrun. rewrite Hsc in Hrun. cbn [negb] in Hrun.
    split; [exact Hrun|]. unfold eval. mrun. rewrite !find_append.
    split.
    + rewrite (item_exists_find _ _ Hex). cbn [find].
      replace (String.eqb (Item.id row) newId) with true
        by (symmetry; apply String.eqb_refl).
      reflexivity.
    + intros other Hne. rewrite find_append.
      destruct (find _ (items (db w))); [reflexivity|].
      cbn [find].
      replace (String.eqb (Item.id row) other) with false; [reflexivity|].
      symmetry. apply String.eqb_neq. cbn. congruence.
  - mgo. rewrite Hex. reflexivity.
Qed.

(** X21. [createRoom] and the coordinate. Under a fresh id and for a
    creator that exists, one room row is appended. When the coordinate
    had no room in the realm, the new row is what is returned. When the
    coordinate already had one, the new row is stored all the same, but
    the room returned is the old one, and [getRoom] at that coordinate
    goes on answering with the old one: the second room can never be
    entered. *)
Theorem createRoom_and_the_coordinate newId room w :
  truthy (Room.server_code room) = true ->
  repo.room_exists newId (db w) = false ->
  repo.user_exists (Room.created_by room) (db w) = true ->
  let row := Room.mk newId (Room.q room) (Room.r room) (Room.server_code room)
               (Room.title room) (Room.description room)
               (Room.shroud_level room) (Room.created_by room)
               (Room.symbol room) in
  let w' := with_db (rooms.on_rooms (fun l => l ++ [row])) w in
  forall there,
    eval (repo.getRoom (Room.q room) (Room.r room) (Room.server_code room)) w
    = Ok there ->
    rooms.createRoom newId room w = (Ok (default row there), w')
    /\ eval (repo.getRoom (Room.q room) (Room.r room) (Room.server_code room))
         w' = Ok (Some (default row there)).
Proof.
  intros Hsc Hfresh Hcreator row w' there Hthere.
  apply getRoom_inv in Hthere as [_ Hthere].
  assert (Hfind : find (fun x => (Room.q x =? Room.q room)
                                 && (Room.r x =? Room.r room)
                                 && String.eqb (Room.server_code x)
                                      (Room.server_code room))
                    (rooms (db w) ++ [row]) = Some (default row there)).
  { rewrite find_append, Hthere. destruct there as [old|]; [reflexivity|].
    cbn. rewrite !Z.eqb_refl, String.eqb_refl. reflexivity. }
  split.
  - unfold rooms.createRoom, repo.getRoom. rewrite Hsc. cbn [negb]. mgo.
    rewrite Hfresh, Hcreator. cbn [negb orb]. mgo. mrun.
    unfold rooms.on_rooms at 1. cbn [rooms]. fold row.
    match goal with |- context [find ?f ?l] =>
      replace (find f l) with (Some (default row there))
        by (symmetry; exact Hfind)
    end.
    reflexivity.
  - unfold eval, repo.getRoom. rewrite Hsc. cbn [negb]. mrun.
    unfold rooms.on_rooms. cbn [rooms]. fold row.
    match goal with |- context [find ?f ?l] =>
      replace (find f l) with (Some (default row there))
        by (symmetry; exact Hfind)
    end.
    reflexivity.
Qed.

(** ** What the object wizard can commit *)

Lemma snapshot_silent user : preserves silent (creation.snapshot user).
Proof. unfold creation.snapshot. frame. Qed.

Lemma bind_ok_inv {A B} (m : M A) (k : A -> M B) w r :
  fst (bind m k w) = Ok r -> exists a w1, m w = (Ok a, w1).
Proof. unfold bind. destruct (m w) as [[a|e] w1]; [eauto|discriminate]. Qed.

Lemma createItem_inv newId item w r w' :
  repo.createItem newId item w = (Ok r, w') ->
  r = Item.set_is_infinite 0 (Item.set_id newId item)
  /\ w' = with_db (repo.on_items (fun l => l ++ [r])) w.
Proof.
  unfold repo.createItem.
  destruct (truthy (Item.server_code item)); cbn [negb]; [|discriminate].
  rewrite ?bind_assoc. erewrite bind_ok by reflexivity.
  destruct (repo.item_exists newId (db w)) eqn:Hex; cbn [orb];
    [discriminate|].
  destruct (negb _); [discriminate|].
  mgo. mrun. rewrite find_append, (item_exists_find _ _ Hex). cbn [find].
  cbn [Item.id Item.set_id Item.set_is_infinite]. rewrite String.eqb_refl.
  intros [= <- <-]. split; reflexivity.
Qed.

(** X22. The rows the object wizard commits. Whatever the scratch
    record holds, when [finishObjectCreation] returns it has appended
    exactly one item row: under the new id, in the room of the scratch
    record and the realm of the user, owned by nobody and not hidden.
    The supply type is not stored ([is_infinite] reads 0). The XP value
    is never 0. A HEAL row has a positive value and a DAMAGE row a value
    that is not negative; only an ENEMY record gives enemy HP and only
    a GATE record gives a required item. The user row is put in the
    mode CREATING_OBJ_CONFIRM and the scratch item is replaced by a
    fresh one for the same room. *)
Theorem wizard_rows uuid socket user d w :
  (exists r, eval (creation.finishObjectCreation uuid socket user d) w = Ok r) ->
  let w' := exec (creation.finishObjectCreation uuid socket user d) w in
  (exists row,
     items (db w') = items (db w) ++ [row]
     /\ Item.id row = uuid
     /\ Item.room_id row = Some (TempItemData.roomId d)
     /\ Item.owner_id row = None
     /\ Item.server_code row = User.server_code user
     /\ Item.is_hidden row = 0
     /\ Item.is_infinite row = 0
     /\ Item.xp_value row <> 0
     /\ (Item.effect_type row = HEAL -> 0 < Item.effect_value row)
     /\ (Item.effect_type row = DAMAGE -> 0 <= Item.effect_value row)
     /\ (Item.enemy_hp row <> 0 ->
           TempItemData.interactionType d = Some ENEMY)
     /\ (is_Some (Item.required_item_id row) ->
           TempItemData.interactionType d = Some GATE))
  /\ users (db w')
     = repo.update_user (User.id user) (User.set_state CREATING_OBJ_CONFIRM)
         (users (db w))
  /\ tempItemDataMap (store w') !! User.id user
     = Some (TempItemData.fresh (TempItemData.roomId d)).
Proof.
  intros [r Hr] w'. subst w'. unfold eval, exec in *.
  unfold creation.finishObjectCreation in *. cbv zeta in *.
  apply bind_ok_inv in Hr as (row & w1 & Hrow).
  erewrite bind_ok by exact Hrow. clear r.
  destruct (truthy (User.server_code user)); cbn [negb] in Hrow;
    [|discriminate].
  destruct (TempItemData.name d) as [name|]; cbn [unwrap] in Hrow;
    [|discriminate].
  destruct (TempItemData.verb d) as [verb|]; cbn [unwrap] in Hrow;
    [|discriminate].
  do 2 erewrite bind_ok in Hrow by reflexivity.
  apply createItem_inv in Hrow as [Hrow ->].
  mgo.
  match goal with |- context [creation.snapshot user ?W] =>
    pose proof (snapshot_silent user W) as Hs end.
  unfold silent in Hs. injection Hs as Hdb Hstore _ _.
  rewrite Hdb, Hstore. clear Hdb Hstore. mrun. rewrite lookup_insert_eq.
  split; [|split; reflexivity].
  exists row. split; [reflexivity|]. rewrite Hrow.
  cbn [Item.id Item.room_id Item.owner_id Item.server_code Item.is_hidden
       Item.is_infinite Item.xp_value Item.effect_type Item.effect_value
       Item.enemy_hp Item.required_item_id Item.set_id Item.set_is_infinite].
  do 6 (split; [reflexivity|]). unfold or_num.
  destruct (TempItemData.interactionType d) as [[]|];
    repeat split; try discriminate; try congruence;
    try (intros [? ?]; discriminate);
    repeat match goal with
           | |- context [if ?c then _ else _] => destruct c eqn:?
           end; try discriminate; try congruence; intros; lia.
Qed.

Lemma wizard_rows_witness :
  let d := TempItemData.mk (Some "Idol") (Some "A jade idol.") (Some "touch")
             (Some "It hums.") false (Some (-5)) (Some BUFF_TRAP) None None
             None None None None None "r9" in
  let dave := User.mk "u4" "dave" "ISLE" 1 10 100 0 2 (-2)
                CREATING_OBJ_SUCCESS_MSG in
  exists row,
    items (db (exec (creation.finishObjectCreation "i20" "s4" dave d)
                 Scene.authored))
    = items (db Scene.authored) ++ [row]
    /\ Item.effect_type row = DAMAGE /\ Item.effect_value row = 5.
Proof.
  intros d dave.
  destruct (wizard_rows "i20" "s4" dave d Scene.authored)
    as [(row & Hitems & _) _].
  { eexists. vm_compute. reflexivity. }
  exists row. split; [exact Hitems|].
  vm_compute in Hitems. injection Hitems as <-. split; reflexivity.
Defined.

(** ** Looking around *)

Lemma find_filter_elem {A} (p : A -> bool) (P : A -> bool) (l : list A) a :
  find p (filter (fun x => Is_true (P x)) l) = Some a ->
  a ∈ l /\ P a = true /\ p a = true.
Proof.
  intros Hf. apply find_some_elem in Hf as [Hin Hp].
  apply list_elem_of_filter in Hin as [HP Hin].
  split; [exact Hin|]. split; [|exact Hp]. by apply Is_true_true.
Qed.

Lemma find_filter_none {A} (p : A -> bool) (P : A -> bool) (l : list A) :
  find p (filter (fun x => Is_true (P x)) l) = None ->
  forall a, a ∈ l -> P a = true -> p a = false.
Proof.
  intros Hf a Hin HP. apply (find_none _ _ Hf).
  apply list_elem_of_In, list_elem_of_filter. split; [|exact Hin].
  by apply Is_true_true.
Qed.

(** X23. What [handleLook] shows. In a room that exists the command is
    always handled and changes nothing but the outbox of the socket.
    Without a target it sends the title and the description of the
    room. With a target it sends one message: the description of an
    item of that name (or the words for an item without description),
    where the item lies in the room and in the realm of the user or,
    only when no item of the room has the name, is carried by the user;
    or the error that quotes the target as it was typed, when neither
    the room nor the inventory has an item of the name. *)
Theorem handleLook_describes socket user target w rm :
  eval (repo.getRoom (User.current_q user) (User.current_r user)
          (User.server_code user)) w = Ok (Some rm) ->
  startsWith (Room.id rm) "void-" = false ->
  let sc := User.server_code user in
  let w' := exec (looking.handleLook socket user target) w in
  let shown m ty := outbox w' = outbox w ++ [(socket, game_log m ty None)] in
  eval (looking.handleLook socket user target) w = Ok true
  /\ silent w' = silent w
  /\ (looking.blank target = true ->
        outbox w'
        = outbox w ++
          [(socket, game_log (wizard.text (Room.title rm)) log_info None);
           (socket, game_log (wizard.text (Room.description rm)) log_info
                      None)])
  /\ (looking.blank target = false ->
        (exists item,
           item ∈ items (db w) /\ looking.named target item = true
           /\ (repo.in_room (Room.id rm) sc item = true
               \/ (repo.owned_by (User.id user) sc item = true
                   /\ forall i, i ∈ items (db w) ->
                        repo.in_room (Room.id rm) sc i = true ->
                        looking.named target i = false))
           /\ shown (wizard.text (looking.description_of item)) log_info)
        \/ ((forall i, i ∈ items (db w) ->
               repo.in_room (Room.id rm) sc i = true
               \/ repo.owned_by (User.id user) sc i = true ->
               looking.named target i = false)
            /\ shown (msg_dont_see target) log_error)).
Proof.
  intros Hroom Hvoid sc w' shown. subst w' shown. cbv beta.
  pose proof Hroom as Hinv. apply getRoom_inv in Hinv as [Hsc _].
  assert (Hget : repo.getRoom (User.current_q user) (User.current_r user)
                   (User.server_code user) w = (Ok (Some rm), w)).
  { revert Hroom. unfold eval, repo.getRoom. rewrite Hsc. cbn [negb].
    unfold gets. cbn [fst]. intros [= ->]. reflexivity. }
  clear Hroom. unfold eval, exec, looking.handleLook. cbv zeta.
  rewrite !(bind_ok _ _ _ _ _ Hget). rewrite Hvoid.
  destruct (looking.blank target) eqn:Hblank.
  { mrun. split; [reflexivity|]. split; [reflexivity|].
    split; [|discriminate]. intros _. rewrite <- app_assoc. reflexivity. }
  unfold repo.getRoomItems, repo.getUserInventory. fold sc.
  replace (truthy sc) with true by (symmetry; exact Hsc). cbn [negb].
  mstep.
  destruct (find (looking.named target) (filter _ (items (db w))))
    as [item|] eqn:Hfind.
  - apply find_filter_elem in Hfind as (Hin & Hroom & Hname).
    mrun. split; [reflexivity|]. split; [reflexivity|].
    split; [discriminate|]. intros _. left. exists item. auto.
  - pose proof (find_filter_none _ _ _ Hfind) as Hnone.
    mstep.
    clear Hfind.
    destruct (find (looking.named target)
                (filter (fun i => Is_true (repo.owned_by (User.id user) sc i))
                   (items (db w)))) as [item|] eqn:Hinv.
    + apply find_filter_elem in Hinv as (Hin & Hown & Hname).
      mrun. split; [reflexivity|]. split; [reflexivity|].
      split; [discriminate|]. intros _. left. exists item.
      split; [exact Hin|]. split; [exact Hname|]. split; [|reflexivity].
      right. split; [exact Hown|exact Hnone].
    + pose proof (find_filter_none _ _ _ Hinv) as Hnone'.
      mrun. split; [reflexivity|]. split; [reflexivity|].
      split; [discriminate|]. intros _. right. split; [|reflexivity].
      intros i Hi [H|H]; eauto.
Qed.

Lemma handleLook_describes_witness :
  let w := Scene.world in
  eval (looking.handleLook "s2" Fixture.bob " ROPE ") w = Ok true
  /\ outbox (exec (looking.handleLook "s2" Fixture.bob " ROPE ") w)
     = [("s2", game_log (wizard.text "A rope.") log_info None)]
  /\ outbox (exec (looking.handleLook "s2" Fixture.bob "  ") w)
     = [("s2", game_log (wizard.text "Cave") log_info None);
        ("s2", game_log (wizard.text "A damp cave.") log_info None)].
Proof.
  intros w.
  destruct (handleLook_describes "s2" Fixture.bob " ROPE " w Fixture.cave
              eq_refl eq_refl) as (Hok & _ & _ & _).
  destruct (handleLook_describes "s2" Fixture.bob "  " w Fixture.cave
              eq_refl eq_refl) as (_ & _ & Hblank & _).
  split; [exact Hok|]. split; [reflexivity|]. exact (Hblank eq_refl).
Defined.

(** ** The modes of the wizard *)

Lemma update_user_set_state_twice uid m1 m2 l :
  repo.update_user uid (User.set_state m2)
    (repo.update_user uid (User.set_state m1) l)
  = repo.update_user uid (User.set_state m2) l.
Proof.
  unfold repo.update_user. rewrite map_map. apply map_ext. intros u.
  destruct (String.eqb (User.id u) uid) eqn:E.
  - cbn [User.set_state User.id]. rewrite E. reflexivity.
  - rewrite E. reflexivity.
Qed.

Lemma writes_mode_preserves {A} uid S (m : M A) :
  preserves (fun w => users (db w)) m -> modes.writes_mode uid S m.
Proof. intros Hm w. left. apply Hm. Qed.

Lemma writes_mode_bind {A B} uid S (m : M A) (k : A -> M B) :
  modes.writes_mode uid S m -> (forall a, modes.writes_mode uid S (k a)) ->
  modes.writes_mode uid S (bind m k).
Proof.
  intros Hm Hk w. unfold bind. specialize (Hm w).
  destruct (m w) as [[a|e] w1]; cbn [snd] in *; [|exact Hm].
  destruct (Hk a w1) as [Hk1|(m2 & Hin2 & Hk1)]; rewrite Hk1.
  - exact Hm.
  - right. exists m2. split; [exact Hin2|].
    destruct Hm as [->|(m1 & _ & ->)]; [reflexivity|].
    apply update_user_set_state_twice.
Qed.

Lemma writes_mode_update uid S m' :
  m' ∈ S -> modes.writes_mode uid S (repo.updateUserState uid m').
Proof. intros Hin w. right. exists m'. split; [exact Hin|reflexivity]. Qed.

Ltac arrow_step :=
  lazymatch goal with
  | |- modes.writes_mode _ _ (bind _ _) => apply writes_mode_bind; [|intros ?]
  | |- modes.writes_mode _ _ (repo.updateUserState _ _) =>
      apply writes_mode_update, list_elem_of_In; cbn [modes.arrows In];
      auto 10
  | |- modes.writes_mode _ _ (when ?b _) => destruct b; cbn [when]
  | |- modes.writes_mode _ _ (if ?b then _ else _) => destruct b
  | |- modes.writes_mode _ _ (match ?o with _ => _ end) => destruct o
  | |- modes.writes_mode _ _ _ =>
      apply writes_mode_preserves; solve [frame_all]
  end.

Ltac arrows := repeat (frame_handlers; arrow_step).

(** X24. The wizard moves along its arrows. Whatever is typed and
    whatever the world, one step of the wizard, whether it returns or
    throws, writes the table of users not at all or in one way: the
    mode of the user who typed becomes one of the modes that the table
    of arrows gives for the mode the user was in. No other column of
    that row and no row of another user changes. The mode
    CREATING_OBJ_CONTENTS is never written, so that no step of the
    wizard leads to the step of that mode. *)
Theorem wizard_follows_arrows uuid socket user input w :
  let w' := exec (@creation.handleInput (wizard.steps uuid) uuid socket user
                    input) w in
  users (db w') = users (db w)
  \/ exists m',
       m' ∈ modes.arrows (User.state user)
       /\ m' <> CREATING_OBJ_CONTENTS
       /\ users (db w')
          = repo.update_user (User.id user) (User.set_state m')
              (users (db w)).
Proof.
  intros w'. subst w'. unfold exec.
  assert (Hm : modes.writes_mode (User.id user) (modes.arrows (User.state user))
                 (@creation.handleInput (wizard.steps uuid) uuid socket user
                    input)).
  { unfold creation.handleInput.
    destruct (User.state user);
      cbn [wizard.steps creation.handleRoomTitle creation.handleRoomDesc
           creation.handleRoomMood creation.handleRoomShroud
           creation.handleObjConfirm creation.handleObjName
           creation.handleObjDesc creation.handleObjVerb
           creation.handleObjType creation.handleObjValue
           creation.handleObjEnemyStats creation.handleObjSupplyType];
      arrows. }
  destruct (Hm w) as [H|(m' & Hin & H)]; [left; exact H|].
  right. exists m'. split; [exact Hin|]. split; [|exact H].
  intros ->. apply list_elem_of_In in Hin.
  destruct (User.state user); cbn [modes.arrows In] in Hin;
    intuition discriminate.
Qed.

Lemma handleRetreat_outside_combat_witness :
  eval (combatState.isInCombat "u2") Fixture.quiet = Ok false
  /\ exec (handleRetreat "s2" Fixture.bob) Fixture.quiet
     = with_outbox (fun o => o ++ [("s2", game_log msg_not_in_combat
                                             log_error None)])
         Fixture.quiet.
Proof.
  split; [reflexivity|].
  unfold exec.
  rewrite (handleRetreat_outside_combat "s2" Fixture.bob Fixture.quiet eq_refl).
  reflexivity.
Defined.

Lemma handleRetreat_ends_battle_witness :
  eval (combatState.isInCombat "u1") (Fixture.fighting Fixture.ogre) = Ok true
  /\ eval (combatState.isInCombat "u1")
       (exec (handleRetreat "s1" Fixture.alice) (Fixture.fighting Fixture.ogre))
     = Ok false
  /\ users (db (exec (handleRetreat "s1" Fixture.alice)
                  (Fixture.fighting Fixture.ogre)))
     = [User.mk "u1" "alice" "ISLE" 0 10 100 5 2 (-1) IDLE;
        Fixture.bob; Fixture.carol].
Proof.
  pose proof (handleRetreat_ends_battle "s1" Fixture.alice
                (Fixture.fighting Fixture.ogre) Fixture.cave eq_refl eq_refl)
    as (_ & Hout & _ & _ & Husers & _).
  split; [reflexivity|]. split; [exact Hout|exact Husers].
Defined.

Lemma handleFight_starts_battle_witness :
  eval (fight_target Fixture.bob Fixture.cave "GOBLIN") Fixture.quiet
  = Ok (Some Fixture.goblin)
  /\ eval (combatState.getBattle "u2")
       (exec (handleFight "s2" Fixture.bob "GOBLIN") Fixture.quiet)
     = Ok (Some (ActiveBattle.mk "u2" "s2" "i1" 0))
  /\ live (timers (exec (handleFight "s2" Fixture.bob "GOBLIN") Fixture.quiet))
       !! 0%nat
     = Some (mkTickClosure "s2" Fixture.bob Fixture.goblin)
  /\ tick_ready (exec (handleFight "s2" Fixture.bob "GOBLIN") Fixture.quiet)
       (mkTickClosure "s2" Fixture.bob Fixture.goblin)
       (User.set_state COMBAT Fixture.bob) Fixture.cave Fixture.goblin.
Proof.
  assert (Hhp : 0 < Item.enemy_hp Fixture.goblin) by reflexivity.
  assert (Hpk : pk_items (db Fixture.quiet)).
  { unfold pk_items.
    apply (bool_decide_unpack
             (NoDup (map Item.id (items (db Fixture.quiet))))).
    vm_compute. reflexivity. }
  destruct (handleFight_starts_battle "s2" Fixture.bob "GOBLIN" Fixture.quiet
              Fixture.cave Fixture.goblin eq_refl (or_introl eq_refl) eq_refl
              eq_refl eq_refl Hhp) as [Hrun Hready].
  destruct (Hready eq_refl Hpk) as [Hready' _].
  split; [reflexivity|]. unfold exec. rewrite Hrun. cbn [snd].
  split; [reflexivity|]. split; [reflexivity|exact Hready'].
Defined.


Lemma tick_stops_without_fight_witness :
  live (timers (Fixture.fighting Fixture.lantern)) !! 0%nat
  = Some (Fixture.closure Fixture.lantern)
  /\ user_row "u1" (Fixture.fighting Fixture.lantern) = Some Fixture.alice
  /\ User.state Fixture.alice = COMBAT
  /\ live (timers (Fixture.after_tick Fixture.lantern 2 1)) !! 0%nat = None
  /\ eval (combatState.isInCombat "u1") (Fixture.after_tick Fixture.lantern 2 1)
     = Ok false
  /\ db (Fixture.after_tick Fixture.lantern 2 1)
     = repo.on_users (repo.update_user "u1" (User.set_state IDLE))
         (db (Fixture.fighting Fixture.lantern))
  /\ user_row "u1" (Fixture.after_tick Fixture.lantern 2 1)
     = Some (User.set_state IDLE Fixture.alice).
Proof.
  assert (Hnot : forall u rm e,
            ~ tick_ready (Fixture.fighting Fixture.lantern)
                (Fixture.closure Fixture.lantern) u rm e).
  { intros u rm e H. apply tick_ready_inv in H as (Hu & _ & Hr & He & Hhp).
    injection Hu as <-. injection Hr as <-. injection He as <-.
    discriminate Hhp. }
  assert (Hsc : forall u,
            user_row (User.id (tc_user (Fixture.closure Fixture.lantern)))
              (Fixture.fighting Fixture.lantern) = Some u ->
            truthy (User.server_code u) = true).
  { intros u Hu. injection Hu as <-. reflexivity. }
  pose proof (tick_stops_without_fight 0%nat (Fixture.closure Fixture.lantern)
                2 1 (Fixture.fighting Fixture.lantern) Hnot Hsc)
    as (_ & Hlive & Hout & _ & _ & Hidle & _).
  pose proof (Hidle Fixture.alice Fixture.cave eq_refl eq_refl) as Hdb.
  split; [reflexivity|]. split; [reflexivity|]. split; [reflexivity|].
  split; [exact Hlive|]. split; [exact Hout|]. split; [exact Hdb|].
  unfold user_row. unfold Fixture.after_tick. rewrite Hdb. reflexivity.
Defined.

Lemma server_keeps_battles_agree_witness :
  let w := Fixture.fighting Fixture.goblin in
  battles_agree w
  /\ battles_agree (exec (fire 0%nat 5 1) w)
  /\ battles_agree (exec (serve 10 Trap.rnd "-" "s2" "fight ogre") w)
  /\ battles_agree (exec (serve 10 Trap.rnd "-" "s2" "help") w)
  /\ battles_agree (exec (serve 10 Trap.rnd "-" "s2" "look ogre") w)
  /\ battles_agree (exec (serve 10 Trap.rnd "-" "s2" "regenerate") w)
  /\ battles_agree (exec (on_combat_retreat "s1") w).
Proof.
  intros w.
  assert (Hinv : battles_agree w).
  { unfold battles_agree, w, Fixture.fighting. cbn.
    split; [|split; [|split]].
    - intros uid. destruct (decide (uid = "u1")) as [->|Hne]; [reflexivity|].
      rewrite !lookup_singleton_ne by done. reflexivity.
    - intros uid h H. apply lookup_singleton_Some in H as [<- <-].
      eexists. split; reflexivity.
    - intros h cl H. apply lookup_singleton_Some in H as [<- <-]. reflexivity.
    - intros h cl H. apply lookup_singleton_Some in H as [<- _]. lia. }
  destruct (server_keeps_battles_agree 10 Trap.rnd w Hinv)
    as (Hcmd & Hretreat & _ & Hfire & _).
  split; [exact Hinv|]. split; [apply Hfire|].
  do 4 (split; [apply Hcmd|]). apply Hretreat.
Defined.

Lemma nobody_is_served_witness :
  session_user "s9" Scene.world = None
  /\ eval (cmd_input "-" "s9" "look") Scene.world = Ok []
  /\ on_combat_retreat "s9" Scene.world = (Ok tt, Scene.world).
Proof.
  destruct (@nobody_is_served Fixture.stub_steps Fixture.stub_general
              "-" "s9" "look" Scene.world eq_refl)
    as ((msg & Hrun & _) & Hretreat).
  split; [reflexivity|]. split; [|exact Hretreat].
  unfold eval. rewrite Hrun. reflexivity.
Defined.

Lemma on_combat_retreat_ends_battle_witness :
  let w := Fixture.fighting Fixture.ogre in
  let w' := exec (on_combat_retreat "s1") w in
  session_user "s1" w = Some Fixture.alice
  /\ eval (combatState.isInCombat "u1") w = Ok true
  /\ eval (combatState.isInCombat "u1") w' = Ok false
  /\ live (timers w') !! 0%nat = None
  /\ user_row "u1" w' = Some (User.set_state IDLE Fixture.alice).
Proof.
  intros w w'.
  destruct (on_combat_retreat_ends_battle "s1" w Fixture.alice Fixture.cave
              eq_refl eq_refl eq_refl)
    as (_ & Hout & Htimer & Hrow & _).
  split; [reflexivity|]. split; [reflexivity|]. split; [exact Hout|].
  split; [|exact Hrow].
  apply (Htimer (ActiveBattle.mk "u1" "s1" "i3" 0)). reflexivity.
Defined.

Lemma createItem_round_trip_witness :
  let marked := Item.set_is_infinite 1 Fixture.berry in
  let row := Item.set_is_infinite 0 (Item.set_id "i20" Fixture.berry) in
  Item.is_infinite marked = 1
  /\ repo.item_exists "i20" (db Scene.world) = false
  /\ eval (repo.createItem "i20" marked) Scene.world = Ok row
  /\ repo.item_exists "i8" (db Scene.world) = true
  /\ repo.createItem "i8" marked Scene.world
     = (Throw SqliteError, Scene.world).
Proof.
  intros marked row.
  destruct (createItem_round_trip "i20" marked Scene.world
              eq_refl eq_refl eq_refl eq_refl) as [Hnew _].
  destruct (createItem_round_trip "i8" marked Scene.world
              eq_refl eq_refl eq_refl eq_refl) as [_ Htaken].
  destruct (Hnew eq_refl) as [Hrun _].
  split; [reflexivity|]. split; [reflexivity|]. split.
  { unfold eval. rewrite Hrun. reflexivity. }
  split; [reflexivity|]. exact (Htaken eq_refl).
Defined.

Lemma createRoom_and_the_coordinate_witness :
  let room := Room.mk "" 2 (-1) "ISLE" "Second Cave" "Another cave." 0 "u4"
                None in
  eval (repo.getRoom 2 (-1) "ISLE") Scene.world = Ok (Some Fixture.cave)
  /\ eval (rooms.createRoom "r9" room) Scene.world = Ok Fixture.cave
  /\ length (rooms (db (exec (rooms.createRoom "r9" room) Scene.world))) = 3%nat
  /\ eval (repo.getRoom 2 (-1) "ISLE")
       (exec (rooms.createRoom "r9" room) Scene.world)
     = Ok (Some Fixture.cave).
Proof.
  intros room.
  destruct (createRoom_and_the_coordinate "r9" room Scene.world
              eq_refl eq_refl eq_refl (Some Fixture.cave) eq_refl)
    as [Hrun Hget].
  split; [reflexivity|]. unfold eval, exec. rewrite Hrun.
  split; [reflexivity|]. split; [reflexivity|]. exact Hget.
Defined.

(** ** What a computation sends *)









(** ** Combat: what a tick resolves *)





(** ** Pickups: an item marked as infinite *)

(** C7, at the failing input. Dave authors a pickup in the room he has
    just made and answers the question "Unique or Infinite?" with 2:
    the scratch record holds the mark. The row that [createItem] stores
    does not: the table has no such column. When dave then takes the
    apple, the handler therefore moves the one row: dave owns it, no
    row is added and the room holds no apple any more. Erin, who walks
    in and tries to take one too, is told that she does not see it;
    she owns nothing and the table is as dave left it. *)
Theorem infinite_item_is_moved :
  let apple := Item.mk "i20" (Some "r9") None "ISLE" "Apple" "A red apple."
                 "Crunchy." "take" ITEM 0 0 None 0 0 0 10 0 in
  TempItemData.isInfinite <$> tempItemDataMap (store Orchard.chosen) !! "u4"
  = Some (Some true)
  /\ eval (repo.getRoomItems "r9" "ISLE") Orchard.opened = Ok [apple]
  /\ eval (serve 10 Trap.rnd "i21" "s4" "take apple") Orchard.opened
     = Ok [H_move; H_interaction]
  /\ items (db Orchard.taken)
     = items Scene.cave_db ++ [Item.set_placement (Some "u4") None apple]
  /\ eval (repo.getRoomItems "r9" "ISLE") Orchard.taken = Ok []
  /\ eval (repo.getUserInventory "u4" "ISLE") Orchard.taken
     = Ok [Item.set_placement (Some "u4") None apple]
  /\ user_row "u5" Orchard.second
     = Some (User.mk "u5" "erin" "ISLE" 1 10 100 0 2 (-2) IDLE)
  /\ (exists p,
        skipn (length (outbox Orchard.taken)) (outbox Orchard.second)
        = [("s5", state_update p);
           ("s5", game_log (msg_dont_see "apple") log_error None)])
  /\ items (db Orchard.second) = items (db Orchard.taken)
  /\ eval (repo.getUserInventory "u5" "ISLE") Orchard.second = Ok [].
Proof.
  vm_compute. repeat split. eexists. reflexivity.
Qed.

(** ** The rows of the items table *)

Lemma rows_of_items {A} (m : M A) :
  preserves (fun w => items (db w)) m -> keeps stored_rows m.
Proof. intros Hm w Hw i Hi. rewrite Hm in Hi. exact (Hw i Hi). Qed.

Lemma rows_update_item iid f :
  (forall i, Item.is_infinite (f i) = Item.is_infinite i
             /\ Item.xp_value (f i) = Item.xp_value i) ->
  keeps stored_rows
    (modify (with_db (repo.on_items (repo.update_item iid f)))).
Proof.
  intros Hf w Hw i Hi. cbn in Hi. unfold repo.update_item in Hi.
  apply list_elem_of_fmap in Hi as (x & -> & Hx).
  destruct (String.eqb (Item.id x) iid); [|exact (Hw x Hx)].
  destruct (Hf x) as [-> ->]. exact (Hw x Hx).
Qed.

Lemma rows_updateItemEnemyHp iid hp :
  keeps stored_rows (repo.updateItemEnemyHp iid hp).
Proof. apply rows_update_item. intros i. split; reflexivity. Qed.

Lemma rows_setItemOwner iid owner room :
  keeps stored_rows (repo.setItemOwner iid owner room).
Proof.
  unfold repo.setItemOwner. apply keeps_bind.
  - apply rows_of_items. intros w. reflexivity.
  - intros d.
    destruct (_ && _); [apply rows_of_items; intros w; reflexivity|].
    apply rows_update_item. intros i. split; reflexivity.
Qed.

Lemma rows_deleteItem iid : keeps stored_rows (repo.deleteItem iid).
Proof.
  intros w Hw i Hi. unfold repo.deleteItem in Hi. cbn in Hi.
  apply list_elem_of_filter in Hi as [_ Hi].
  change (map ?f ?l) with (f <$> l) in Hi.
  apply list_elem_of_fmap in Hi as (x & -> & Hx).
  destruct (eqb_opt iid (Item.required_item_id x)); exact (Hw x Hx).
Qed.

Lemma rows_createItem newId item :
  Item.xp_value item <> 0 -> keeps stored_rows (repo.createItem newId item).
Proof.
  intros Hxp w Hw. unfold repo.createItem.
  destruct (negb (truthy (Item.server_code item))); [exact Hw|].
  unfold bind at 1, gets at 1.
  destruct (_ || _); [exact Hw|].
  unfold bind at 1, modify at 1.
  match goal with
  | |- stored_rows (snd (bind ?m ?k ?W)) =>
      assert (Hw' : stored_rows W);
      [|assert (Hm : preserves (fun w => items (db w)) (bind m k))
          by (unfold repo.getItem; frame);
        intros i Hi; rewrite Hm in Hi; exact (Hw' i Hi)]
  end.
  intros i Hi. cbn in Hi. apply elem_of_app in Hi as [Hi|Hi]; [exact (Hw i Hi)|].
  apply list_elem_of_singleton in Hi as ->. split; [reflexivity|exact Hxp].
Qed.

Lemma keeps_bind_read {A B} (I : World -> Prop) (P : A -> Prop) (m : M A)
    (k : A -> M B) :
  (forall w, I w -> snd (m w) = w /\ forall a, fst (m w) = Ok a -> P a) ->
  (forall a, P a -> keeps I (k a)) ->
  keeps I (bind m k).
Proof.
  intros Hm Hk w Hw. unfold bind. destruct (Hm w Hw) as [Hsame HP].
  destruct (m w) as [[a|e] w1]; cbn [fst snd] in *; subst w1; [|exact Hw].
  apply Hk; [apply HP; reflexivity|exact Hw].
Qed.

Lemma items_of_silent {A} (m : M A) :
  preserves silent m -> preserves (fun w => items (db w)) m.
Proof.
  intros Hm w. specialize (Hm w). unfold silent in Hm.
  injection Hm as -> _ _ _. reflexivity.
Qed.

Ltac rows_leaf :=
  apply rows_of_items;
  solve [unfold clearInterval, setInterval, handlePlayerDeath,
           combatState.isInCombat, combatState.startBattle,
           on_combat_retreat, on_disconnect, store.deleteSession,
           wizard.on_generation_failed, wizard.generated;
         frame_all].

Ltac rows_step :=
  lazymatch goal with
  | |- keeps _ (bind _ _) => apply keeps_bind; [|intros ?]
  | |- keeps _ (repo.updateItemEnemyHp _ _) => apply rows_updateItemEnemyHp
  | |- keeps _ (repo.setItemOwner _ _ _) => apply rows_setItemOwner
  | |- keeps _ (repo.deleteItem _) => apply rows_deleteItem
  | |- keeps _ (combatState.endBattle _) =>
      apply rows_of_items, preserves_endBattle; intros ? ?; reflexivity
  | |- keeps _ (when ?b _) => destruct b; cbn [when]
  | |- keeps _ (if ?b then _ else _) => destruct b
  | |- keeps _ (match ?o with _ => _ end) => destruct o
  | |- keeps _ _ => rows_leaf
  end.

Lemma apply_effect_rows uuid socket user verb item :
  Item.xp_value item <> 0 ->
  keeps stored_rows (apply_effect uuid socket user verb item).
Proof.
  intros Hxp. unfold apply_effect. cbv zeta.
  repeat lazymatch goal with
         | |- keeps _ (repo.cloneItemForUser _ _ _) =>
             unfold repo.cloneItemForUser; apply rows_createItem; exact Hxp
         | |- _ => rows_step
         end.
Qed.

Lemma handleInteraction_rows uuid socket user command :
  keeps stored_rows (handleInteraction uuid socket user command).
Proof.
  unfold handleInteraction.
  destruct (parse_command command) as [[verb objectName]|];
    [|rows_leaf].
  apply keeps_bind; [rows_leaf|]. intros [rm|]; [|rows_leaf].
  destruct (startsWith (Room.id rm) "void-"); [rows_leaf|].
  apply (keeps_bind_read _
           (fun a => forall it, a = Some it -> Item.xp_value it <> 0)).
  { intros w Hw. split.
    - pose proof (find_target_state user rm objectName w) as H. exact H.
    - intros a Ha it ->. apply find_target_elem in Ha as [Hin _].
      apply (Hw it Hin). }
  intros [it|] Hit; [|rows_leaf].
  specialize (Hit it eq_refl).
  destruct (negb _); [rows_leaf|].
  apply keeps_bind; [rows_leaf|]. intros [|]; [rows_leaf|].
  apply keeps_bind; [apply apply_effect_rows, Hit|].
  intros [msg|]; rows_leaf.
Qed.

Lemma tick_rows interval cl rnd1 rnd2 :
  keeps stored_rows (tick interval cl rnd1 rnd2).
Proof.
  unfold tick, resolve_phase, check_outcomes. cbv zeta.
  repeat rows_step.
Qed.

Lemma fire_rows interval rnd1 rnd2 :
  keeps stored_rows (fire interval rnd1 rnd2).
Proof.
  unfold fire. apply keeps_bind; [rows_leaf|].
  intros [cl|]; [apply tick_rows|rows_leaf].
Qed.

Lemma finishObjectCreation_rows uuid socket user d :
  keeps stored_rows (creation.finishObjectCreation uuid socket user d).
Proof.
  unfold creation.finishObjectCreation. cbv zeta.
  repeat lazymatch goal with
         | |- keeps _ (repo.createItem _ _) =>
             apply rows_createItem; cbn [Item.xp_value]; unfold or_num;
             destruct (TempItemData.interactionType d) as [[]|];
             try discriminate;
             destruct (_ =? 0) eqn:E; [discriminate|];
             apply Z.eqb_neq; exact E
         | |- _ => rows_step
         end.
Qed.

Lemma wizard_rows_kept uuid socket user input :
  keeps stored_rows
    (@creation.handleInput (wizard.steps uuid) uuid socket user input).
Proof.
  unfold creation.handleInput.
  destruct (User.state user);
    cbn [wizard.steps creation.handleRoomTitle creation.handleRoomDesc
         creation.handleRoomMood creation.handleRoomShroud
         creation.handleObjConfirm creation.handleObjName
         creation.handleObjDesc creation.handleObjVerb creation.handleObjType
         creation.handleObjValue creation.handleObjEnemyStats
         creation.handleObjSupplyType];
    unfold creation.handleObjSuccessMsg, creation.handleObjVerbConfirm,
      creation.handleObjContents;
    repeat lazymatch goal with
           | |- keeps _ (creation.finishObjectCreation _ _ _ _) =>
               apply finishObjectCreation_rows
           | |- _ => rows_step
           end.
Qed.

Lemma handleRegenerate_items socket user mood :
  preserves (fun w => items (db w))
    (commands.handleRegenerate socket user mood).
Proof.
  unfold commands.handleRegenerate. cbv zeta.
  repeat lazymatch goal with
         | |- preserves _ (commands.try_catch _ _) =>
             apply preserves_try_catch; [|intros ?]
         | |- preserves _ (commands.deleteRoomAnimations _) =>
             unfold commands.deleteRoomAnimations
         | |- _ => frame_repo; frame_step
         end.
Qed.

Lemma serve_rows fuel rnd uuid socket raw :
  keeps stored_rows (serve fuel rnd uuid socket raw).
Proof.
  unfold serve, command, cmd_input. cbv zeta.
  repeat lazymatch goal with
         | |- keeps _ (handleInteraction _ _ _ _) =>
             apply handleInteraction_rows
         | |- keeps _ (creation.handleInput _ _ _ _) =>
             apply wizard_rows_kept
         | |- keeps _ (handleFight _ _ _) => unfold handleFight; cbv zeta
         | |- keeps _ (handleRetreat _ _) => unfold handleRetreat; cbv zeta
         | |- keeps _ (general.handleHelp _ _) =>
             apply rows_of_items, items_of_silent, handleHelp_silent
         | |- keeps _ (general.handleLook _ _ _) =>
             apply rows_of_items, items_of_silent, handleLook_silent
         | |- keeps _ (general.handleRegenerate _ _ _) =>
             apply rows_of_items, handleRegenerate_items
         | |- _ => rows_step
         end.
Qed.

Lemma on_generated_rows socket user rm :
  keeps stored_rows (wizard.on_generated socket user rm).
Proof.
  intros w Hw. unfold wizard.on_generated.
  assert (H1 : keeps stored_rows (wizard.generated socket user))
    by rows_leaf.
  assert (H2 : keeps stored_rows (wizard.on_generation_failed socket user rm))
    by rows_leaf.
  specialize (H1 w Hw).
  destruct (wizard.generated socket user w) as [[a|e] w1]; cbn [snd] in *;
    [exact H1|apply H2, H1].
Qed.

(** X25. The rows of the items table stay as the repository writes
    them. When no row carries [is_infinite] and no row has the
    [xp_value] 0, as in a table without rows, this is still so after
    a command on [cmd:input], whatever its text, after the
    [combat:retreat] event, a disconnection, the firing of a timer and
    the two continuations that end the generation of animations of the
    wizard, whether they return or throw: [createItem] does not store
    the mark, the wizard gives every row the XP value typed, which it
    refuses unless it is positive, or 10, and no other statement
    writes the two fields. *)
Theorem stored_rows_kept fuel rnd w :
  stored_rows w ->
  (forall uuid socket raw,
     stored_rows (exec (serve fuel rnd uuid socket raw) w))
  /\ (forall socket, stored_rows (exec (on_combat_retreat socket) w))
  /\ (forall socket, stored_rows (exec (on_disconnect socket) w))
  /\ (forall interval rnd1 rnd2,
        stored_rows (exec (fire interval rnd1 rnd2) w))
  /\ (forall socket user rm,
        stored_rows (exec (wizard.on_generated socket user rm) w)
        /\ stored_rows
             (exec (wizard.on_generation_failed socket user rm) w)).
Proof.
  intros Hw. split; [|split; [|split; [|split]]]; intros.
  - apply serve_rows, Hw.
  - assert (H : keeps stored_rows (on_combat_retreat socket)).
    { unfold on_combat_retreat.
      repeat lazymatch goal with
             | |- keeps _ (handleRetreat _ _) =>
                 unfold handleRetreat; cbv zeta
             | |- _ => rows_step
             end. }
    apply H, Hw.
  - assert (H : keeps stored_rows (on_disconnect socket)) by rows_leaf.
    apply H, Hw.
  - apply fire_rows, Hw.
  - split; [apply on_generated_rows, Hw|].
    assert (H : keeps stored_rows
                  (wizard.on_generation_failed socket user rm))
      by rows_leaf.
    apply H, Hw.
Qed.

(** A database without items, as the schema creates it, has the
    property. *)
Lemma stored_rows_empty w : items (db w) = [] -> stored_rows w.
Proof. intros H i Hi. rewrite H in Hi. inversion Hi. Qed.

Lemma stored_rows_kept_witness :
  let w := Fixture.fighting Fixture.goblin in
  stored_rows w
  /\ stored_rows (exec (serve 10 Trap.rnd "i7" "s2" "take lantern") w)
  /\ stored_rows (exec (fire 0%nat 5 1) w).
Proof.
  intros w.
  assert (H0 : stored_rows w).
  { intros i Hi. apply list_elem_of_In in Hi. cbn in Hi.
    repeat (destruct Hi as [<-|Hi]; [split; [reflexivity|discriminate]|]).
    destruct Hi. }
  destruct (stored_rows_kept 10 Trap.rnd w H0) as (Hcmd & _ & _ & Hfire & _).
  split; [exact H0|]. split; [apply Hcmd|apply Hfire].
Defined.
